(** * Pragotron minute-clock controller: time reconciliation and catch-up

    A shallow embedding of the controller's core (PulseManager,
    StateManager, SystemManager and the NTP helper of RTCManager) and the
    properties of its reconciliation engine.

    Conventions.
    - C [int] values are modelled as [Z]; [/] and [%] are the truncating
      [Z.quot] and [Z.rem].  Minute and timing quantities stay far inside
      the 32-bit range, so signed overflow never arises on them.
    - [uint32_t] values are modelled as [Z] with the wrap-around written
      out through [u32].
    - Every reading of the outside world (millis(), the system clock, the
      RTC, the tm_isdst flags) is an explicit argument of the function that
      performs the reading, in the order in which the code reads it.
    - A DateTime keeps the fields it is built from; the engine only builds
      them from hours in [0,23] and minutes in [0,59].
    - Serial.print diagnostics are not modelled; Logger calls are. *)

From Stdlib Require Import ZArith List String Ascii Bool Lia DecimalString.
Import ListNotations.
Open Scope Z_scope.

(** ** Machine integers *)

Definition u32 (x : Z) : Z := x mod 2 ^ 32.

(** ** RTClib's DateTime, as far as the controller uses it *)

Record DateTime : Type := mkDateTime
  { year : Z; month : Z; day : Z; hour : Z; minute : Z; second : Z }.

(** A DateTime read from a clock has its time of day in range. *)
Definition time_of_day_ok (dt : DateTime) : Prop :=
  0 <= hour dt < 24 /\ 0 <= minute dt < 60.

(** ** PulseManager: the H-bridge pulser *)

Module PulseManager.

Inductive Level : Type := LOW | HIGH.

(** One step of the bridge: the levels written to IN1 and IN2 and the
    delay() that follows the write. *)
Record Drive : Type := mkDrive { in1 : Level; in2 : Level; hold : Z }.

Inductive Polarity : Type := A | B.

Record t : Type := mk
  { durationMs : Z;      (* active drive time per pulse *)
    pauseMs : Z;         (* dead-time after each pulse *)
    lastWasA : bool;     (* false: last was B, next will be A *)
    lastTrigMs : Z;      (* uint32_t: completion time of the last pulse *)
    minGapMs : Z;        (* uint32_t: anti-duplicate guard *)
    gpio : list Drive    (* what has been driven so far, oldest first *) }.

(** The object as its member initialisers leave it. *)
Definition init : t :=
  {| durationMs := 200; pauseMs := 200; lastWasA := false;
     lastTrigMs := 0; minGapMs := 600; gpio := [] |}.

Definition drive (d : list Drive) (p : t) : t :=
  {| durationMs := durationMs p; pauseMs := pauseMs p;
     lastWasA := lastWasA p; lastTrigMs := lastTrigMs p;
     minGapMs := minGapMs p; gpio := gpio p ++ d |}.

(** PulseManager::begin *)
Definition begin (p : t) : t :=
  {| durationMs := durationMs p; pauseMs := pauseMs p;
     lastWasA := false; lastTrigMs := 0;
     minGapMs := minGapMs p; gpio := gpio p ++ [mkDrive LOW LOW 0] |}.

(** PulseManager::setImpulseTiming *)
Definition setImpulseTiming (pulseDurationMs pauseAfterMs : Z) (p : t) : t :=
  {| durationMs := pulseDurationMs; pauseMs := pauseAfterMs;
     lastWasA := lastWasA p; lastTrigMs := lastTrigMs p;
     minGapMs := minGapMs p; gpio := gpio p |}.

(** PulseManager::setMinGapMs *)
Definition setMinGapMs (ms : Z) (p : t) : t :=
  {| durationMs := durationMs p; pauseMs := pauseMs p;
     lastWasA := lastWasA p; lastTrigMs := lastTrigMs p;
     minGapMs := ms; gpio := gpio p |}.

(** PulseManager::stopBridge followed by the dead-time delay *)
Definition coast (p : t) : Drive := mkDrive LOW LOW (pauseMs p).

(** PulseManager::pulseA: IN1=HIGH, IN2=LOW for durationMs, then coast *)
Definition pulseA (p : t) : t :=
  drive [mkDrive HIGH LOW (durationMs p); coast p] p.

(** PulseManager::pulseB: IN1=LOW, IN2=HIGH for durationMs, then coast *)
Definition pulseB (p : t) : t :=
  drive [mkDrive LOW HIGH (durationMs p); coast p] p.

(** [max<uint32_t>(minGapMs, (uint32_t)(durationMs + pauseMs + 50))] *)
Definition requiredGap (p : t) : Z :=
  Z.max (minGapMs p) (u32 (durationMs p + pauseMs p + 50)).

Definition flip (done : Z) (p : t) : t :=
  {| durationMs := durationMs p; pauseMs := pauseMs p;
     lastWasA := negb (lastWasA p); lastTrigMs := done;
     minGapMs := minGapMs p; gpio := gpio p |}.

(** PulseManager::triggerPulse.  [now] is the millis() read on entry,
    [done] the one read after the pulse has completed. *)
Definition triggerPulse (now done : Z) (allowBurst : bool) (p : t)
  : bool * t :=
  if negb allowBurst && (u32 (now - lastTrigMs p) <? requiredGap p)
  then (false, p)
  else (true, flip done (if lastWasA p then pulseB p else pulseA p)).

(** The polarity the next accepted call will drive. *)
Definition next (p : t) : Polarity := if lastWasA p then B else A.

(** Reading the wire: which polarity, if any, a bridge step drives. *)
Definition polarity_of (d : Drive) : option Polarity :=
  match in1 d, in2 d with
  | HIGH, LOW => Some A
  | LOW, HIGH => Some B
  | _, _ => None
  end.

Fixpoint polarities (g : list Drive) : list Polarity :=
  match g with
  | [] => []
  | d :: g' =>
      match polarity_of d with
      | Some x => x :: polarities g'
      | None => polarities g'
      end
  end.

(** The pulses emitted so far, oldest first. *)
Definition emitted (p : t) : list Polarity := polarities (gpio p).

Definition opposite (x : Polarity) : Polarity :=
  match x with A => B | B => A end.

(** The sequence A, B, A, B, ... of a given length. *)
Fixpoint alternating (first : Polarity) (n : nat) : list Polarity :=
  match n with
  | O => []
  | S n' => first :: alternating (opposite first) n'
  end.

(** One call of triggerPulse as the caller sees it. *)
Record Call : Type := mkCall { at_ms : Z; done_ms : Z; burst : bool }.

(** A series of triggerPulse calls; the results are the returned flags. *)
Fixpoint run (cs : list Call) (p : t) : list bool * t :=
  match cs with
  | [] => ([], p)
  | c :: cs' =>
      let (r, p1) := triggerPulse (at_ms c) (done_ms c) (burst c) p in
      let (rs, p2) := run cs' p1 in
      (r :: rs, p2)
  end.

(** PulseManager::forceA and PulseManager::forceB: diagnostics that drive
    one polarity directly. *)
Definition forceA (p : t) : t := pulseA p.
Definition forceB (p : t) : t := pulseB p.

(** The public operations of the class. *)
Inductive Op : Type :=
| OpBegin
| OpSetImpulseTiming (pulseDurationMs pauseAfterMs : Z)
| OpSetMinGapMs (ms : Z)
| OpTriggerPulse (c : Call)
| OpForceA
| OpForceB.

Definition exec (o : Op) (p : t) : t :=
  match o with
  | OpBegin => begin p
  | OpSetImpulseTiming d z => setImpulseTiming d z p
  | OpSetMinGapMs ms => setMinGapMs ms p
  | OpTriggerPulse c => snd (triggerPulse (at_ms c) (done_ms c) (burst c) p)
  | OpForceA => forceA p
  | OpForceB => forceB p
  end.

Fixpoint execAll (os : list Op) (p : t) : t :=
  match os with
  | [] => p
  | o :: os' => execAll os' (exec o p)
  end.

(** Both bridge inputs HIGH at once. *)
Definition shorted (d : Drive) : bool :=
  match in1 d, in2 d with HIGH, HIGH => true | _, _ => false end.

Definition energised (d : Drive) : bool :=
  match in1 d, in2 d with LOW, LOW => false | _, _ => true end.

(** Every energised step is directly followed by a coasting one. *)
Fixpoint released (g : list Drive) : bool :=
  match g with
  | [] => true
  | d :: g' =>
      (if energised d
       then match g' with c :: _ => negb (energised c) | [] => false end
       else true)
      && released g'
  end.

(** The bridge at rest. *)
Definition idle_step : Drive := mkDrive LOW LOW 0.

(** Never shorted and always released, together. *)
Definition sound (g : list Drive) : bool :=
  forallb (fun d => negb (shorted d)) g && released g.

End PulseManager.

(** ** A model of the two sscanf formats StateManager uses *)

Module Scan.

Inductive directive : Type :=
| D_int                 (* %d *)
| D_lit (c : ascii)     (* an ordinary character *)
| D_ws.                 (* white space in the format *)

(** C's isspace in the "C" locale *)
Definition isspace (c : ascii) : bool :=
  let n := Z.of_nat (nat_of_ascii c) in
  (n =? 32) || ((9 <=? n) && (n <=? 13)).

Definition digit_of (c : ascii) : option Z :=
  let n := Z.of_nat (nat_of_ascii c) in
  if (48 <=? n) && (n <=? 57) then Some (n - 48) else None.

Fixpoint skip_space (s : string) : string :=
  match s with
  | String c r => if isspace c then skip_space r else s
  | EmptyString => s
  end.

Fixpoint scan_digits (acc : Z) (s : string) : Z * string :=
  match s with
  | String c r =>
      match digit_of c with
      | Some d => scan_digits (acc * 10 + d) r
      | None => (acc, s)
      end
  | EmptyString => (acc, s)
  end.

Definition starts_with_digit (s : string) : bool :=
  match s with
  | String c _ => match digit_of c with Some _ => true | None => false end
  | EmptyString => false
  end.

(** %d: skip white space, an optional sign, then at least one digit.
    [None] is a failed conversion.  Numbers are taken to fit an int. *)
Definition scan_int (s : string) : option (Z * string) :=
  match skip_space s with
  | EmptyString => None
  | String c r =>
      let neg := Ascii.eqb c "-" in
      let body := if neg || Ascii.eqb c "+" then r else String c r in
      if starts_with_digit body
      then let (v, rest) := scan_digits 0 body in
           Some (if neg then - v else v, rest)
      else None
  end.

(** sscanf: the values converted and assigned, in order, up to the first
    directive that fails.  Its C return value is the length of this list
    (an input failure before the first conversion, EOF in C, shows here
    as no assignment: it fails the comparisons with 5 and 2 the same). *)
Fixpoint sscanf (fmt : list directive) (s : string) : list Z :=
  match fmt with
  | [] => []
  | D_int :: fmt' =>
      match scan_int s with
      | Some (v, rest) => v :: sscanf fmt' rest
      | None => []
      end
  | D_lit c :: fmt' =>
      match s with
      | String c' r => if Ascii.eqb c c' then sscanf fmt' r else []
      | EmptyString => []
      end
  | D_ws :: fmt' => sscanf fmt' (skip_space s)
  end.

(** Out-parameters: the converted values overwrite a prefix of them. *)
Fixpoint assign (vals outs : list Z) : list Z :=
  match vals, outs with
  | v :: vals', _ :: outs' => v :: assign vals' outs'
  | _, _ => outs
  end.

(** "%d-%d-%d %d:%d" *)
Definition fmt_date_time : list directive :=
  [D_int; D_lit "-"; D_int; D_lit "-"; D_int; D_ws; D_int; D_lit ":"; D_int].

(** "%d:%d" *)
Definition fmt_time : list directive := [D_int; D_lit ":"; D_int].

End Scan.

(** ** StateManager: the persisted clock position on the SD card *)

Module StateManager.

(** The card as the manager sees it: the state file (absent or its
    text), and whether SD.open succeeds for reading and for writing. *)
Record SD : Type := mkSD
  { file : option string; readable : bool; writable : bool }.

Definition crlf : string := String "013" (String "010" EmptyString).

(** [File::println] on a file opened with FILE_WRITE (create/overwrite) *)
Definition overwrite (text : string) (sd : SD) : SD :=
  {| file := Some (text ++ crlf)%string; readable := readable sd;
     writable := writable sd |}.

(** "%02d" *)
Definition fmt02d (n : Z) : string :=
  let s := NilZero.string_of_int (Z.to_int n) in
  if (String.length s <? 2)%nat then ("0" ++ s)%string else s.

(** [snprintf(buf, 6, "%02d:%02d", h, m)]: at most five characters *)
Definition hhmm (h m : Z) : string :=
  substring 0 5 (fmt02d h ++ ":" ++ fmt02d m)%string.

(** StateManager::formatDateTime *)
Definition formatDateTime (dt : DateTime) : string :=
  hhmm (hour dt) (minute dt).

(** StateManager::saveClockTime *)
Definition saveClockTime (dt : DateTime) (sd : SD) : bool * SD :=
  if writable sd
  then (true, overwrite (formatDateTime dt) sd)
  else (false, sd).

(** [if (nf) { nf.println(text); nf.close(); }] *)
Definition try_write (text : string) (sd : SD) : SD :=
  if writable sd then overwrite text sd else sd.

Definition valid_hm (h m : Z) : bool :=
  (0 <=? h) && (h <? 24) && (0 <=? m) && (m <? 60).

Definition midnight : DateTime := mkDateTime 2000 1 1 0 0 0.

(** StateManager::parseLine *)
Definition parseLine (line : string) (sd : SD) : DateTime * SD :=
  let r1 := Scan.sscanf Scan.fmt_date_time line in
  let o1 := Scan.assign r1 [2000; 1; 1; -1; -1] in
  let h1 := nth 3 o1 (-1) in
  let m1 := nth 4 o1 (-1) in
  if (Z.of_nat (List.length r1) =? 5) && valid_hm h1 m1
  then (mkDateTime 2000 1 1 h1 m1 0, sd)
  else
    let r2 := Scan.sscanf Scan.fmt_time line in
    let o2 := Scan.assign r2 [h1; m1] in
    let h2 := nth 0 o2 (-1) in
    let m2 := nth 1 o2 (-1) in
    if (Z.of_nat (List.length r2) =? 2) && valid_hm h2 m2
    then (mkDateTime 2000 1 1 h2 m2 0, sd)
    else (midnight, try_write "00:00" sd).

(** [File::readStringUntil(c)]: the text before the first [c] *)
Fixpoint readStringUntil (c : ascii) (s : string) : string :=
  match s with
  | String x r => if Ascii.eqb x c then EmptyString
                  else String x (readStringUntil c r)
  | EmptyString => EmptyString
  end.

(** StateManager::loadLastKnownClockTime.  [lt] is what localtime()
    yields when the file is missing: [None] for a null pointer, else
    tm_hour and tm_min. *)
Definition loadLastKnownClockTime (lt : option (Z * Z)) (sd : SD)
  : DateTime * SD :=
  match file sd with
  | None =>
      let (h, m) := match lt with Some hm => hm | None => (0, 0) end in
      (mkDateTime 2000 1 1 h m 0, try_write (hhmm h m) sd)
  | Some text =>
      if readable sd
      then parseLine (readStringUntil "010" text) sd
      else (midnight, try_write "00:00" sd)
  end.

End StateManager.

(** ** RTCManager: the NTP helper *)

Module RTCManager.

(** What getNtpTime returns when no poll succeeds. *)
Definition sentinel : DateTime := mkDateTime 2000 1 1 0 0 0.

(** RTCManager::getNtpTime.  [polls] are the outcomes of the successive
    getLocalTime calls made before the timeout expires. *)
Fixpoint getNtpTime (polls : list (option DateTime)) : DateTime :=
  match polls with
  | [] => sentinel
  | Some dt :: _ => dt
  | None :: polls' => getNtpTime polls'
  end.

(** The callers' test for a usable answer: [ntp.year() >= 2020] *)
Definition usable (ntp : DateTime) : bool := 2020 <=? year ntp.

(** "%+d" *)
Definition fmt_signed (n : Z) : string :=
  if n <? 0 then NilZero.string_of_int (Z.to_int n)
  else ("+" ++ NilZero.string_of_int (Z.to_int n))%string.

(** RTCManager::buildTZ.  The 48-byte buffer holds any result built from
    two ints. *)
Definition buildTZ (offsetHours offsetMinutes : Z) (useEUDst : bool) : string :=
  if useEUDst then "CET-1CEST,M3.5.0/2,M10.5.0/3"%string
  else
    let westH := - offsetHours in
    let westM := - offsetMinutes in
    if negb (westM =? 0)
    then ("LTZ" ++ fmt_signed westH ++ ":"
            ++ StateManager.fmt02d (Z.abs westM))%string
    else ("LTZ" ++ fmt_signed westH)%string.

(** The DS1307 as the manager holds it: whether it answered at start-up
    and the local time it shows. *)
Record Chip : Type := mkChip { rtcOk : bool; chipTime : DateTime }.

(** RTCManager::now *)
Definition now (c : Chip) : DateTime := chipTime c.

(** RTCManager::isRtcAvailable *)
Definition isRtcAvailable (c : Chip) : bool := rtcOk c.

(** RTCManager::adjustRtc *)
Definition adjustRtc (dt : DateTime) (c : Chip) : bool * Chip :=
  if negb (rtcOk c) then (false, c) else (true, mkChip (rtcOk c) dt).

(** [labs((long)(a - b))] on two uint32_t values, long being 32 bits *)
Definition labs32 (a b : Z) : Z :=
  let d := u32 (a - b) in
  Z.abs (if d <? 2 ^ 31 then d else d - 2 ^ 32).

(** RTCManager::syncWithNtp.  [unixtime] is RTClib's DateTime::unixtime. *)
Definition syncWithNtp (unixtime : DateTime -> Z)
  (polls : list (option DateTime)) (maxAllowedDiffSec : Z) (c : Chip)
  : bool * Chip :=
  let ntp := getNtpTime polls in
  if year ntp <? 2020 then (false, c)
  else
    let rtcLocal := now c in
    let diff := labs32 (unixtime ntp) (unixtime rtcLocal) in
    if maxAllowedDiffSec <? diff
    then (true, mkChip (rtcOk c) ntp)
    else (true, c).

End RTCManager.

(** ** SystemManager: the reconciliation engine *)

(** SystemManager::minutesOfDay *)
Definition minutesOfDay (dt : DateTime) : Z := hour dt * 60 + minute dt.

(** SystemManager::diffForwardMinutes:
    [((toMinutes - fromMinutes) % 1440 + 1440) % 1440] *)
Definition diffForwardMinutes (fromMinutes toMinutes : Z) : Z :=
  Z.rem (Z.rem (toMinutes - fromMinutes) 1440 + 1440) 1440.

Module SystemManager.

(** The fields of Config the engine reads. *)
Record Config : Type := mkConfig
  { mode : string;
    impulseDelayMs : Z;
    resyncRtcIfDiffSeconds : Z;
    maxCatchupMinutes : Z;
    ntpResyncEveryMinutes : Z }.

Definition isAuto (c : Config) : bool := String.eqb (mode c) "auto".

Inductive LogLevel : Type := INFO | WARN | ERROR.

(** The messages handed to the Logger, by content. *)
Inductive LogMsg : Type :=
| MsgStarting
| MsgTzSetup
| MsgRtcInitFailed
| MsgTzFlags (isdstBefore isdstAfter : Z)
| MsgBootCorrection (sysDelta : Z)
| MsgNoBootCorrection
| MsgBoot (stateDt nowDt : DateTime) (bootDiff : Z)
| MsgBootDstAligned
| MsgReady
| MsgResyncDstAligned
| MsgResyncCorrected (sysDelta : Z)
| MsgUpToDate
| MsgCatchupExceeds (diff : Z)
| MsgCatchupStart (diffMinutes : Z) (reason : string) (intervalMs : Z)
| MsgCatchupRemaining (n : Z)
| MsgCatchupFinished
| MsgPulseSkipped
| MsgPulseFor (h m : Z)
| MsgManualSet (clockMinutes nowMin diff : Z)
| MsgManualExceeds (diff maxCatch : Z)
| MsgManualAligned.

Record t : Type := mk
  { config : Config;
    logger : list (LogLevel * LogMsg);      (* oldest first *)
    pulseManager : PulseManager.t;
    stateManager : StateManager.SD;
    lastImpulseMinutes : Z;                 (* the physical minute *)
    lastNtpSyncMs : Z;
    catchupActive : bool;
    catchupRemaining : Z;
    catchupLastPulseMs : Z;
    catchupIntervalMs : Z }.

(** The object as its member initialisers leave it. *)
Definition init (c : Config) (p : PulseManager.t) (sd : StateManager.SD) : t :=
  mk c [] p sd (-1) 0 false 0 0 0.

Definition log (l : LogLevel) (m : LogMsg) (s : t) : t :=
  mk (config s) (logger s ++ [(l, m)]) (pulseManager s) (stateManager s)
     (lastImpulseMinutes s) (lastNtpSyncMs s) (catchupActive s)
     (catchupRemaining s) (catchupLastPulseMs s) (catchupIntervalMs s).

Definition info : LogMsg -> t -> t := log INFO.
Definition error : LogMsg -> t -> t := log ERROR.

Definition set_pulseManager (p : PulseManager.t) (s : t) : t :=
  mk (config s) (logger s) p (stateManager s)
     (lastImpulseMinutes s) (lastNtpSyncMs s) (catchupActive s)
     (catchupRemaining s) (catchupLastPulseMs s) (catchupIntervalMs s).

Definition set_stateManager (sd : StateManager.SD) (s : t) : t :=
  mk (config s) (logger s) (pulseManager s) sd
     (lastImpulseMinutes s) (lastNtpSyncMs s) (catchupActive s)
     (catchupRemaining s) (catchupLastPulseMs s) (catchupIntervalMs s).

Definition set_lastImpulseMinutes (m : Z) (s : t) : t :=
  mk (config s) (logger s) (pulseManager s) (stateManager s)
     m (lastNtpSyncMs s) (catchupActive s)
     (catchupRemaining s) (catchupLastPulseMs s) (catchupIntervalMs s).

Definition set_lastNtpSyncMs (ms : Z) (s : t) : t :=
  mk (config s) (logger s) (pulseManager s) (stateManager s)
     (lastImpulseMinutes s) ms (catchupActive s)
     (catchupRemaining s) (catchupLastPulseMs s) (catchupIntervalMs s).

Definition set_catchupActive (b : bool) (s : t) : t :=
  mk (config s) (logger s) (pulseManager s) (stateManager s)
     (lastImpulseMinutes s) (lastNtpSyncMs s) b
     (catchupRemaining s) (catchupLastPulseMs s) (catchupIntervalMs s).

Definition set_catchupRemaining (n : Z) (s : t) : t :=
  mk (config s) (logger s) (pulseManager s) (stateManager s)
     (lastImpulseMinutes s) (lastNtpSyncMs s) (catchupActive s)
     n (catchupLastPulseMs s) (catchupIntervalMs s).

Definition set_catchupLastPulseMs (ms : Z) (s : t) : t :=
  mk (config s) (logger s) (pulseManager s) (stateManager s)
     (lastImpulseMinutes s) (lastNtpSyncMs s) (catchupActive s)
     (catchupRemaining s) ms (catchupIntervalMs s).

Definition set_catchupIntervalMs (ms : Z) (s : t) : t :=
  mk (config s) (logger s) (pulseManager s) (stateManager s)
     (lastImpulseMinutes s) (lastNtpSyncMs s) (catchupActive s)
     (catchupRemaining s) (catchupLastPulseMs s) ms.

(** [stateManager->saveClockTime(DateTime(2000, 1, 1, h, m, 0))]; the
    returned flag is dropped by every caller. *)
Definition saveClockTime (h m : Z) (s : t) : t :=
  set_stateManager
    (snd (StateManager.saveClockTime (mkDateTime 2000 1 1 h m 0)
            (stateManager s))) s.

(** One reading of "now": the system's local time and the RTC. *)
Record Clock : Type := mkClock { sysLocal : DateTime; rtcNow : DateTime }.

(** [isAuto ? SystemLocalNow() : rtcManager->now()] *)
Definition now (c : Config) (k : Clock) : DateTime :=
  if isAuto c then sysLocal k else rtcNow k.

(** SystemManager::startCatchUp *)
Definition startCatchUp (diffMinutes : Z) (reason : string) (s : t) : t :=
  let interval := u32 (u32 (impulseDelayMs (config s)) + 150 + 50) in
  let s1 := set_catchupRemaining diffMinutes s in
  let s2 := set_catchupIntervalMs interval s1 in
  let s3 := set_catchupLastPulseMs 0 s2 in
  let s4 := set_catchupActive true s3 in
  info (MsgCatchupStart diffMinutes reason interval) s4.

(** SystemManager::tryStartCatchUp *)
Definition tryStartCatchUp (reason : string) (k : Clock) (s : t) : t :=
  if catchupActive s then s
  else
    let realMin := minutesOfDay (now (config s) k) in
    let diff := diffForwardMinutes (lastImpulseMinutes s) realMin in
    if diff =? 0 then info MsgUpToDate s
    else if maxCatchupMinutes (config s) <? diff
         then error (MsgCatchupExceeds diff) s
         else startCatchUp diff reason s.

(** SystemManager::doCatchUpIfNeeded *)
Definition doCatchUpIfNeeded (k : Clock) (s : t) : t :=
  tryStartCatchUp "boot" k s.

(** What one call of tickCatchUp reads from the outside. *)
Record CatchUpReading : Type := mkCatchUpReading
  { cu_nowMs : Z;        (* millis() on entry *)
    cu_trigNow : Z;      (* millis() on entry of triggerPulse *)
    cu_trigDone : Z;     (* millis() when the pulse has completed *)
    cu_stamp : Z;        (* millis() stored in catchupLastPulseMs *)
    cu_clock : Clock     (* the clock re-sampled when the run ends *) }.

(** SystemManager::tickCatchUp *)
Definition tickCatchUp (r : CatchUpReading) (s : t) : t :=
  if negb (catchupActive s) then s
  else if (catchupLastPulseMs s =? 0)
          || (catchupIntervalMs s <=? u32 (cu_nowMs r - catchupLastPulseMs s))
  then
    let (sent, p) :=
      PulseManager.triggerPulse (cu_trigNow r) (cu_trigDone r) true
        (pulseManager s) in
    let s1 := set_pulseManager p s in
    if negb sent then s1
    else
      let s2 := set_catchupLastPulseMs (cu_stamp r) s1 in
      let m := Z.rem (lastImpulseMinutes s2 + 1) 1440 in
      let s3 := set_lastImpulseMinutes m s2 in
      let s4 := saveClockTime (Z.quot m 60) (Z.rem m 60) s3 in
      let s5 := info (MsgCatchupRemaining (catchupRemaining s4 - 1)) s4 in
      let s6 := set_catchupRemaining (catchupRemaining s5 - 1) s5 in
      if catchupRemaining s6 <=? 0
      then
        let s7 := info MsgCatchupFinished (set_catchupActive false s6) in
        let dt := now (config s7) (cu_clock r) in
        saveClockTime (hour dt) (minute dt)
          (set_lastImpulseMinutes (minutesOfDay dt) s7)
      else s6
  else s.

(** SystemManager::checkMinuteChange.  [trigNow] and [trigDone] are the
    millis() readings of the triggerPulse call it may make. *)
Definition checkMinuteChange (k : Clock) (trigNow trigDone : Z) (s : t) : t :=
  if catchupActive s then s
  else
    let dt := now (config s) k in
    let nowMin := minutesOfDay dt in
    if nowMin =? lastImpulseMinutes s then s
    else
      let (sent, p) :=
        PulseManager.triggerPulse trigNow trigDone false (pulseManager s) in
      let s1 := set_pulseManager p s in
      if negb sent then info MsgPulseSkipped s1
      else
        let s2 := info (MsgPulseFor (hour dt) (minute dt)) s1 in
        let s3 := set_lastImpulseMinutes nowMin s2 in
        saveClockTime (hour dt) (minute dt) s3.

(** What a forced resync reports and what is read after it. *)
Record ResyncReading : Type := mkResyncReading
  { rs_sysBefore : Z;      (* time(nullptr) before syncWithNtp *)
    rs_isdstBefore : Z;    (* tm_isdst before *)
    rs_sysAfter : Z;       (* time(nullptr) after *)
    rs_isdstAfter : Z;     (* tm_isdst after *)
    rs_after : DateTime;   (* SystemLocalNow() in the DST branch *)
    rs_clock : Clock       (* the clock tryStartCatchUp reads *) }.

(** [ltBefore.tm_isdst != ltAfter.tm_isdst] *)
Definition isdstChanged (isdstBefore isdstAfter : Z) : bool :=
  negb (isdstBefore =? isdstAfter).

(** [(uint32_t) llabs((long long)(sysAfter - sysBefore))] *)
Definition absDelta (sysBefore sysAfter : Z) : Z :=
  u32 (Z.abs (sysAfter - sysBefore)).

(** [flip && sysDelta >= 55*60 && sysDelta <= 65*60] *)
Definition dstGuard (flip : bool) (delta : Z) : bool :=
  flip && (55 * 60 <=? delta) && (delta <=? 65 * 60).

Definition dstFlip (r : ResyncReading) : bool :=
  isdstChanged (rs_isdstBefore r) (rs_isdstAfter r).

Definition sysDelta (r : ResyncReading) : Z :=
  absDelta (rs_sysBefore r) (rs_sysAfter r).

(** SystemManager::loop, from the snapshot before syncWithNtp on *)
Definition resync (r : ResyncReading) (s : t) : t :=
  let s1 := info (MsgTzFlags (rs_isdstBefore r) (rs_isdstAfter r)) s in
  if sysDelta r =? 0 then s1
  else if dstGuard (dstFlip r) (sysDelta r)
  then
    let after := rs_after r in
    let s2 := set_lastImpulseMinutes (minutesOfDay after) s1 in
    let s3 := saveClockTime (hour after) (minute after) s2 in
    info MsgResyncDstAligned s3
  else if u32 (resyncRtcIfDiffSeconds (config s1)) <=? sysDelta r
  then tryStartCatchUp "ntp-resync" (rs_clock r)
         (info (MsgResyncCorrected (sysDelta r)) s1)
  else s1.

(** What one call of loop reads from the outside. *)
Record LoopReading : Type := mkLoopReading
  { lp_clock : Clock;            (* read by checkMinuteChange *)
    lp_trigNow : Z;
    lp_trigDone : Z;
    lp_catchup : CatchUpReading; (* read by tickCatchUp *)
    lp_nowMs : Z;                (* millis() for the resync timer *)
    lp_resync : ResyncReading }.

(** SystemManager::loop *)
Definition loop (e : LoopReading) (s : t) : t :=
  let s1 := checkMinuteChange (lp_clock e) (lp_trigNow e) (lp_trigDone e) s in
  let s2 := tickCatchUp (lp_catchup e) s1 in
  if negb (isAuto (config s2)) then s2
  else
    let SYNC_EVERY_MS :=
      u32 (u32 (ntpResyncEveryMinutes (config s2)) * 60 * 1000) in
    if SYNC_EVERY_MS =? 0 then s2
    else if u32 (lp_nowMs e - lastNtpSyncMs s2) <? SYNC_EVERY_MS then s2
    else resync (lp_resync e) (set_lastNtpSyncMs (lp_nowMs e) s2).

(** SystemManager::OnManualClockSet *)
Definition OnManualClockSet (k : Clock) (clockMinutes : Z) (s : t) : t :=
  let nowMin := minutesOfDay (now (config s) k) in
  let diff := diffForwardMinutes clockMinutes nowMin in
  let ch := Z.quot clockMinutes 60 in
  let cm := Z.rem clockMinutes 60 in
  let s1 := info (MsgManualSet clockMinutes nowMin diff) s in
  let maxCatch := maxCatchupMinutes (config s1) in
  if maxCatch <? diff
  then
    let s2 := error (MsgManualExceeds diff maxCatch) s1 in
    saveClockTime ch cm (set_lastImpulseMinutes (Z.rem clockMinutes 1440) s2)
  else
    let s2 := saveClockTime ch cm
                (set_lastImpulseMinutes (Z.rem clockMinutes 1440) s1) in
    if diff =? 0 then info MsgManualAligned s2
    else startCatchUp diff "manual" s2.

(** What begin reads from the outside, in the order of the reads. *)
Record BootReading : Type := mkBootReading
  { bt_rtcInitOk : bool;       (* outcome of the RTC/TZ bring-up *)
    bt_sysBefore : Z;
    bt_isdstBefore : Z;
    bt_sysAfter : Z;
    bt_isdstAfter : Z;
    bt_localtime : option (Z * Z); (* for a missing state file *)
    bt_clock : Clock;          (* nowDt *)
    bt_catchup : Clock;        (* read by doCatchUpIfNeeded *)
    bt_millis : Z }.

(** [isAuto ? SystemLocalNow()
            : (rtcInitOk ? rtcManager->now() : SystemLocalNow())] *)
Definition bootNow (c : Config) (b : BootReading) : DateTime :=
  if isAuto c then sysLocal (bt_clock b)
  else if bt_rtcInitOk b then rtcNow (bt_clock b)
       else sysLocal (bt_clock b).

(** SystemManager::begin.  The RTC/TZ bring-up itself is hardware
    initialisation; its log line and outcome are kept. *)
Definition begin (b : BootReading) (s : t) : t :=
  let cfg := config s in
  let s1 := info MsgTzSetup (info MsgStarting s) in
  let s2 := if bt_rtcInitOk b then s1 else error MsgRtcInitFailed s1 in
  let realDstFlip := isdstChanged (bt_isdstBefore b) (bt_isdstAfter b) in
  let delta := absDelta (bt_sysBefore b) (bt_sysAfter b) in
  let s3 := info (MsgTzFlags (bt_isdstBefore b) (bt_isdstAfter b)) s2 in
  let s4 := if u32 (resyncRtcIfDiffSeconds cfg) <=? delta
            then info (MsgBootCorrection delta) s3
            else info MsgNoBootCorrection s3 in
  let (stateDt, sd) :=
    StateManager.loadLastKnownClockTime (bt_localtime b) (stateManager s4) in
  let nowDt := bootNow cfg b in
  let s5 := set_lastImpulseMinutes (minutesOfDay stateDt)
              (set_stateManager sd s4) in
  let bootDiff :=
    diffForwardMinutes (lastImpulseMinutes s5) (minutesOfDay nowDt) in
  let s6 := info (MsgBoot stateDt nowDt bootDiff) s5 in
  let s7 := if dstGuard realDstFlip delta
            then info MsgBootDstAligned
                   (saveClockTime (hour nowDt) (minute nowDt)
                      (set_lastImpulseMinutes (minutesOfDay nowDt) s6))
            else s6 in
  let minGap := u32 (u32 (impulseDelayMs cfg) + 150 + 50) in
  let p := PulseManager.setMinGapMs (if minGap <? 600 then 600 else minGap)
             (PulseManager.setImpulseTiming (impulseDelayMs cfg) 150
                (pulseManager s7)) in
  let s8 := set_pulseManager p s7 in
  let s9 := doCatchUpIfNeeded (bt_catchup b) s8 in
  info MsgReady (set_lastNtpSyncMs (bt_millis b) s9).

End SystemManager.

(** ** Observations used to state the properties *)

(** Number of flags [true] in the results of a series of calls. *)
Fixpoint accepted (rs : list bool) : nat :=
  match rs with
  | [] => O
  | true :: rs' => S (accepted rs')
  | false :: rs' => accepted rs'
  end.

(** Pulses the coil has received so far. *)
Definition pulseCount (s : SystemManager.t) : Z :=
  Z.of_nat (List.length (PulseManager.emitted (SystemManager.pulseManager s))).

(** The text of the state file. *)
Definition persisted (s : SystemManager.t) : option string :=
  StateManager.file (SystemManager.stateManager s).

(** The state file that records the time of day [h]:[m]. *)
Definition stored (h m : Z) : option string :=
  Some (StateManager.hhmm h m ++ StateManager.crlf)%string.

(** The state file that records minute-of-day [n]. *)
Definition storedMinute (n : Z) : option string :=
  stored (Z.quot n 60) (Z.rem n 60).

(** The test tickCatchUp makes before it pulses. *)
Definition due (r : SystemManager.CatchUpReading) (s : SystemManager.t) : bool :=
  (SystemManager.catchupLastPulseMs s =? 0)
  || (SystemManager.catchupIntervalMs s
      <=? u32 (SystemManager.cu_nowMs r - SystemManager.catchupLastPulseMs s)).

(** Successive calls of tickCatchUp. *)
Fixpoint catchUpRun (rs : list SystemManager.CatchUpReading)
  (s : SystemManager.t) : SystemManager.t :=
  match rs with
  | [] => s
  | r :: rs' => catchUpRun rs' (SystemManager.tickCatchUp r s)
  end.

(** Every call of the run comes at least one interval after the last
    pulse. *)
Fixpoint allDue (rs : list SystemManager.CatchUpReading)
  (s : SystemManager.t) : bool :=
  match rs with
  | [] => true
  | r :: rs' => due r s && allDue rs' (SystemManager.tickCatchUp r s)
  end.

(** Lines of the state file that carry a time of day: the full
    date-and-time form and the bare time form. *)
Definition fullForm (line : string) : bool :=
  match Scan.sscanf Scan.fmt_date_time line with
  | [_; _; _; h; m] => StateManager.valid_hm h m
  | _ => false
  end.

Definition bareForm (line : string) : bool :=
  match Scan.sscanf Scan.fmt_time line with
  | [h; m] => StateManager.valid_hm h m
  | _ => false
  end.

Definition unparsable (line : string) : bool :=
  negb (fullForm line) && negb (bareForm line).


(** ** Sample configurations and readings *)

Definition cfgAuto : SystemManager.Config :=
  SystemManager.mkConfig "auto" 500 60 180 15.

Definition cfgManual : SystemManager.Config :=
  SystemManager.mkConfig "manual" 500 60 180 15.

Definition sdEmpty : StateManager.SD := StateManager.mkSD None true true.

Definition sdWith (text : string) : StateManager.SD :=
  StateManager.mkSD (Some text) true true.

Definition at_ (h m : Z) : DateTime := mkDateTime 2024 6 1 h m 0.

Definition clockAt (h m : Z) : SystemManager.Clock :=
  SystemManager.mkClock (at_ h m) (at_ h m).

(** A pulser that has emitted its first pulse, completed at 1400 ms. *)
Definition pulsedOnce : PulseManager.t :=
  snd (PulseManager.triggerPulse 1000 1400 false PulseManager.init).

(** An engine that has just been constructed over a started pulser, with
    the physical minute set to [m]. *)
Definition engineAt (c : SystemManager.Config) (m : Z) : SystemManager.t :=
  SystemManager.set_lastImpulseMinutes m
    (SystemManager.init c (PulseManager.begin PulseManager.init) sdEmpty).

(** An engine in the middle of a catch-up run of 100 pulses. *)
Definition engineCatchingUp : SystemManager.t :=
  SystemManager.startCatchUp 100 "boot" (engineAt cfgAuto 0).

(** A call of tickCatchUp at [ms] milliseconds whose pulse takes 650 ms,
    with the clocks reading [k]. *)
Definition tickReading (ms : Z) (k : SystemManager.Clock)
  : SystemManager.CatchUpReading :=
  SystemManager.mkCatchUpReading ms ms (ms + 650) (ms + 650) k.

Definition tickAt (ms h m : Z) : SystemManager.CatchUpReading :=
  tickReading ms (clockAt h m).

(** A resync that finds the system clock where it was. *)
Definition quietResync : SystemManager.ResyncReading :=
  SystemManager.mkResyncReading 0 0 0 0 (at_ 0 0) (clockAt 0 0).

(** A loop iteration at [ms] milliseconds with the clocks reading [k]. *)
Definition loopReading (ms : Z) (k : SystemManager.Clock)
  : SystemManager.LoopReading :=
  SystemManager.mkLoopReading k ms (ms + 650) (tickReading ms k) (ms + 650)
    quietResync.

Definition loopAt (ms h m : Z) : SystemManager.LoopReading :=
  loopReading ms (clockAt h m).

(** Both clocks read the sentinel time. *)
Definition sentinelClock : SystemManager.Clock :=
  SystemManager.mkClock RTCManager.sentinel RTCManager.sentinel.

(** A resync across a DST change that moved the system clock by two
    hours; the local time afterwards is 02:00. *)
Definition dstTwoHours : SystemManager.ResyncReading :=
  SystemManager.mkResyncReading 1000 0 8200 1 (at_ 2 0) (clockAt 2 0).


(** A session of three pulses and three calls spaced 1400 ms apart. *)
Definition engineOwing3 : SystemManager.t :=
  SystemManager.tryStartCatchUp "boot" (clockAt 0 3) (engineAt cfgAuto 0).

Definition threeTicks : list SystemManager.CatchUpReading :=
  [tickAt 1000 0 3; tickAt 2400 0 3; tickAt 3800 0 3].


(** An ordinary boot at 00:07. *)
Definition bootAt0007 : SystemManager.BootReading :=
  SystemManager.mkBootReading true 1000 0 1001 0 None
    (clockAt 0 7) (clockAt 0 7) 5000.

(** A constructed engine whose state file holds [text]. *)
Definition engineWithFile (text : string) : SystemManager.t :=
  SystemManager.init cfgAuto (PulseManager.begin PulseManager.init)
    (sdWith text).

(** ** Arduino's String, the operations the managers use *)

Module ArduinoString.

(** String::trim: strip white space at both ends *)
Fixpoint rtrim (s : string) : string :=
  match s with
  | EmptyString => EmptyString
  | String c r =>
      match rtrim r with
      | EmptyString => if Scan.isspace c then EmptyString
                       else String c EmptyString
      | r' => String c r'
      end
  end.

Definition trim (s : string) : string := rtrim (Scan.skip_space s).

(** tolower in the "C" locale *)
Definition tolower (c : ascii) : ascii :=
  let n := nat_of_ascii c in
  if ((65 <=? n) && (n <=? 90))%nat then ascii_of_nat (n + 32) else c.

(** String::toLowerCase *)
Fixpoint toLowerCase (s : string) : string :=
  match s with
  | EmptyString => EmptyString
  | String c r => String (tolower c) (toLowerCase r)
  end.

(** String::startsWith *)
Definition startsWith (s pre : string) : bool := String.prefix pre s.

(** String::endsWith *)
Definition endsWith (s suf : string) : bool :=
  let n := String.length s in
  let k := String.length suf in
  (k <=? n)%nat && String.eqb (substring (n - k) k s) suf.

(** [s.indexOf(c) >= 0] *)
Fixpoint hasChar (c : ascii) (s : string) : bool :=
  match s with
  | EmptyString => false
  | String x r => Ascii.eqb x c || hasChar c r
  end.

(** [s.indexOf(sub) >= 0] *)
Fixpoint hasSub (sub s : string) : bool :=
  String.prefix sub s
  || match s with
     | EmptyString => false
     | String _ r => hasSub sub r
     end.

Fixpoint countChar (c : ascii) (s : string) : nat :=
  match s with
  | EmptyString => O
  | String x r => ((if Ascii.eqb x c then 1 else 0) + countChar c r)%nat
  end.

End ArduinoString.

(** ** ConfigManager *)

Module ConfigManager.

Record Config : Type := mkConfig
  { wifiSsid : string;
    wifiPassword : string;
    ntpServer : string;
    tz_mode : string;
    posix_tz : string;
    timeZoneOffsetHrs : Z;
    timeZoneOffsetMin : Z;
    useEuDst : bool;
    mode : string;
    impulseIntervalSec : Z;
    impulseDelayMs : Z;
    resyncRtcIfDiffSeconds : Z;
    maxCatchupMinutes : Z;
    webEditEnabled : bool;
    debugSerial : bool;
    ntpResyncEveryMinutes : Z }.

(** The JSON document after deserialisation: for each key, the value if it
    is present with the type asked for. *)
Record Doc : Type := mkDoc
  { j_wifi_ssid : option string;
    j_wifi_password : option string;
    j_ntp_server : option string;
    j_tz_mode : option string;
    j_posix_tz : option string;
    j_time_zone_offset_hrs : option Z;
    j_time_zone_offset_min : option Z;
    j_use_eu_dst : option bool;
    j_mode : option string;
    j_impulse_interval_sec : option Z;
    j_impulse_delay_ms : option Z;
    j_resync_rtc_if_diff_seconds : option Z;
    j_max_catchup_minutes : option Z;
    j_web_edit_enabled : option bool;
    j_debug_serial : option bool;
    j_ntp_resync_every_minutes : option Z }.

(** ArduinoJson's [doc[key] | fallback] *)
Definition orElse {A : Type} (v : option A) (fallback : A) : A :=
  match v with Some x => x | None => fallback end.

(** ConfigManager::toLowerTrim *)
Definition toLowerTrim (s : string) : string :=
  ArduinoString.toLowerCase (ArduinoString.trim s).

(** What SD.open and deserializeJson make of the file. *)
Inductive ConfigFile : Type :=
| FileMissing
| FileInvalid
| FileParsed (doc : Doc).

(** ConfigManager::loadFromFile *)
Definition loadFromFile (f : ConfigFile) (config : Config) : bool * Config :=
  match f with
  | FileMissing => (false, config)
  | FileInvalid => (false, config)
  | FileParsed doc =>
      let every := orElse (j_ntp_resync_every_minutes doc) 15 in
      let every := if every <? 0 then 0 else every in
      let tzMin := orElse (j_time_zone_offset_min doc) 0 in
      let tzMin := if tzMin <? 0 then 0 else tzMin in
      let tzMin := if 59 <? tzMin then 59 else tzMin in
      (true,
       {| wifiSsid := orElse (j_wifi_ssid doc) EmptyString;
          wifiPassword := orElse (j_wifi_password doc) EmptyString;
          ntpServer := orElse (j_ntp_server doc) "pool.ntp.org"%string;
          tz_mode := toLowerTrim (orElse (j_tz_mode doc) "eu"%string);
          posix_tz := orElse (j_posix_tz doc) EmptyString;
          timeZoneOffsetHrs := orElse (j_time_zone_offset_hrs doc) 0;
          timeZoneOffsetMin := tzMin;
          useEuDst := orElse (j_use_eu_dst doc) true;
          mode := orElse (j_mode doc) "auto"%string;
          impulseIntervalSec := orElse (j_impulse_interval_sec doc) 60;
          impulseDelayMs := orElse (j_impulse_delay_ms doc) 500;
          resyncRtcIfDiffSeconds :=
            orElse (j_resync_rtc_if_diff_seconds doc) 60;
          maxCatchupMinutes := orElse (j_max_catchup_minutes doc) 180;
          webEditEnabled := orElse (j_web_edit_enabled doc) false;
          debugSerial := orElse (j_debug_serial doc) false;
          ntpResyncEveryMinutes := every |})
  end.

(** ConfigManager::applyDefaults: every field is assigned. *)
Definition applyDefaults : Config :=
  {| wifiSsid := EmptyString; wifiPassword := EmptyString; ntpServer := "pool.ntp.org"%string;
     tz_mode := "eu"%string; posix_tz := EmptyString;
     timeZoneOffsetHrs := 0; timeZoneOffsetMin := 0; useEuDst := true;
     mode := "auto"%string; impulseIntervalSec := 60; impulseDelayMs := 500;
     resyncRtcIfDiffSeconds := 60; maxCatchupMinutes := 180;
     webEditEnabled := false; debugSerial := false;
     ntpResyncEveryMinutes := 15 |}.

(** ConfigManager::begin.  [sdOk] is the outcome of SD.begin(). *)
Definition begin (sdOk : bool) (f : ConfigFile) (config : Config)
  : bool * Config :=
  if negb sdOk then (false, applyDefaults)
  else
    let (ok, loaded) := loadFromFile f config in
    if negb ok then (false, applyDefaults) else (true, loaded).

(** ConfigManager::getConfig, as SystemManager reads it. *)
Definition forEngine (c : Config) : SystemManager.Config :=
  SystemManager.mkConfig (mode c) (impulseDelayMs c)
    (resyncRtcIfDiffSeconds c) (maxCatchupMinutes c)
    (ntpResyncEveryMinutes c).

(** A document without any key. *)
Definition emptyDoc : Doc :=
  mkDoc None None None None None None None None
        None None None None None None None None.

End ConfigManager.

(** ** WebServerManager: the handlers that touch the clock state and the
    log files *)

Module WebServerManager.

Inductive Reply : Type :=
| Send (code : Z) (contentType text : string)
| Stream (path contentType : string).

(** WebServerManager::hhmmFromDateTime *)
Definition hhmmFromDateTime (dt : DateTime) : string :=
  StateManager.hhmm (hour dt) (minute dt).

(** The body of a POST /api/set-state as the handler sees it: absent, not
    JSON, or a document whose "clock_time" is a string or is not. *)
Inductive Body : Type :=
| NoBody
| InvalidJson
| Json (clock_time : option string).

(** [File f = SD.open("/state.txt", FILE_WRITE);
     if (f) { f.seek(0); f.print(buf); ... }] *)
Definition printState (text : string) (sd : StateManager.SD) : StateManager.SD :=
  if StateManager.writable sd
  then StateManager.mkSD (Some text) (StateManager.readable sd)
         (StateManager.writable sd)
  else sd.

(** WebServerManager::handleApiSetState.  The state manager is the one the
    engine holds, and its file is /state.txt; [registered] tells whether
    the engine's callback is set, [k] is the clock the callback reads. *)
Definition handleApiSetState (webEditEnabled : bool) (req : Body)
  (registered : bool) (k : SystemManager.Clock) (s : SystemManager.t)
  : Reply * SystemManager.t :=
  if negb webEditEnabled then (Send 403 "text/plain" "Not allowed", s)
  else
    match req with
    | NoBody => (Send 400 "text/plain" "No data", s)
    | InvalidJson => (Send 400 "text/plain" "Invalid JSON", s)
    | Json None => (Send 400 "text/plain" "Missing 'clock_time'", s)
    | Json (Some hhmmC) =>
        let hhmm := ArduinoString.trim hhmmC in
        let r := Scan.sscanf Scan.fmt_time hhmm in
        let o := Scan.assign r [-1; -1] in
        let h := nth 0 o (-1) in
        let m := nth 1 o (-1) in
        if negb (Z.of_nat (List.length r) =? 2)
           || (h <? 0) || (23 <? h) || (m <? 0) || (59 <? m)
        then (Send 400 "text/plain" "Bad time format. Use HH:MM", s)
        else
          let minutes := h * 60 + m in
          let s1 := SystemManager.saveClockTime h m s in
          let s2 := SystemManager.set_stateManager
                      (printState (StateManager.hhmm h m)
                         (SystemManager.stateManager s1)) s1 in
          let s3 := if registered
                    then SystemManager.OnManualClockSet k minutes s2
                    else s2 in
          (Send 200 "text/plain" "State updated and rescheduled", s3)
    end.

(** WebServerManager::handleApiLogsFile.  [file] is the query argument if
    there is one, [opens] tells which paths SD.open finds. *)
Definition handleApiLogsFile (file : option string) (opens : string -> bool)
  : Reply :=
  match file with
  | None => Send 400 "text/plain" "Missing 'file'"
  | Some name =>
      if ArduinoString.hasChar "/" name
         || ArduinoString.hasChar "092" name
         || ArduinoString.hasSub ".." name
      then Send 400 "text/plain" "Bad file name"
      else if negb (ArduinoString.endsWith
                      (ArduinoString.toLowerCase name) ".txt")
      then Send 400 "text/plain" "Bad file name"
      else
        let path := ("/logs/" ++ name)%string in
        if negb (opens path) then Send 404 "text/plain" "Not found"
        else Stream path "text/plain"
  end.

End WebServerManager.

(** ** Logger *)

Module Logger.

Inductive LogLevel : Type := INFO | WARNING | ERROR.

Record t : Type := mk
  { serialEnabled : bool;
    basePath : string;
    dailyMode : bool;
    currentDate : string }.

(** What the logger has put out: the lines appended to files, the lines
    mirrored to Serial and the directories made, oldest first. *)
Inductive SerialLine : Type :=
| Mirrored (entry : string)
| CannotOpen (path : string).

Record Out : Type := mkOut
  { appended : list (string * string);
    serial : list SerialLine;
    made : list string }.

(** "%0<w>d" for a value that is not negative *)
Definition zpad (w : nat) (n : Z) : string :=
  let s := NilZero.string_of_int (Z.to_int n) in
  (String.concat EmptyString (repeat "0"%string (w - String.length s)) ++ s)%string.

Definition placeholderDate : string := "0000-00-00".

(** endsWithTxt *)
Definition endsWithTxt (s : string) : bool :=
  let n := String.length s in
  (4 <=? n)%nat && String.eqb (substring (n - 4) 4 s) ".txt".

(** Logger::ensureDirIfDaily.  [dirExists] is SD.exists(basePath). *)
Definition ensureDirIfDaily (dirExists : bool) (l : t) (o : Out) : Out :=
  if negb (dailyMode l) then o
  else if negb dirExists
       then mkOut (appended o) (serial o) (made o ++ [basePath l])
       else o.

(** Logger::begin (its own Serial line is a diagnostic) *)
Definition begin (logPath : string) (enableSerial dirExists : bool)
  (o : Out) : t * Out :=
  let daily := negb (endsWithTxt logPath) in
  let l := mk enableSerial logPath daily EmptyString in
  (l, if daily then ensureDirIfDaily dirExists l o else o).

(** Logger::todayDateString *)
Definition todayDateString (rtc : RTCManager.Chip) : string :=
  if negb (RTCManager.isRtcAvailable rtc) then placeholderDate
  else
    let now := RTCManager.now rtc in
    substring 0 10
      (zpad 4 (year now) ++ "-" ++ zpad 2 (month now) ++ "-"
         ++ zpad 2 (day now))%string.

Definition set_currentDate (d : string) (l : t) : t :=
  mk (serialEnabled l) (basePath l) (dailyMode l) d.

(** Logger::rotateIfNeeded *)
Definition rotateIfNeeded (rtc : RTCManager.Chip) (l : t) : t :=
  if negb (dailyMode l) then l
  else
    let d := todayDateString rtc in
    if String.eqb (currentDate l) EmptyString then set_currentDate d l
    else if negb (String.eqb d placeholderDate)
            && negb (String.eqb d (currentDate l))
    then set_currentDate d l
    else l.

(** Logger::activeLogPath *)
Definition activeLogPath (rtc : RTCManager.Chip) (l : t) : string :=
  if dailyMode l
  then
    let d := if String.eqb (currentDate l) EmptyString
             then todayDateString rtc else currentDate l in
    (basePath l ++ "/" ++ d ++ ".txt")%string
  else basePath l.

(** Logger::getTimestamp *)
Definition getTimestamp (rtc : RTCManager.Chip) : string :=
  if negb (RTCManager.isRtcAvailable rtc) then "0000-00-00 00:00:00"%string
  else
    let now := RTCManager.now rtc in
    substring 0 19
      (zpad 4 (year now) ++ "-" ++ zpad 2 (month now) ++ "-"
         ++ zpad 2 (day now) ++ " " ++ zpad 2 (hour now) ++ ":"
         ++ zpad 2 (minute now) ++ ":" ++ zpad 2 (second now))%string.

(** Logger::levelToString *)
Definition levelToString (level : LogLevel) : string :=
  match level with
  | INFO => "INFO"
  | WARNING => "WARN"
  | ERROR => "ERROR"
  end.

(** What one call of log reads: the RTC at each of its three uses and
    whether the log file opens for appending. *)
Record Reading : Type := mkReading
  { rd_rotate : RTCManager.Chip;
    rd_stamp : RTCManager.Chip;
    rd_path : RTCManager.Chip;
    rd_opens : bool }.

(** Logger::log *)
Definition log (r : Reading) (level : LogLevel) (message : string)
  (l : t) (o : Out) : t * Out :=
  let l1 := rotateIfNeeded (rd_rotate r) l in
  let entry := ("[" ++ getTimestamp (rd_stamp r) ++ "] ["
                  ++ levelToString level ++ "] " ++ message)%string in
  let o1 := if serialEnabled l1
            then mkOut (appended o) (serial o ++ [Mirrored entry]) (made o)
            else o in
  let path := activeLogPath (rd_path r) l1 in
  if rd_opens r
  then (l1, mkOut (appended o1 ++ [(path, entry)]) (serial o1) (made o1))
  else if serialEnabled l1
       then (l1, mkOut (appended o1) (serial o1 ++ [CannotOpen path]) (made o1))
       else (l1, o1).

(** One call of info, warn or error. *)
Record CallOfLog : Type := mkCallOfLog
  { cl_reading : Reading; cl_level : LogLevel; cl_message : string }.

Fixpoint logAll (cs : list CallOfLog) (l : t) (o : Out) : t * Out :=
  match cs with
  | [] => (l, o)
  | c :: cs' =>
      let (l1, o1) := log (cl_reading c) (cl_level c) (cl_message c) l o in
      logAll cs' l1 o1
  end.

(** A date that is neither empty nor the placeholder. *)
Definition realDate (d : string) : bool :=
  negb (String.eqb d EmptyString) && negb (String.eqb d placeholderDate).

End Logger.

(** ** Observations on the engine as a whole *)

(** The physical minute is a minute of the day, and an active session
    owes at least one pulse and fewer than a day's worth. *)
Definition engineOk (s : SystemManager.t) : Prop :=
  0 <= SystemManager.lastImpulseMinutes s < 1440
  /\ (SystemManager.catchupActive s = true ->
      1 <= SystemManager.catchupRemaining s <= 1439).

Definition clockOk (k : SystemManager.Clock) : Prop :=
  time_of_day_ok (SystemManager.sysLocal k)
  /\ time_of_day_ok (SystemManager.rtcNow k).

Definition loopReadingOk (e : SystemManager.LoopReading) : Prop :=
  clockOk (SystemManager.lp_clock e)
  /\ clockOk (SystemManager.cu_clock (SystemManager.lp_catchup e))
  /\ time_of_day_ok (SystemManager.rs_after (SystemManager.lp_resync e))
  /\ clockOk (SystemManager.rs_clock (SystemManager.lp_resync e)).

Definition bootReadingOk (b : SystemManager.BootReading) : Prop :=
  clockOk (SystemManager.bt_clock b)
  /\ clockOk (SystemManager.bt_catchup b)
  /\ match SystemManager.bt_localtime b with
     | Some (h, m) => 0 <= h < 24 /\ 0 <= m < 60
     | None => True
     end.

(** Successive iterations of loop. *)
Fixpoint loopAll (es : list SystemManager.LoopReading)
  (s : SystemManager.t) : SystemManager.t :=
  match es with
  | [] => s
  | e :: es' => loopAll es' (SystemManager.loop e s)
  end.

(** Pulses a series of tickCatchUp calls can still emit. *)
Definition owed (s : SystemManager.t) : Z :=
  if SystemManager.catchupActive s
  then Z.max 1 (SystemManager.catchupRemaining s)
  else 0.

(** The milliseconds between two periodic resyncs, as loop computes it. *)
Definition syncEveryMs (c : SystemManager.Config) : Z :=
  u32 (u32 (SystemManager.ntpResyncEveryMinutes c) * 60 * 1000).

(** The iteration of loop without its resync part. *)
Definition tickOnly (e : SystemManager.LoopReading) (s : SystemManager.t)
  : SystemManager.t :=
  SystemManager.tickCatchUp (SystemManager.lp_catchup e)
    (SystemManager.checkMinuteChange (SystemManager.lp_clock e)
       (SystemManager.lp_trigNow e) (SystemManager.lp_trigDone e) s).

(** All times of day, and the test that the line written for one of them
    is read back in the bare form as the same time. *)
Definition allTimes : list (Z * Z) :=
  list_prod (map Z.of_nat (seq 0 24)) (map Z.of_nat (seq 0 60)).

Definition readsBack (hm : Z * Z) : bool :=
  let line := StateManager.readStringUntil "010"
                (StateManager.hhmm (fst hm) (snd hm) ++ StateManager.crlf) in
  negb (fullForm line)
  && match Scan.sscanf Scan.fmt_time line with
     | [h; m] => (h =? fst hm) && (m =? snd hm)
     | _ => false
     end.

(** The same for the text the web handler prints, without a line end. *)
Definition readsBackBare (hm : Z * Z) : bool :=
  let line := StateManager.readStringUntil "010"
                (StateManager.hhmm (fst hm) (snd hm)) in
  negb (fullForm line)
  && match Scan.sscanf Scan.fmt_time line with
     | [h; m] => (h =? fst hm) && (m =? snd hm)
     | _ => false
     end.

(** More samples *)

Definition clockMixed : SystemManager.Clock :=
  SystemManager.mkClock (at_ 10 3) (at_ 10 4).

Definition chipAt (y mo d h mi : Z) : RTCManager.Chip :=
  RTCManager.mkChip true (mkDateTime y mo d h mi 0).

Definition chipOff : RTCManager.Chip :=
  RTCManager.mkChip false (mkDateTime 2000 1 1 0 0 0).

Definition noOut : Logger.Out := Logger.mkOut [] [] [].

(** ** The engine and its state file *)







(** ** Proof automation *)

(** Case analysis on the next test of the code. *)
Ltac break_if :=
  match goal with
  | |- context [if ?c then _ else _] => destruct c eqn:?
  end.

(** * Properties *)

(** ** Arithmetic of minutes *)

Lemma u32_range (x : Z) : 0 <= u32 x < 2 ^ 32.
Proof. unfold u32. apply Z.mod_pos_bound. lia. Qed.

Lemma u32_small (x : Z) : 0 <= x < 2 ^ 32 -> u32 x = x.
Proof. intros H. unfold u32. now apply Z.mod_small. Qed.

Lemma minutesOfDay_range (dt : DateTime) :
  time_of_day_ok dt -> 0 <= minutesOfDay dt <= 1439.
Proof. unfold time_of_day_ok, minutesOfDay. lia. Qed.

(** The truncating remainder stays strictly inside (-1440, 1440). *)
Lemma rem1440_bounds (x : Z) : -1440 < Z.rem x 1440 < 1440.
Proof. pose proof (Z.rem_bound_abs x 1440 ltac:(lia)). lia. Qed.

(** The double remainder of the code is the mathematical modulus, whatever
    the operands. *)
Lemma diffForwardMinutes_mod (a b : Z) :
  diffForwardMinutes a b = (b - a) mod 1440.
Proof.
  unfold diffForwardMinutes.
  pose proof (rem1440_bounds (b - a)) as Hb.
  rewrite Z.rem_mod_nonneg by lia.
  replace (Z.rem (b - a) 1440 + 1440)
    with ((b - a) + (1 - Z.quot (b - a) 1440) * 1440)
    by (pose proof (Z.quot_rem' (b - a) 1440); lia).
  apply Z.mod_add; lia.
Qed.

Lemma diffForwardMinutes_range (a b : Z) :
  0 <= diffForwardMinutes a b <= 1439.
Proof.
  rewrite diffForwardMinutes_mod.
  pose proof (Z.mod_pos_bound (b - a) 1440 ltac:(lia)). lia.
Qed.

Lemma diffForwardMinutes_same (a : Z) : diffForwardMinutes a a = 0.
Proof. rewrite diffForwardMinutes_mod, Z.sub_diag. reflexivity. Qed.

(** C9.  For all a, b in [0,1439] the forward difference of the engine is
    (b - a + 1440) mod 1440, it lies in [0,1439], and the difference of a
    minute with itself is 0. *)
Theorem diffForwardMinutes_spec (a b : Z) :
  0 <= a <= 1439 -> 0 <= b <= 1439 ->
  diffForwardMinutes a b = (b - a + 1440) mod 1440
  /\ 0 <= diffForwardMinutes a b <= 1439
  /\ diffForwardMinutes a a = 0.
Proof.
  intros Ha Hb. split; [| split].
  - rewrite diffForwardMinutes_mod.
    rewrite <- (Z.mod_add (b - a) 1 1440) by lia.
    f_equal; lia.
  - apply diffForwardMinutes_range.
  - apply diffForwardMinutes_same.
Qed.

Lemma diffForwardMinutes_spec_witness :
  diffForwardMinutes 1435 5 = (5 - 1435 + 1440) mod 1440
  /\ 0 <= diffForwardMinutes 1435 5 <= 1439
  /\ diffForwardMinutes 1435 1435 = 0.
Proof. apply (diffForwardMinutes_spec 1435 5); lia. Defined.

Example diffForwardMinutes_wraps : diffForwardMinutes 1435 5 = 10.
Proof. reflexivity. Qed.

Example diffForwardMinutes_backward : diffForwardMinutes 5 4 = 1439.
Proof. reflexivity. Qed.

(** ** PulseManager *)

Section PulseFacts.

Import PulseManager.

Lemma polarities_app (g h : list Drive) :
  polarities (g ++ h) = polarities g ++ polarities h.
Proof.
  induction g as [| d g IH]; simpl; [reflexivity |].
  destruct (polarity_of d); simpl; now rewrite IH.
Qed.

Lemma emitted_begin (p : t) : emitted (begin p) = emitted p.
Proof.
  unfold emitted, begin; simpl.
  rewrite polarities_app; simpl. apply app_nil_r.
Qed.

Lemma emitted_pulseA (p : t) : emitted (pulseA p) = emitted p ++ [A].
Proof. unfold emitted, pulseA, drive; simpl. now rewrite polarities_app. Qed.

Lemma emitted_pulseB (p : t) : emitted (pulseB p) = emitted p ++ [B].
Proof. unfold emitted, pulseB, drive; simpl. now rewrite polarities_app. Qed.

Lemma emitted_flip (done : Z) (p : t) : emitted (flip done p) = emitted p.
Proof. reflexivity. Qed.

(** What an accepted call does. *)
Lemma triggerPulse_accepted (now done : Z) (b : bool) (p : t) :
  fst (triggerPulse now done b p) = true ->
  emitted (snd (triggerPulse now done b p)) = emitted p ++ [next p]
  /\ lastWasA (snd (triggerPulse now done b p)) = negb (lastWasA p)
  /\ lastTrigMs (snd (triggerPulse now done b p)) = done.
Proof.
  unfold triggerPulse, next.
  destruct (negb b && (u32 (now - lastTrigMs p) <? requiredGap p));
    simpl; [discriminate |].
  intros _. rewrite emitted_flip.
  destruct (lastWasA p) eqn:E; simpl.
  - rewrite emitted_pulseB, E. auto.
  - rewrite emitted_pulseA, E. auto.
Qed.

(** What a refused call does: nothing. *)
Lemma triggerPulse_refused (now done : Z) (b : bool) (p : t) :
  fst (triggerPulse now done b p) = false ->
  snd (triggerPulse now done b p) = p.
Proof.
  unfold triggerPulse.
  destruct (negb b && (u32 (now - lastTrigMs p) <? requiredGap p));
    simpl; [reflexivity | discriminate].
Qed.

(** In burst mode the guard is bypassed. *)
Lemma triggerPulse_burst (now done : Z) (p : t) :
  triggerPulse now done true p
  = (true, flip done (if lastWasA p then pulseB p else pulseA p)).
Proof. reflexivity. Qed.

Lemma opposite_next (p : t) (now done : Z) (b : bool) :
  fst (triggerPulse now done b p) = true ->
  next (snd (triggerPulse now done b p)) = opposite (next p).
Proof.
  intros H. destruct (triggerPulse_accepted now done b p H) as (_ & Hl & _).
  unfold next. rewrite Hl. now destruct (lastWasA p).
Qed.

(** The pulses of a series of calls alternate, starting with the polarity
    the pulser is set to drive next. *)
Lemma run_alternates (cs : list Call) (p : t) :
  emitted (snd (run cs p))
  = emitted p ++ alternating (next p) (accepted (fst (run cs p))).
Proof.
  revert p. induction cs as [| c cs IH]; intros p; simpl.
  - now rewrite app_nil_r.
  - destruct (triggerPulse (at_ms c) (done_ms c) (burst c) p) as [r p1] eqn:E.
    specialize (IH p1). destruct (run cs p1) as [rs p2] eqn:E2. simpl in *.
    destruct r.
    + pose proof (triggerPulse_accepted (at_ms c) (done_ms c) (burst c) p) as Ha.
      pose proof (opposite_next p (at_ms c) (done_ms c) (burst c)) as Ho.
      rewrite E in Ha, Ho. simpl in Ha, Ho.
      destruct (Ha eq_refl) as (He & _). specialize (Ho eq_refl).
      simpl. rewrite IH, He, Ho, <- app_assoc. reflexivity.
    + pose proof (triggerPulse_refused (at_ms c) (done_ms c) (burst c) p) as Hr.
      rewrite E in Hr. simpl in Hr. rewrite Hr in IH by reflexivity.
      exact IH.
Qed.

End PulseFacts.

Section PulseClaims.

Import PulseManager.

(** The guard as the code tests it, whatever the timing values. *)
Lemma triggerPulse_too_soon (p : t) (now done : Z) :
  u32 (now - lastTrigMs p) < requiredGap p ->
  triggerPulse now done false p = (false, p).
Proof.
  intros H. unfold triggerPulse.
  apply Z.ltb_lt in H. rewrite H. reflexivity.
Qed.

(** With timing values that fit a uint32_t, the required gap is the
    plain maximum. *)
Lemma requiredGap_plain (p : t) :
  0 <= durationMs p + pauseMs p + 50 < 2 ^ 32 ->
  requiredGap p = Z.max (minGapMs p) (durationMs p + pauseMs p + 50).
Proof. intros H. unfold requiredGap. now rewrite u32_small. Qed.

(** C5.  A call triggerPulse(false) made less than
    requiredGap = max(minGapMs, durationMs + pauseMs + 50) milliseconds
    after the last accepted pulse returns false and leaves the whole
    pulser as it was: nothing is driven, and the stored polarity and the
    last-pulse timestamp keep their values. *)
Theorem triggerPulse_guard_refuses (p : t) (now done : Z) :
  0 <= durationMs p + pauseMs p + 50 < 2 ^ 32 ->
  u32 (now - lastTrigMs p)
    < Z.max (minGapMs p) (durationMs p + pauseMs p + 50) ->
  requiredGap p = Z.max (minGapMs p) (durationMs p + pauseMs p + 50)
  /\ triggerPulse now done false p = (false, p)
  /\ gpio (snd (triggerPulse now done false p)) = gpio p
  /\ lastWasA (snd (triggerPulse now done false p)) = lastWasA p
  /\ lastTrigMs (snd (triggerPulse now done false p)) = lastTrigMs p.
Proof.
  intros Ht Hgap.
  pose proof (requiredGap_plain p Ht) as Hr.
  rewrite <- Hr in Hgap.
  rewrite (triggerPulse_too_soon p now done Hgap).
  repeat split; auto.
Qed.

Lemma triggerPulse_guard_refuses_witness :
  requiredGap pulsedOnce = 600
  /\ triggerPulse 1999 2400 false pulsedOnce = (false, pulsedOnce)
  /\ gpio (snd (triggerPulse 1999 2400 false pulsedOnce)) = gpio pulsedOnce
  /\ lastWasA (snd (triggerPulse 1999 2400 false pulsedOnce)) = true
  /\ lastTrigMs (snd (triggerPulse 1999 2400 false pulsedOnce)) = 1400.
Proof.
  apply (triggerPulse_guard_refuses pulsedOnce 1999 2400);
    vm_compute; intuition discriminate.
Defined.

Lemma run_lastWasA (cs : list Call) (p : t) :
  lastWasA (snd (run cs p))
  = xorb (lastWasA p) (Nat.odd (accepted (fst (run cs p)))).
Proof.
  revert p. induction cs as [| c cs IH]; intros p; simpl.
  - now destruct (lastWasA p).
  - destruct (triggerPulse (at_ms c) (done_ms c) (burst c) p) as [r p1] eqn:E.
    specialize (IH p1). destruct (run cs p1) as [rs p2]. simpl in *.
    destruct r; simpl.
    + pose proof (triggerPulse_accepted (at_ms c) (done_ms c) (burst c) p) as Ha.
      rewrite E in Ha. destruct (Ha eq_refl) as (_ & Hl & _). simpl in Hl.
      rewrite IH, Hl, Nat.odd_succ, <- Nat.negb_odd.
      now destruct (lastWasA p), (Nat.odd (accepted rs)).
    + pose proof (triggerPulse_refused (at_ms c) (done_ms c) (burst c) p) as Hr.
      rewrite E in Hr. simpl in Hr. now rewrite <- Hr.
Qed.

(** A call in burst mode, or one made at least the required gap after the
    last pulse, passes the guard. *)
Lemma triggerPulse_passes (now done : Z) (b : bool) (p : t) :
  b = true \/ requiredGap p <= u32 (now - lastTrigMs p) ->
  fst (triggerPulse now done b p) = true.
Proof.
  intros H. unfold triggerPulse. destruct H as [-> | H]; [reflexivity |].
  apply Z.ltb_ge in H. rewrite H, Bool.andb_false_r. reflexivity.
Qed.

(** The pulse itself leaves the timing settings alone. *)
Lemma triggerPulse_requiredGap (now done : Z) (b : bool) (p : t) :
  requiredGap (snd (triggerPulse now done b p)) = requiredGap p.
Proof.
  unfold triggerPulse.
  destruct (negb b && (u32 (now - lastTrigMs p) <? requiredGap p));
    [reflexivity |].
  now destruct (lastWasA p).
Qed.

(** A series of calls in burst mode: every one of them is accepted. *)
Lemma run_burst_accepted (cs : list Call) (p : t) :
  (forall c, In c cs -> burst c = true) ->
  accepted (fst (run cs p)) = List.length cs.
Proof.
  revert p. induction cs as [| c cs IH]; intros p H; simpl; [reflexivity |].
  rewrite (H c (or_introl eq_refl)), triggerPulse_burst.
  specialize (IH (flip (done_ms c) (if lastWasA p then pulseB p else pulseA p))
                (fun c' Hc => H c' (or_intror Hc))).
  destruct (run cs _) as [rs p2]. simpl in *. now rewrite IH.
Qed.

(** C6.  After begin the first accepted triggerPulse call emits A.  A call
    in burst mode, or one made at least requiredGap after the completion
    of the last pulse, is accepted: it returns true, drives the polarity
    opposite to the stored one, flips the stored polarity and records the
    completion time; two accepted calls in a row drive opposite
    polarities.  So whatever series of calls follows begin, the pulses
    emitted are A, B, A, B, ...: one pulse for each call that returned
    true, the first of them A, with the stored polarity flipped once per
    accepted call; and a series of burst calls emits one pulse per call. *)
Theorem pulses_alternate_from_A (p0 : t) (cs : list Call) :
  let res := run cs (begin p0) in
  emitted (snd res) = emitted p0 ++ alternating A (accepted (fst res))
  /\ lastWasA (snd res) = Nat.odd (accepted (fst res))
  /\ List.length (fst res) = List.length cs
  /\ (forall now done b,
        b = true \/ requiredGap (begin p0) <= u32 now ->
        fst (triggerPulse now done b (begin p0)) = true
        /\ emitted (snd (triggerPulse now done b (begin p0)))
           = emitted p0 ++ [A])
  /\ (forall p now done b,
        b = true \/ requiredGap p <= u32 (now - lastTrigMs p) ->
        fst (triggerPulse now done b p) = true
        /\ emitted (snd (triggerPulse now done b p))
           = emitted p ++ [if lastWasA p then B else A]
        /\ lastWasA (snd (triggerPulse now done b p)) = negb (lastWasA p)
        /\ lastTrigMs (snd (triggerPulse now done b p)) = done)
  /\ (forall p now1 done1 b1 now2 done2 b2,
        b1 = true \/ requiredGap p <= u32 (now1 - lastTrigMs p) ->
        b2 = true \/ requiredGap p <= u32 (now2 - done1) ->
        fst (triggerPulse now2 done2 b2 (snd (triggerPulse now1 done1 b1 p)))
        = true
        /\ emitted (snd (triggerPulse now2 done2 b2
                           (snd (triggerPulse now1 done1 b1 p))))
           = emitted p ++ [next p; opposite (next p)])
  /\ ((forall c, In c cs -> burst c = true) ->
      accepted (fst res) = List.length cs
      /\ emitted (snd res) = emitted p0 ++ alternating A (List.length cs)).
Proof.
  cbv zeta.
  assert (Hone : forall p now done b,
             b = true \/ requiredGap p <= u32 (now - lastTrigMs p) ->
             fst (triggerPulse now done b p) = true
             /\ emitted (snd (triggerPulse now done b p))
                = emitted p ++ [if lastWasA p then B else A]
             /\ lastWasA (snd (triggerPulse now done b p)) = negb (lastWasA p)
             /\ lastTrigMs (snd (triggerPulse now done b p)) = done).
  { intros p now done b H.
    pose proof (triggerPulse_passes now done b p H) as Hp.
    split; [exact Hp |]. exact (triggerPulse_accepted now done b p Hp). }
  split; [| split; [| split; [| split; [| split; [| split]]]]].
  - rewrite run_alternates, emitted_begin. reflexivity.
  - rewrite run_lastWasA. reflexivity.
  - generalize (begin p0). induction cs as [| c cs IH]; intros p; simpl.
    + reflexivity.
    + destruct (triggerPulse (at_ms c) (done_ms c) (burst c) p) as [r p1].
      specialize (IH p1). destruct (run cs p1). simpl in *. now rewrite IH.
  - intros now done b H.
    destruct (Hone (begin p0) now done b) as (H1 & H2 & _).
    + cbn [begin lastTrigMs]. now rewrite Z.sub_0_r.
    + split; [exact H1 |]. rewrite H2, emitted_begin. reflexivity.
  - exact Hone.
  - intros p now1 done1 b1 now2 done2 b2 H1 H2.
    destruct (Hone p now1 done1 b1 H1) as (A1 & A2 & A3 & A4).
    destruct (Hone (snd (triggerPulse now1 done1 b1 p)) now2 done2 b2)
      as (B1 & B2 & _).
    + now rewrite triggerPulse_requiredGap, A4.
    + split; [exact B1 |].
      rewrite B2, A2, A3, <- app_assoc. unfold next.
      now destruct (lastWasA p).
  - intros H. pose proof (run_burst_accepted cs (begin p0) H) as Ha.
    split; [exact Ha |].
    rewrite run_alternates, emitted_begin, Ha. reflexivity.
Qed.

Lemma pulses_alternate_from_A_witness :
  fst (triggerPulse 1000 1400 false (begin init)) = true
  /\ emitted (snd (triggerPulse 1000 1400 false (begin init))) = [A]
  /\ fst (triggerPulse 2000 2400 false
            (snd (triggerPulse 1000 1400 false (begin init)))) = true
  /\ emitted (snd (triggerPulse 2000 2400 false
                     (snd (triggerPulse 1000 1400 false (begin init)))))
     = [A; B].
Proof.
  pose proof (pulses_alternate_from_A init []) as H. cbv zeta in H.
  destruct H as (_ & _ & _ & Hfirst & _ & Htwo & _).
  destruct (Hfirst 1000 1400 false) as (F1 & F2);
    [right; vm_compute; discriminate |].
  destruct (Htwo (begin init) 1000 1400 false 2000 2400 false) as (T1 & T2);
    [right; vm_compute; discriminate | right; vm_compute; discriminate |].
  split; [exact F1 |]. split; [exact F2 |]. split; [exact T1 | exact T2].
Defined.

Example three_calls_one_refused :
  let res := run [mkCall 1000 1400 false; mkCall 1500 1900 false;
                  mkCall 2100 2500 false; mkCall 2600 3000 true]
                 (begin init) in
  fst res = [true; false; true; true] /\ emitted (snd res) = [A; B; A].
Proof. vm_compute. auto. Qed.

End PulseClaims.

(** ** StateManager *)

Section StoreFacts.

Import StateManager.

Lemma try_write_writable (text : string) (sd : SD) :
  writable sd = true -> file (try_write text sd) = Some (text ++ crlf)%string.
Proof. intros H. unfold try_write. now rewrite H. Qed.

Lemma try_write_flags (text : string) (sd : SD) :
  readable (try_write text sd) = readable sd
  /\ writable (try_write text sd) = writable sd.
Proof. unfold try_write. destruct (writable sd) eqn:E; simpl; auto. Qed.

Lemma saveClockTime_flags (dt : DateTime) (sd : SD) :
  readable (snd (saveClockTime dt sd)) = readable sd
  /\ writable (snd (saveClockTime dt sd)) = writable sd.
Proof. unfold saveClockTime. destruct (writable sd) eqn:E; simpl; auto. Qed.

Lemma saveClockTime_file (dt : DateTime) (sd : SD) :
  writable sd = true ->
  file (snd (saveClockTime dt sd)) = stored (hour dt) (minute dt).
Proof. intros H. unfold saveClockTime. now rewrite H. Qed.

(** The two return-value tests of parseLine, read on the list. *)
Lemma count_is_5 (l : list Z) :
  (Z.of_nat (List.length l) =? 5)
  = match l with [_; _; _; _; _] => true | _ => false end.
Proof.
  destruct l as [| a [| b [| c [| d [| e [| f l]]]]]]; try reflexivity.
  apply Z.eqb_neq. cbn [List.length]. lia.
Qed.

Lemma count_is_2 (l : list Z) :
  (Z.of_nat (List.length l) =? 2)
  = match l with [_; _] => true | _ => false end.
Proof.
  destruct l as [| a [| b [| c l]]]; try reflexivity.
  apply Z.eqb_neq. cbn [List.length]. lia.
Qed.

(** A line in neither form resets the file to 00:00 and yields 00:00. *)
Lemma parseLine_unparsable (line : string) (sd : SD) :
  unparsable line = true ->
  parseLine line sd = (midnight, try_write "00:00" sd).
Proof.
  unfold unparsable, fullForm, bareForm, parseLine.
  intros H. apply andb_true_iff in H. destruct H as [H1 H2].
  apply negb_true_iff in H1, H2.
  rewrite count_is_5, count_is_2.
  destruct (Scan.sscanf Scan.fmt_date_time line)
    as [| a [| b [| c [| h [| m [| x r1]]]]]];
    destruct (Scan.sscanf Scan.fmt_time line)
      as [| h2 [| m2 [| y r2]]];
    cbn [Scan.assign nth andb]; rewrite ?H1, ?H2; reflexivity.
Qed.

(** A line in the bare form yields its time and leaves the file alone. *)
Lemma parseLine_bare (line : string) (sd : SD) (h m : Z) :
  fullForm line = false ->
  Scan.sscanf Scan.fmt_time line = [h; m] ->
  valid_hm h m = true ->
  parseLine line sd = (mkDateTime 2000 1 1 h m 0, sd).
Proof.
  unfold fullForm, parseLine. intros H1 H2 Hv.
  rewrite count_is_5, count_is_2, H2.
  destruct (Scan.sscanf Scan.fmt_date_time line)
    as [| a [| b [| c [| h' [| m' [| x r1]]]]]];
    cbn [Scan.assign nth andb]; rewrite ?H1, ?Hv; reflexivity.
Qed.

Example parse_bare : parseLine "07:05" sdEmpty = (mkDateTime 2000 1 1 7 5 0, sdEmpty).
Proof. reflexivity. Qed.

Example parse_full :
  parseLine "2024-01-05 23:59" sdEmpty = (mkDateTime 2000 1 1 23 59 0, sdEmpty).
Proof. reflexivity. Qed.

Example parse_hour_out_of_range : unparsable "2024-01-05 25:10" = true.
Proof. reflexivity. Qed.

Example parse_text : unparsable "garbage" = true.
Proof. reflexivity. Qed.

(** What saveClockTime writes is read back by load. *)
Example save_then_load :
  loadLastKnownClockTime None
    (snd (saveClockTime (mkDateTime 2000 1 1 9 41 0) sdEmpty))
  = (mkDateTime 2000 1 1 9 41 0, sdWith (StateManager.hhmm 9 41 ++ crlf)).
Proof. reflexivity. Qed.

(** C8, as the code has it.  With a state file present that cannot be
    opened for reading or whose first line is in neither accepted form,
    load returns 00:00 and rewrites the file to 00:00.  With no state
    file, load returns the current local time of the system clock (00:00
    only if localtime() gives nothing) and creates the file with that
    time. *)
Theorem load_fallbacks (lt : option (Z * Z)) (sd : SD) :
  (forall text,
      file sd = Some text ->
      readable sd = false
      \/ unparsable (readStringUntil "010" text) = true ->
      loadLastKnownClockTime lt sd = (midnight, try_write "00:00" sd)
      /\ (writable sd = true ->
          file (snd (loadLastKnownClockTime lt sd)) = stored 0 0))
  /\ (file sd = None ->
      let hm := match lt with Some hm => hm | None => (0, 0) end in
      loadLastKnownClockTime lt sd
      = (mkDateTime 2000 1 1 (fst hm) (snd hm) 0,
         try_write (hhmm (fst hm) (snd hm)) sd)
      /\ (writable sd = true ->
          file (snd (loadLastKnownClockTime lt sd))
          = stored (fst hm) (snd hm))).
Proof.
  split.
  - intros text Hf Hbad.
    assert (E : loadLastKnownClockTime lt sd = (midnight, try_write "00:00" sd)).
    { unfold loadLastKnownClockTime. rewrite Hf.
      destruct (readable sd) eqn:Hr.
      - destruct Hbad as [Hbad | Hbad]; [discriminate |].
        now apply parseLine_unparsable.
      - reflexivity. }
    split; [exact E |].
    intros Hw. rewrite E. simpl. now apply try_write_writable.
  - intros Hf. cbv zeta.
    assert (E : loadLastKnownClockTime lt sd
                = (mkDateTime 2000 1 1
                     (fst match lt with Some hm => hm | None => (0, 0) end)
                     (snd match lt with Some hm => hm | None => (0, 0) end) 0,
                   try_write
                     (hhmm (fst match lt with Some hm => hm | None => (0, 0) end)
                           (snd match lt with Some hm => hm | None => (0, 0) end))
                     sd)).
    { unfold loadLastKnownClockTime. rewrite Hf.
      destruct lt as [[h m] |]; reflexivity. }
    split; [exact E |].
    intros Hw. rewrite E. simpl. now apply try_write_writable.
Qed.

Lemma load_fallbacks_witness :
  loadLastKnownClockTime None (sdWith "garbage")
  = (midnight, try_write "00:00" (sdWith "garbage"))
  /\ file (snd (loadLastKnownClockTime None (sdWith "garbage"))) = stored 0 0.
Proof.
  destruct (load_fallbacks None (sdWith "garbage")) as [H _].
  destruct (H "garbage"%string eq_refl (or_intror eq_refl)) as [H1 H2].
  split; [exact H1 | exact (H2 eq_refl)].
Defined.

(** C8 as stated fails when no file exists: at 12:34 local time, load
    returns 12:34 and stores 12:34, not the default 00:00. *)
Lemma load_missing_file_returns_clock :
  file sdEmpty = None
  /\ fst (loadLastKnownClockTime (Some (12, 34)) sdEmpty)
     = mkDateTime 2000 1 1 12 34 0
  /\ fst (loadLastKnownClockTime (Some (12, 34)) sdEmpty) <> midnight
  /\ file (snd (loadLastKnownClockTime (Some (12, 34)) sdEmpty)) = stored 12 34
  /\ stored 12 34 <> stored 0 0.
Proof. vm_compute. repeat split; discriminate. Qed.

End StoreFacts.

(** ** SystemManager *)

Section EngineFacts.

Import SystemManager.

Implicit Types (s : t) (k : Clock) (reason : string).

(** The gate returns at once while a session is active. *)
Lemma tryStartCatchUp_active reason k s :
  catchupActive s = true -> tryStartCatchUp reason k s = s.
Proof. intros H. unfold tryStartCatchUp. now rewrite H. Qed.

(** The minute tick is disabled while a session is active. *)
Lemma checkMinuteChange_active k (a b : Z) s :
  catchupActive s = true -> checkMinuteChange k a b s = s.
Proof. intros H. unfold checkMinuteChange. now rewrite H. Qed.

(** The gate never touches the coil, the card or the physical minute. *)
Lemma tryStartCatchUp_frame reason k s :
  pulseManager (tryStartCatchUp reason k s) = pulseManager s
  /\ stateManager (tryStartCatchUp reason k s) = stateManager s
  /\ lastImpulseMinutes (tryStartCatchUp reason k s) = lastImpulseMinutes s
  /\ config (tryStartCatchUp reason k s) = config s.
Proof. unfold tryStartCatchUp. repeat break_if; simpl; auto. Qed.

(** Neither does the handling of a resync drive the coil. *)
Lemma resync_pulseManager (r : ResyncReading) s :
  pulseManager (resync r s) = pulseManager s.
Proof.
  unfold resync. repeat break_if; simpl; auto.
  now destruct (tryStartCatchUp_frame "ntp-resync" (rs_clock r)
                  (info (MsgResyncCorrected (sysDelta r))
                     (info (MsgTzFlags (rs_isdstBefore r) (rs_isdstAfter r)) s)))
    as (-> & _).
Qed.

(** C10.  While a catch-up session is active, the gate used by the boot
    and resync paths returns the state untouched (session counters and
    physical minute included), the minute tick does nothing, and the
    pulses of a whole loop iteration are exactly those of the catch-up
    engine. *)
Theorem active_session_is_exclusive s :
  catchupActive s = true ->
  (forall reason k, tryStartCatchUp reason k s = s)
  /\ (forall k a b, checkMinuteChange k a b s = s)
  /\ (forall e, pulseManager (loop e s)
                = pulseManager (tickCatchUp (lp_catchup e) s)).
Proof.
  intros H. split; [| split].
  - intros reason k. now apply tryStartCatchUp_active.
  - intros k a b. now apply checkMinuteChange_active.
  - intros e. unfold loop. rewrite (checkMinuteChange_active _ _ _ _ H).
    repeat break_if; auto.
    now rewrite resync_pulseManager.
Qed.

Lemma active_session_is_exclusive_witness :
  tryStartCatchUp "ntp-resync" (clockAt 5 0) engineCatchingUp = engineCatchingUp
  /\ checkMinuteChange (clockAt 5 0) 1000 1650 engineCatchingUp = engineCatchingUp.
Proof.
  destruct (active_session_is_exclusive engineCatchingUp eq_refl) as (H1 & H2 & _).
  split; [apply H1 | apply H2].
Defined.

(** C3, as the code has it.  When the forward difference exceeds the
    cap, a catch-up request changes nothing: no pulse, no session
    started, physical minute and state file as before.  With no session
    active (and a cap that is not negative) it logs an error; with a
    session active it returns silently. *)
Theorem catchup_over_cap_refused reason k s :
  maxCatchupMinutes (config s)
    < diffForwardMinutes (lastImpulseMinutes s)
        (minutesOfDay (now (config s) k)) ->
  pulseManager (tryStartCatchUp reason k s) = pulseManager s
  /\ stateManager (tryStartCatchUp reason k s) = stateManager s
  /\ lastImpulseMinutes (tryStartCatchUp reason k s) = lastImpulseMinutes s
  /\ catchupActive (tryStartCatchUp reason k s) = catchupActive s
  /\ catchupRemaining (tryStartCatchUp reason k s) = catchupRemaining s
  /\ catchupLastPulseMs (tryStartCatchUp reason k s) = catchupLastPulseMs s
  /\ catchupIntervalMs (tryStartCatchUp reason k s) = catchupIntervalMs s
  /\ (catchupActive s = false -> 0 <= maxCatchupMinutes (config s) ->
      logger (tryStartCatchUp reason k s)
      = logger s
          ++ [(ERROR, MsgCatchupExceeds
                        (diffForwardMinutes (lastImpulseMinutes s)
                           (minutesOfDay (now (config s) k))))])
  /\ (catchupActive s = true -> tryStartCatchUp reason k s = s).
Proof.
  intros Hcap. unfold tryStartCatchUp.
  destruct (catchupActive s) eqn:Ha.
  - repeat split; auto; discriminate.
  - destruct (Z.eqb_spec
                (diffForwardMinutes (lastImpulseMinutes s)
                   (minutesOfDay (now (config s) k))) 0) as [E | E].
    + simpl. repeat split; auto; try discriminate. intros _ Hm. lia.
    + apply Z.ltb_lt in Hcap. rewrite Hcap. simpl.
      repeat split; auto; discriminate.
Qed.

Lemma catchup_over_cap_refused_witness :
  lastImpulseMinutes (tryStartCatchUp "boot" (clockAt 5 0) (engineAt cfgAuto 0)) = 0
  /\ catchupActive (tryStartCatchUp "boot" (clockAt 5 0) (engineAt cfgAuto 0)) = false
  /\ logger (tryStartCatchUp "boot" (clockAt 5 0) (engineAt cfgAuto 0))
     = [(ERROR, MsgCatchupExceeds 300)].
Proof.
  destruct (catchup_over_cap_refused "boot" (clockAt 5 0) (engineAt cfgAuto 0))
    as (_ & _ & H3 & H4 & _ & _ & _ & H8 & _).
  - vm_compute. reflexivity.
  - split; [exact H3 | split; [exact H4 |]].
    apply H8; [reflexivity | vm_compute; discriminate].
Defined.

(** C3 as stated fails in a state with a session active: the request
    finds a difference of 300 minutes over a cap of 180 and logs
    nothing. *)
Lemma catchup_over_cap_silent_when_active :
  catchupActive engineCatchingUp = true
  /\ maxCatchupMinutes (config engineCatchingUp)
     < diffForwardMinutes (lastImpulseMinutes engineCatchingUp)
         (minutesOfDay (now (config engineCatchingUp) (clockAt 5 0)))
  /\ logger (tryStartCatchUp "ntp-resync" (clockAt 5 0) engineCatchingUp)
     = logger engineCatchingUp
  /\ forall m, ~ In (ERROR, m)
                 (logger (tryStartCatchUp "ntp-resync" (clockAt 5 0)
                            engineCatchingUp)).
Proof.
  vm_compute. repeat split; try reflexivity.
  intros m [H | []]. discriminate.
Qed.

End EngineFacts.

(** ** The catch-up engine, one call at a time *)

Section CatchUpSteps.

Import SystemManager.

Implicit Types (s : t) (r : CatchUpReading).

Lemma tickCatchUp_idle r s :
  catchupActive s = false -> tickCatchUp r s = s.
Proof. intros H. unfold tickCatchUp. now rewrite H. Qed.

(** Before the interval has elapsed nothing happens. *)
Lemma tickCatchUp_waits r s :
  catchupActive s = true -> due r s = false -> tickCatchUp r s = s.
Proof.
  intros Ha Hd. unfold tickCatchUp, due in *. rewrite Ha, Hd. reflexivity.
Qed.

Lemma pulseCount_burst (now done : Z) (p : PulseManager.t) :
  List.length (PulseManager.emitted
                 (snd (PulseManager.triggerPulse now done true p)))
  = S (List.length (PulseManager.emitted p)).
Proof.
  destruct (triggerPulse_accepted now done true p eq_refl) as (He & _).
  rewrite He, length_app. simpl. lia.
Qed.

(** A pulse that is not the last one owed: one step forward, persisted,
    one pulse less to go. *)
Lemma tickCatchUp_steps r s :
  catchupActive s = true -> due r s = true -> 1 < catchupRemaining s ->
  catchupActive (tickCatchUp r s) = true
  /\ catchupRemaining (tickCatchUp r s) = catchupRemaining s - 1
  /\ lastImpulseMinutes (tickCatchUp r s)
     = Z.rem (lastImpulseMinutes s + 1) 1440
  /\ stateManager (tickCatchUp r s)
     = snd (StateManager.saveClockTime
              (mkDateTime 2000 1 1
                 (Z.quot (Z.rem (lastImpulseMinutes s + 1) 1440) 60)
                 (Z.rem (Z.rem (lastImpulseMinutes s + 1) 1440) 60) 0)
              (stateManager s))
  /\ pulseCount (tickCatchUp r s) = pulseCount s + 1
  /\ catchupLastPulseMs (tickCatchUp r s) = cu_stamp r
  /\ catchupIntervalMs (tickCatchUp r s) = catchupIntervalMs s
  /\ config (tickCatchUp r s) = config s.
Proof.
  intros Ha Hd Hr. unfold tickCatchUp, due in *. rewrite Ha, Hd.
  pose proof (pulseCount_burst (cu_trigNow r) (cu_trigDone r) (pulseManager s)) as Hp.
  assert (Hs : fst (PulseManager.triggerPulse (cu_trigNow r) (cu_trigDone r)
                      true (pulseManager s)) = true) by reflexivity.
  destruct (PulseManager.triggerPulse (cu_trigNow r) (cu_trigDone r) true
              (pulseManager s)) as [sent p].
  simpl in Hp, Hs. subst sent. cbn -[Z.rem Z.quot Z.leb Z.sub].
  destruct (Z.leb_spec (catchupRemaining s - 1) 0) as [H | H]; [lia |].
  cbn -[Z.rem Z.quot]. repeat split; auto.
  unfold pulseCount. cbn -[Z.rem Z.quot Z.of_nat]. rewrite Hp. lia.
Qed.

(** The last pulse owed: the step is made and persisted, the session
    ends, and the physical minute is set to the clock as it reads now. *)
Lemma tickCatchUp_finishes r s :
  catchupActive s = true -> due r s = true -> catchupRemaining s <= 1 ->
  catchupActive (tickCatchUp r s) = false
  /\ catchupRemaining (tickCatchUp r s) = catchupRemaining s - 1
  /\ lastImpulseMinutes (tickCatchUp r s)
     = minutesOfDay (now (config s) (cu_clock r))
  /\ stateManager (tickCatchUp r s)
     = snd (StateManager.saveClockTime
              (mkDateTime 2000 1 1
                 (hour (now (config s) (cu_clock r)))
                 (minute (now (config s) (cu_clock r))) 0)
              (snd (StateManager.saveClockTime
                      (mkDateTime 2000 1 1
                         (Z.quot (Z.rem (lastImpulseMinutes s + 1) 1440) 60)
                         (Z.rem (Z.rem (lastImpulseMinutes s + 1) 1440) 60) 0)
                      (stateManager s))))
  /\ pulseCount (tickCatchUp r s) = pulseCount s + 1
  /\ config (tickCatchUp r s) = config s.
Proof.
  intros Ha Hd Hr. unfold tickCatchUp, due in *. rewrite Ha, Hd.
  pose proof (pulseCount_burst (cu_trigNow r) (cu_trigDone r) (pulseManager s)) as Hp.
  assert (Hs : fst (PulseManager.triggerPulse (cu_trigNow r) (cu_trigDone r)
                      true (pulseManager s)) = true) by reflexivity.
  destruct (PulseManager.triggerPulse (cu_trigNow r) (cu_trigDone r) true
              (pulseManager s)) as [sent p].
  simpl in Hp, Hs. subst sent. cbn -[Z.rem Z.quot Z.leb Z.sub].
  destruct (Z.leb_spec (catchupRemaining s - 1) 0) as [H | H]; [| lia].
  cbn -[Z.rem Z.quot]. repeat split; auto.
  unfold pulseCount. cbn -[Z.rem Z.quot Z.of_nat]. rewrite Hp. lia.
Qed.

Lemma catchUpRun_idle (rs : list CatchUpReading) s :
  catchupActive s = false -> catchUpRun rs s = s.
Proof.
  intros H. induction rs as [| r rs IH]; simpl; [reflexivity |].
  now rewrite tickCatchUp_idle.
Qed.

Lemma catchUpRun_app (rs1 rs2 : list CatchUpReading) s :
  catchUpRun (rs1 ++ rs2) s = catchUpRun rs2 (catchUpRun rs1 s).
Proof. revert s. induction rs1 as [| r rs1 IH]; intros s; simpl; auto. Qed.

End CatchUpSteps.

(** ** A whole catch-up session *)

Section CatchUpSession.

Import SystemManager.

Implicit Types (s : t) (r : CatchUpReading).

Lemma rem_step (m : Z) :
  0 <= m < 1440 ->
  Z.rem (m + 1) 1440 = (m + 1) mod 1440 /\ 0 <= Z.rem (m + 1) 1440 < 1440.
Proof.
  intros H. rewrite Z.rem_mod_nonneg by lia.
  split; [reflexivity | apply Z.mod_pos_bound; lia].
Qed.

(** C4.  A session with d > 0 pulses owed, driven by any series of
    tickCatchUp calls, emits at most d pulses.  After k < d of them it is
    still active with d - k to go and the physical minute has advanced
    by exactly k modulo 1440, each step persisted.  On the d-th pulse it
    deactivates, and the physical minute is set to, and persisted as,
    the clock read at that very call.  If every call comes an interval
    after the previous pulse, every call pulses, so d calls complete the
    session. *)
Theorem catchup_session_completes (d : Z) s (rs : list CatchUpReading) :
  catchupActive s = true ->
  catchupRemaining s = d ->
  0 < d ->
  0 <= lastImpulseMinutes s < 1440 ->
  let s' := catchUpRun rs s in
  let k := pulseCount s' - pulseCount s in
  0 <= k <= d
  /\ (k = 0 -> s' = s)
  /\ (k < d ->
      catchupActive s' = true
      /\ catchupRemaining s' = d - k
      /\ lastImpulseMinutes s' = (lastImpulseMinutes s + k) mod 1440
      /\ (0 < k -> StateManager.writable (stateManager s) = true ->
          persisted s' = storedMinute (lastImpulseMinutes s')))
  /\ (k = d ->
      catchupActive s' = false
      /\ exists rs1 r rs2,
          rs = rs1 ++ r :: rs2
          /\ catchupActive (catchUpRun rs1 s) = true
          /\ s' = tickCatchUp r (catchUpRun rs1 s)
          /\ lastImpulseMinutes s'
             = minutesOfDay (now (config s) (cu_clock r))
          /\ (StateManager.writable (stateManager s) = true ->
              persisted s'
              = stored (hour (now (config s) (cu_clock r)))
                       (minute (now (config s) (cu_clock r)))))
  /\ (allDue rs s = true -> k = Z.min d (Z.of_nat (List.length rs))).
Proof.
  cbv zeta. revert d s.
  induction rs as [| r rs IH]; intros d s Ha Hd Hpos Hm.
  - simpl. rewrite Z.sub_diag.
    split; [lia |]. split; [reflexivity |]. split; [| split].
    + intros _. rewrite Z.add_0_r, Z.mod_small by lia.
      repeat split; auto; lia.
    + intros E. lia.
    + intros _. lia.
  - simpl catchUpRun. simpl allDue.
    destruct (due r s) eqn:Hdue.
    + destruct (Z_lt_le_dec 1 d) as [Hmore | Hlast].
      * (* a pulse that leaves more to do *)
        destruct (tickCatchUp_steps r s Ha Hdue ltac:(lia))
          as (Ha1 & Hr1 & Hl1 & Hs1 & Hp1 & _ & _ & Hc1).
        destruct (rem_step _ Hm) as [Hrem Hrng].
        assert (Hw1 : StateManager.writable (stateManager (tickCatchUp r s))
                      = StateManager.writable (stateManager s))
          by (rewrite Hs1; apply saveClockTime_flags).
        assert (Hper : StateManager.writable (stateManager s) = true ->
                       persisted (tickCatchUp r s)
                       = storedMinute (lastImpulseMinutes (tickCatchUp r s))).
        { intros Hw. unfold persisted, storedMinute.
          rewrite Hs1, Hl1. now apply saveClockTime_file. }
        specialize (IH (d - 1) (tickCatchUp r s) Ha1 ltac:(lia) ltac:(lia)
                      ltac:(rewrite Hl1; exact Hrng)).
        destruct IH as (Hk & Hz & Hlt & Heq & Hall).
        rewrite Hp1 in *.
        set (s' := catchUpRun rs (tickCatchUp r s)) in *.
        split; [lia |]. split; [intros E; lia |]. split; [| split].
        -- intros Hkd.
           destruct (Hlt ltac:(lia)) as (A1 & A2 & A3 & A4).
           split; [exact A1 |]. split; [lia |]. split.
           ++ rewrite A3, Hl1, Hrem, Z.add_mod_idemp_l by lia.
              f_equal; lia.
           ++ intros _ Hw.
              destruct (Z.eq_dec (pulseCount s' - (pulseCount s + 1)) 0) as [E | E].
              ** rewrite (Hz E). now apply Hper.
              ** apply A4; [lia | now rewrite Hw1].
        -- intros Hkd.
           destruct (Heq ltac:(lia)) as (B1 & rs1 & r0 & rs2 & E & B2 & B3 & B4 & B5).
           split; [exact B1 |].
           exists (r :: rs1), r0, rs2. rewrite Hc1 in *.
           repeat split; auto.
           ++ now rewrite E.
           ++ intros Hw. apply B5. now rewrite Hw1.
        -- rewrite Bool.andb_true_l. intros Hd'. specialize (Hall Hd').
           cbn [List.length]. lia.
      * (* the last pulse owed *)
        assert (d = 1) by lia. subst d.
        destruct (tickCatchUp_finishes r s Ha Hdue ltac:(lia))
          as (Ha1 & Hr1 & Hl1 & Hs1 & Hp1 & Hc1).
        rewrite (catchUpRun_idle rs _ Ha1), Hp1.
        split; [lia |]. split; [intros E; lia |]. split; [intros E; lia |].
        split.
        -- intros _. split; [exact Ha1 |].
           exists [], r, rs. repeat split; auto.
           intros Hw. unfold persisted. rewrite Hs1.
           rewrite saveClockTime_file; [reflexivity |].
           now rewrite (proj2 (saveClockTime_flags _ _)).
        -- intros _. cbn [List.length]. lia.
    + (* not yet time *)
      rewrite (tickCatchUp_waits r s Ha Hdue).
      specialize (IH d s Ha Hd Hpos Hm).
      destruct IH as (Hk & Hz & Hlt & Heq & _).
      split; [exact Hk |]. split; [exact Hz |]. split; [exact Hlt |]. split.
      * intros Hkd.
        destruct (Heq Hkd) as (B1 & rs1 & r0 & rs2 & E & B2 & B3 & B4 & B5).
        split; [exact B1 |].
        exists (r :: rs1), r0, rs2. simpl.
        rewrite (tickCatchUp_waits r s Ha Hdue).
        repeat split; auto. now rewrite E.
      * discriminate.
Qed.

End CatchUpSession.

Section CatchUpExamples.

Import SystemManager.

Lemma catchup_session_completes_witness :
  pulseCount (catchUpRun threeTicks engineOwing3) - pulseCount engineOwing3 = 3
  /\ catchupActive (catchUpRun threeTicks engineOwing3) = false.
Proof.
  pose proof (catchup_session_completes 3 engineOwing3 threeTicks
                eq_refl eq_refl ltac:(lia) ltac:(vm_compute; intuition discriminate))
    as H.
  cbv zeta in H. destruct H as (_ & _ & _ & Heq & Hall).
  assert (E : pulseCount (catchUpRun threeTicks engineOwing3)
              - pulseCount engineOwing3 = 3) by (exact (Hall eq_refl)).
  split; [exact E | exact (proj1 (Heq E))].
Defined.

(** The scenario of the specification: the clock stands at 00:00, the
    time is 00:07; seven pulses are emitted, one per call, and when the
    last one is out the time has become 00:08, which is where the
    physical minute ends. *)
Example seven_pulses_then_aligned :
  let s0 := tryStartCatchUp "boot" (clockAt 0 7) (engineAt cfgAuto 0) in
  let s7 := catchUpRun [tickAt 1000 0 7; tickAt 2400 0 7; tickAt 3800 0 7;
                        tickAt 5200 0 7; tickAt 6600 0 7; tickAt 8000 0 8;
                        tickAt 9400 0 8] s0 in
  catchupRemaining s0 = 7
  /\ pulseCount s7 = 7
  /\ catchupActive s7 = false
  /\ lastImpulseMinutes s7 = 8
  /\ persisted s7 = stored 0 8
  /\ PulseManager.emitted (pulseManager s7)
     = PulseManager.alternating PulseManager.A 7.
Proof. vm_compute. repeat split; reflexivity. Qed.

(** A call that comes too early is skipped, not counted. *)
Example early_call_waits :
  let s0 := tryStartCatchUp "boot" (clockAt 0 7) (engineAt cfgAuto 0) in
  let s1 := catchUpRun [tickAt 1000 0 7; tickAt 1700 0 7] s0 in
  pulseCount s1 = 1 /\ catchupRemaining s1 = 6 /\ lastImpulseMinutes s1 = 1.
Proof. vm_compute. repeat split; reflexivity. Qed.

End CatchUpExamples.

(** ** Ticks, catch-up requests and resyncs in the idle state *)

Section Reconciliation.

Import SystemManager.

Implicit Types (s : t) (k : Clock) (reason : string).

(** A freshly started session pulses on the first call of tickCatchUp:
    its last-pulse timestamp is zero. *)
Lemma startCatchUp_due (r : CatchUpReading) (diff : Z) reason s :
  due r (startCatchUp diff reason s) = true.
Proof. reflexivity. Qed.

(** What the minute tick does in the idle state. *)
Lemma checkMinuteChange_idle k (a b : Z) s :
  catchupActive s = false ->
  catchupActive (checkMinuteChange k a b s) = false
  /\ catchupRemaining (checkMinuteChange k a b s) = catchupRemaining s
  /\ (pulseCount (checkMinuteChange k a b s) = pulseCount s
      /\ lastImpulseMinutes (checkMinuteChange k a b s) = lastImpulseMinutes s
      /\ stateManager (checkMinuteChange k a b s) = stateManager s
      \/ pulseCount (checkMinuteChange k a b s) = pulseCount s + 1
         /\ lastImpulseMinutes (checkMinuteChange k a b s)
            = minutesOfDay (now (config s) k)
         /\ stateManager (checkMinuteChange k a b s)
            = snd (StateManager.saveClockTime
                     (mkDateTime 2000 1 1 (hour (now (config s) k))
                        (minute (now (config s) k)) 0)
                     (stateManager s))).
Proof.
  intros Ha. unfold checkMinuteChange. rewrite Ha.
  destruct (minutesOfDay (now (config s) k) =? lastImpulseMinutes s);
    [now (repeat split; auto) |].
  pose proof (triggerPulse_accepted a b false (pulseManager s)) as Hacc.
  pose proof (triggerPulse_refused a b false (pulseManager s)) as Hrej.
  destruct (PulseManager.triggerPulse a b false (pulseManager s)) as [sent p].
  simpl in Hacc, Hrej. destruct sent; cbn -[PulseManager.emitted Z.of_nat].
  - split; [exact Ha |]. split; [reflexivity |]. right.
    destruct (Hacc eq_refl) as (He & _).
    unfold pulseCount. cbn -[PulseManager.emitted Z.of_nat].
    rewrite He, length_app. cbn [List.length].
    repeat split; auto. lia.
  - rewrite (Hrej eq_refl). repeat split; auto.
Qed.

(** The minute tick when the minute read differs from the physical one
    and the guard of the pulser refuses the call: a log line, nothing
    else. *)
Lemma checkMinuteChange_skipped k (a b : Z) s :
  catchupActive s = false ->
  minutesOfDay (now (config s) k) <> lastImpulseMinutes s ->
  u32 (a - PulseManager.lastTrigMs (pulseManager s))
    < PulseManager.requiredGap (pulseManager s) ->
  checkMinuteChange k a b s = info MsgPulseSkipped s.
Proof.
  intros Ha Hne Hgap. unfold checkMinuteChange. rewrite Ha.
  destruct (Z.eqb_spec (minutesOfDay (now (config s) k)) (lastImpulseMinutes s));
    [contradiction |].
  rewrite (triggerPulse_too_soon (pulseManager s) a b Hgap).
  reflexivity.
Qed.

(** The same tick when the guard lets the call through: one pulse of the
    polarity that is due, and the physical minute set to the minute
    read. *)
Lemma checkMinuteChange_pulsed k (a b : Z) s :
  catchupActive s = false ->
  minutesOfDay (now (config s) k) <> lastImpulseMinutes s ->
  PulseManager.requiredGap (pulseManager s)
    <= u32 (a - PulseManager.lastTrigMs (pulseManager s)) ->
  pulseCount (checkMinuteChange k a b s) = pulseCount s + 1
  /\ PulseManager.emitted (pulseManager (checkMinuteChange k a b s))
     = PulseManager.emitted (pulseManager s)
       ++ [PulseManager.next (pulseManager s)]
  /\ lastImpulseMinutes (checkMinuteChange k a b s)
     = minutesOfDay (now (config s) k)
  /\ stateManager (checkMinuteChange k a b s)
     = snd (StateManager.saveClockTime
              (mkDateTime 2000 1 1 (hour (now (config s) k))
                 (minute (now (config s) k)) 0)
              (stateManager s))
  /\ catchupRemaining (checkMinuteChange k a b s) = catchupRemaining s.
Proof.
  intros Ha Hne Hgap.
  pose proof (triggerPulse_passes a b false (pulseManager s) (or_intror Hgap))
    as Hp.
  pose proof (triggerPulse_accepted a b false (pulseManager s) Hp) as Hacc.
  unfold checkMinuteChange. rewrite Ha.
  destruct (Z.eqb_spec (minutesOfDay (now (config s) k)) (lastImpulseMinutes s));
    [contradiction |].
  destruct (PulseManager.triggerPulse a b false (pulseManager s)) as [sent p].
  simpl in Hp, Hacc. subst sent. destruct Hacc as (He & _).
  unfold pulseCount. cbn -[PulseManager.emitted Z.of_nat].
  rewrite He, length_app. cbn [List.length].
  repeat split; auto. lia.
Qed.

(** An iteration of loop that leaves an idle engine with a session has
    run its resync part down to the call of the gate. *)
Lemma loop_starts_through_gate (e : LoopReading) s :
  catchupActive s = false ->
  catchupActive (loop e s) = true ->
  isAuto (config s) = true
  /\ dstGuard (dstFlip (lp_resync e)) (sysDelta (lp_resync e)) = false
  /\ u32 (resyncRtcIfDiffSeconds (config s)) <= sysDelta (lp_resync e)
  /\ loop e s
     = tryStartCatchUp "ntp-resync" (rs_clock (lp_resync e))
         (info (MsgResyncCorrected (sysDelta (lp_resync e)))
            (info (MsgTzFlags (rs_isdstBefore (lp_resync e))
                     (rs_isdstAfter (lp_resync e)))
               (set_lastNtpSyncMs (lp_nowMs e)
                  (checkMinuteChange (lp_clock e) (lp_trigNow e)
                     (lp_trigDone e) s)))).
Proof.
  intros Ha. unfold loop.
  destruct (checkMinuteChange_idle (lp_clock e) (lp_trigNow e) (lp_trigDone e)
              s Ha) as (H1 & _).
  assert (Hc : config (checkMinuteChange (lp_clock e) (lp_trigNow e)
                         (lp_trigDone e) s) = config s).
  { unfold checkMinuteChange. repeat break_if; try reflexivity.
    all: destruct (PulseManager.triggerPulse (lp_trigNow e) (lp_trigDone e)
                     false (pulseManager s)); repeat break_if; reflexivity. }
  rewrite (tickCatchUp_idle (lp_catchup e) _ H1).
  set (s1 := checkMinuteChange (lp_clock e) (lp_trigNow e) (lp_trigDone e) s)
    in *.
  rewrite Hc.
  destruct (isAuto (config s)); cbn [negb]; [| congruence].
  destruct (u32 (u32 (ntpResyncEveryMinutes (config s)) * 60 * 1000) =? 0);
    [congruence |].
  destruct (u32 (lp_nowMs e - lastNtpSyncMs s1)
            <? u32 (u32 (ntpResyncEveryMinutes (config s)) * 60 * 1000));
    [congruence |].
  unfold resync. cbn [config info log set_lastNtpSyncMs]. rewrite Hc.
  destruct (sysDelta (lp_resync e) =? 0); [cbn; congruence |].
  destruct (dstGuard (dstFlip (lp_resync e)) (sysDelta (lp_resync e)));
    [cbn; congruence |].
  destruct (Z.leb_spec (u32 (resyncRtcIfDiffSeconds (config s)))
              (sysDelta (lp_resync e))) as [L | L]; [| cbn; congruence].
  intros _. repeat split; auto.
Qed.

(** Boot ends with the request at the gate: begin is that request, made in
    a state that has the session flag it started with, followed by a log
    line and the start of the resync timer. *)
Lemma begin_ends_at_the_gate (b : BootReading) s :
  exists s8,
    begin b s
    = info MsgReady
        (set_lastNtpSyncMs (bt_millis b)
           (tryStartCatchUp "boot" (bt_catchup b) s8))
    /\ catchupActive s8 = catchupActive s.
Proof.
  unfold begin, doCatchUpIfNeeded.
  destruct (bt_rtcInitOk b);
    destruct (u32 (resyncRtcIfDiffSeconds (config s))
              <=? absDelta (bt_sysBefore b) (bt_sysAfter b));
    cbn [stateManager info error log];
    destruct (StateManager.loadLastKnownClockTime (bt_localtime b)
                (stateManager s)) as [stateDt sd];
    destruct (dstGuard (isdstChanged (bt_isdstBefore b) (bt_isdstAfter b))
                (absDelta (bt_sysBefore b) (bt_sysAfter b)));
    eexists; (split; [reflexivity |]); reflexivity.
Qed.

(** When the gate starts a session from the idle state. *)
Lemma tryStartCatchUp_starts_iff reason k s :
  catchupActive s = false ->
  catchupActive (tryStartCatchUp reason k s) = true
  <-> 0 < diffForwardMinutes (lastImpulseMinutes s)
            (minutesOfDay (now (config s) k))
        <= maxCatchupMinutes (config s).
Proof.
  intros Ha. unfold tryStartCatchUp. rewrite Ha.
  pose proof (diffForwardMinutes_range (lastImpulseMinutes s)
                (minutesOfDay (now (config s) k))) as Hr.
  destruct (Z.eqb_spec (diffForwardMinutes (lastImpulseMinutes s)
                          (minutesOfDay (now (config s) k))) 0) as [E | E].
  - cbn. rewrite Ha. split; [discriminate | lia].
  - destruct (Z.ltb_spec (maxCatchupMinutes (config s))
                (diffForwardMinutes (lastImpulseMinutes s)
                   (minutesOfDay (now (config s) k)))) as [L | L].
    + cbn. rewrite Ha. split; [discriminate | lia].
    + cbn. split; [lia | reflexivity].
Qed.

(** A manual set within the cap starts a session by itself. *)
Lemma OnManualClockSet_starts k (c : Z) s :
  0 <= c < 1440 ->
  0 < diffForwardMinutes c (minutesOfDay (now (config s) k))
    <= maxCatchupMinutes (config s) ->
  OnManualClockSet k c s
  = startCatchUp (diffForwardMinutes c (minutesOfDay (now (config s) k)))
      "manual"
      (saveClockTime (Z.quot c 60) (Z.rem c 60)
         (set_lastImpulseMinutes c
            (info (MsgManualSet c (minutesOfDay (now (config s) k))
                     (diffForwardMinutes c (minutesOfDay (now (config s) k))))
               s))).
Proof.
  intros Hc Hd. unfold OnManualClockSet. cbn [config info log].
  rewrite (Z.rem_small c 1440) by lia.
  destruct (Z.ltb_spec (maxCatchupMinutes (config s))
              (diffForwardMinutes c (minutesOfDay (now (config s) k))));
    [lia |].
  destruct (Z.eqb_spec
              (diffForwardMinutes c (minutesOfDay (now (config s) k))) 0);
    [lia | reflexivity].
Qed.

(** C1, as the code has it.  In the idle state, with a forward difference
    of 1 to maxCatchupMinutes between the physical minute and the minute
    read:

    - the gate tryStartCatchUp activates a session owing forwardDiff
      pulses, without a pulse and without moving the physical minute,
      which the first catch-up pulse then advances by one;
    - the minute tick computes no forward difference and starts no
      session: it makes one guarded call of the pulser; refused by the
      guard it leaves a log line and nothing else, accepted it emits
      exactly one pulse and sets the physical minute to the minute read,
      which it persists;
    - the idle catch-up engine does nothing.

    Sessions start in three places.  The gate starts one exactly when
    it finds a difference of 1 to the cap; boot ends with a request at
    the gate; an iteration of loop that leaves the idle engine with a
    session has run its resync down to the gate; and a manual set with
    a difference within the cap calls startCatchUp itself, past the
    gate. *)
Theorem catchup_starts_at_the_gate reason k s :
  catchupActive s = false ->
  0 < diffForwardMinutes (lastImpulseMinutes s)
        (minutesOfDay (now (config s) k))
    <= maxCatchupMinutes (config s) ->
  (catchupActive (tryStartCatchUp reason k s) = true
   /\ catchupRemaining (tryStartCatchUp reason k s)
      = diffForwardMinutes (lastImpulseMinutes s)
          (minutesOfDay (now (config s) k))
   /\ lastImpulseMinutes (tryStartCatchUp reason k s) = lastImpulseMinutes s
   /\ pulseManager (tryStartCatchUp reason k s) = pulseManager s
   /\ stateManager (tryStartCatchUp reason k s) = stateManager s)
  /\ (forall r,
         1 < diffForwardMinutes (lastImpulseMinutes s)
               (minutesOfDay (now (config s) k)) ->
         lastImpulseMinutes (tickCatchUp r (tryStartCatchUp reason k s))
         = Z.rem (lastImpulseMinutes s + 1) 1440
         /\ pulseCount (tickCatchUp r (tryStartCatchUp reason k s))
            = pulseCount s + 1)
  /\ (forall a b,
         catchupActive (checkMinuteChange k a b s) = false
         /\ (pulseCount (checkMinuteChange k a b s) = pulseCount s
             /\ lastImpulseMinutes (checkMinuteChange k a b s)
                = lastImpulseMinutes s
             \/ pulseCount (checkMinuteChange k a b s) = pulseCount s + 1
                /\ lastImpulseMinutes (checkMinuteChange k a b s)
                   = minutesOfDay (now (config s) k)))
  /\ (forall a b,
         u32 (a - PulseManager.lastTrigMs (pulseManager s))
           < PulseManager.requiredGap (pulseManager s) ->
         checkMinuteChange k a b s = info MsgPulseSkipped s)
  /\ (forall a b,
         PulseManager.requiredGap (pulseManager s)
           <= u32 (a - PulseManager.lastTrigMs (pulseManager s)) ->
         pulseCount (checkMinuteChange k a b s) = pulseCount s + 1
         /\ PulseManager.emitted (pulseManager (checkMinuteChange k a b s))
            = PulseManager.emitted (pulseManager s)
              ++ [PulseManager.next (pulseManager s)]
         /\ lastImpulseMinutes (checkMinuteChange k a b s)
            = minutesOfDay (now (config s) k)
         /\ stateManager (checkMinuteChange k a b s)
            = snd (StateManager.saveClockTime
                     (mkDateTime 2000 1 1 (hour (now (config s) k))
                        (minute (now (config s) k)) 0)
                     (stateManager s))
         /\ catchupRemaining (checkMinuteChange k a b s) = catchupRemaining s)
  /\ (forall r, tickCatchUp r s = s)
  /\ (forall reason' k',
         catchupActive (tryStartCatchUp reason' k' s) = true
         <-> 0 < diffForwardMinutes (lastImpulseMinutes s)
                   (minutesOfDay (now (config s) k'))
               <= maxCatchupMinutes (config s))
  /\ (forall b, exists s8,
         begin b s
         = info MsgReady
             (set_lastNtpSyncMs (bt_millis b)
                (tryStartCatchUp "boot" (bt_catchup b) s8))
         /\ catchupActive s8 = false)
  /\ (forall e,
         catchupActive (loop e s) = true ->
         isAuto (config s) = true
         /\ dstGuard (dstFlip (lp_resync e)) (sysDelta (lp_resync e)) = false
         /\ u32 (resyncRtcIfDiffSeconds (config s)) <= sysDelta (lp_resync e)
         /\ loop e s
            = tryStartCatchUp "ntp-resync" (rs_clock (lp_resync e))
                (info (MsgResyncCorrected (sysDelta (lp_resync e)))
                   (info (MsgTzFlags (rs_isdstBefore (lp_resync e))
                            (rs_isdstAfter (lp_resync e)))
                      (set_lastNtpSyncMs (lp_nowMs e)
                         (checkMinuteChange (lp_clock e) (lp_trigNow e)
                            (lp_trigDone e) s)))))
  /\ (forall k' c,
         0 <= c < 1440 ->
         0 < diffForwardMinutes c (minutesOfDay (now (config s) k'))
           <= maxCatchupMinutes (config s) ->
         catchupActive (OnManualClockSet k' c s) = true
         /\ catchupRemaining (OnManualClockSet k' c s)
            = diffForwardMinutes c (minutesOfDay (now (config s) k'))
         /\ lastImpulseMinutes (OnManualClockSet k' c s) = c
         /\ pulseManager (OnManualClockSet k' c s) = pulseManager s
         /\ OnManualClockSet k' c s
            = startCatchUp
                (diffForwardMinutes c (minutesOfDay (now (config s) k')))
                "manual"
                (saveClockTime (Z.quot c 60) (Z.rem c 60)
                   (set_lastImpulseMinutes c
                      (info (MsgManualSet c (minutesOfDay (now (config s) k'))
                               (diffForwardMinutes c
                                  (minutesOfDay (now (config s) k'))))
                         s)))).
Proof.
  intros Ha [Hlo Hhi].
  assert (E : tryStartCatchUp reason k s
              = startCatchUp
                  (diffForwardMinutes (lastImpulseMinutes s)
                     (minutesOfDay (now (config s) k))) reason s).
  { unfold tryStartCatchUp. rewrite Ha.
    destruct (Z.eqb_spec (diffForwardMinutes (lastImpulseMinutes s)
                            (minutesOfDay (now (config s) k))) 0); [lia |].
    destruct (Z.ltb_spec (maxCatchupMinutes (config s))
                (diffForwardMinutes (lastImpulseMinutes s)
                   (minutesOfDay (now (config s) k)))); [lia | reflexivity]. }
  assert (Hne : minutesOfDay (now (config s) k) <> lastImpulseMinutes s).
  { intros Heq. rewrite Heq, diffForwardMinutes_same in Hlo. lia. }
  rewrite E.
  split; [| split; [| split; [| split; [| split; [| split; [| split;
    [| split; [| split]]]]]]]].
  - repeat split; reflexivity.
  - intros r Hmore.
    destruct (tickCatchUp_steps r
                (startCatchUp
                   (diffForwardMinutes (lastImpulseMinutes s)
                      (minutesOfDay (now (config s) k))) reason s)
                eq_refl (startCatchUp_due _ _ _ _) Hmore)
      as (_ & _ & Hl & _ & Hp & _).
    split; [exact Hl | exact Hp].
  - intros a b.
    destruct (checkMinuteChange_idle k a b s Ha) as (H1 & _ & [H | H]).
    + split; [exact H1 |]. left. tauto.
    + split; [exact H1 |]. right. tauto.
  - intros a b. now apply checkMinuteChange_skipped.
  - intros a b. now apply checkMinuteChange_pulsed.
  - intros r. now apply tickCatchUp_idle.
  - intros reason' k'. now apply tryStartCatchUp_starts_iff.
  - intros b. destruct (begin_ends_at_the_gate b s) as (s8 & Eb & Hb).
    exists s8. split; [exact Eb | now rewrite Hb].
  - intros e. now apply loop_starts_through_gate.
  - intros k' c Hc Hd. rewrite (OnManualClockSet_starts k' c s Hc Hd).
    repeat split; reflexivity.
Qed.

Lemma catchup_starts_at_the_gate_witness :
  catchupActive (tryStartCatchUp "boot" (clockAt 0 3) (engineAt cfgAuto 0)) = true
  /\ catchupRemaining (tryStartCatchUp "boot" (clockAt 0 3) (engineAt cfgAuto 0)) = 3
  /\ lastImpulseMinutes (tryStartCatchUp "boot" (clockAt 0 3) (engineAt cfgAuto 0)) = 0
  /\ checkMinuteChange (clockAt 0 3) 100 750 (engineAt cfgAuto 0)
     = info MsgPulseSkipped (engineAt cfgAuto 0)
  /\ lastImpulseMinutes
       (checkMinuteChange (clockAt 0 3) 1000 1650 (engineAt cfgAuto 0)) = 3
  /\ pulseCount (checkMinuteChange (clockAt 0 3) 1000 1650 (engineAt cfgAuto 0))
     = 1.
Proof.
  destruct (catchup_starts_at_the_gate "boot" (clockAt 0 3) (engineAt cfgAuto 0)
              eq_refl ltac:(vm_compute; intuition discriminate))
    as ((H1 & H2 & H3 & _) & _ & _ & Hskip & Hpulse & _).
  destruct (Hpulse 1000 1650 ltac:(vm_compute; discriminate))
    as (P1 & _ & P2 & _).
  split; [exact H1 |]. split; [exact H2 |]. split; [exact H3 |].
  split; [apply Hskip; vm_compute; reflexivity |].
  split; [exact P2 | exact P1].
Defined.

(** C1 as stated fails: idle at 00:00 with the time at 00:05 and a cap
    of 180, a loop iteration starts no session; it emits one pulse and
    sets the physical minute to 5. *)
Lemma tick_snaps_over_a_lag :
  catchupActive (engineAt cfgAuto 0) = false
  /\ diffForwardMinutes (lastImpulseMinutes (engineAt cfgAuto 0))
       (minutesOfDay (now cfgAuto (clockAt 0 5))) = 5
  /\ maxCatchupMinutes cfgAuto = 180
  /\ catchupActive (loop (loopAt 1000 0 5) (engineAt cfgAuto 0)) = false
  /\ catchupRemaining (loop (loopAt 1000 0 5) (engineAt cfgAuto 0)) = 0
  /\ lastImpulseMinutes (loop (loopAt 1000 0 5) (engineAt cfgAuto 0)) = 5
  /\ pulseCount (loop (loopAt 1000 0 5) (engineAt cfgAuto 0)) = 1.
Proof. vm_compute. repeat split; reflexivity. Qed.

End Reconciliation.

(** ** DST realignment *)

Section Realignment.

Import SystemManager.

Implicit Types (s : t) (r : ResyncReading) (b : BootReading).



(** An ordinary boot: the file says 00:00, the time is 00:07, seven
    pulses are owed and none has been emitted yet. *)
Example boot_starts_catchup :
  catchupActive (begin bootAt0007 (engineWithFile "00:00")) = true
  /\ catchupRemaining (begin bootAt0007 (engineWithFile "00:00")) = 7
  /\ lastImpulseMinutes (begin bootAt0007 (engineWithFile "00:00")) = 0
  /\ pulseCount (begin bootAt0007 (engineWithFile "00:00")) = 0
  /\ PulseManager.requiredGap
       (pulseManager (begin bootAt0007 (engineWithFile "00:00"))) = 700.
Proof. vm_compute. repeat split; reflexivity. Qed.


End Realignment.

(** ** Readings of the sentinel time *)

Section Sentinel.

Import SystemManager.

Implicit Types (s : t) (k : Clock) (reason : string).

Lemma getNtpTime_all_failed (n : nat) :
  RTCManager.getNtpTime (repeat None n) = RTCManager.sentinel.
Proof. induction n as [| n IH]; simpl; auto. Qed.

(** A session started by the gate owes between 1 and 1439 pulses. *)
Lemma tryStartCatchUp_started reason k s :
  catchupActive s = false ->
  catchupActive (tryStartCatchUp reason k s) = true ->
  0 < catchupRemaining (tryStartCatchUp reason k s) <= 1439.
Proof.
  intros Ha. unfold tryStartCatchUp. rewrite Ha.
  pose proof (diffForwardMinutes_range (lastImpulseMinutes s)
                (minutesOfDay (now (config s) k))) as Hr.
  destruct (Z.eqb_spec (diffForwardMinutes (lastImpulseMinutes s)
                          (minutesOfDay (now (config s) k))) 0) as [E | E].
  - cbn. rewrite Ha. discriminate.
  - break_if; cbn.
    + rewrite Ha. discriminate.
    + intros _. lia.
Qed.

(** C7, as the code has it.  The engine does not recognise the sentinel
    time; it compares its minute of day (00:00) like any other reading.
    When the physical minute equals it, a tick changes nothing and emits
    no pulse, and a catch-up request starts no session.  Whatever the
    reading, a session started by the gate owes at most 1439 pulses,
    never 1440. *)
Theorem sentinel_compares_as_midnight :
  (forall n, RTCManager.getNtpTime (repeat None n) = RTCManager.sentinel)
  /\ minutesOfDay RTCManager.sentinel = 0
  /\ (forall s k a b reason,
         now (config s) k = RTCManager.sentinel ->
         lastImpulseMinutes s = minutesOfDay RTCManager.sentinel ->
         checkMinuteChange k a b s = s
         /\ catchupActive (tryStartCatchUp reason k s) = catchupActive s
         /\ catchupRemaining (tryStartCatchUp reason k s) = catchupRemaining s
         /\ pulseManager (tryStartCatchUp reason k s) = pulseManager s
         /\ lastImpulseMinutes (tryStartCatchUp reason k s)
            = lastImpulseMinutes s)
  /\ (forall s k reason,
         catchupActive s = false ->
         catchupActive (tryStartCatchUp reason k s) = true ->
         0 < catchupRemaining (tryStartCatchUp reason k s) <= 1439).
Proof.
  split; [exact getNtpTime_all_failed |]. split; [reflexivity |]. split.
  - intros s k a b reason Hnow Hlast. split.
    + unfold checkMinuteChange. rewrite Hnow, Hlast, Z.eqb_refl.
      now destruct (catchupActive s).
    + unfold tryStartCatchUp. rewrite Hnow, Hlast, diffForwardMinutes_same.
      destruct (catchupActive s) eqn:Ha; cbn; rewrite ?Ha; auto.
  - intros s k reason. apply tryStartCatchUp_started.
Qed.

Lemma sentinel_compares_as_midnight_witness :
  checkMinuteChange sentinelClock 1000 1650 (engineAt cfgAuto 0)
  = engineAt cfgAuto 0
  /\ catchupActive (tryStartCatchUp "boot" sentinelClock (engineAt cfgAuto 0))
     = false.
Proof.
  destruct sentinel_compares_as_midnight as (_ & _ & H & _).
  destruct (H (engineAt cfgAuto 0) sentinelClock 1000 1650 "boot"%string
              eq_refl eq_refl) as (H1 & H2 & _).
  split; [exact H1 | exact H2].
Defined.

(** C7 as stated fails: with the physical minute at 00:05 and both
    clocks reading the sentinel, a loop iteration emits a pulse and sets
    the physical minute to 0; with the physical minute at 23:50, a
    catch-up request starts a session of 10 pulses. *)
Lemma sentinel_reading_drives_the_coil :
  now cfgAuto sentinelClock = RTCManager.sentinel
  /\ pulseCount (engineAt cfgAuto 5) = 0
  /\ pulseCount (loop (loopReading 1000 sentinelClock) (engineAt cfgAuto 5)) = 1
  /\ lastImpulseMinutes
       (loop (loopReading 1000 sentinelClock) (engineAt cfgAuto 5)) = 0
  /\ catchupActive
       (tryStartCatchUp "boot" sentinelClock (engineAt cfgAuto 1430)) = true
  /\ catchupRemaining
       (tryStartCatchUp "boot" sentinelClock (engineAt cfgAuto 1430)) = 10.
Proof. vm_compute. repeat split; reflexivity. Qed.

End Sentinel.


(** * Further properties of the code *)

(** ** StateManager: what load returns and when it writes *)

Section StoreMore.

Import StateManager.

Lemma allTimes_complete (h m : Z) :
  0 <= h < 24 -> 0 <= m < 60 -> In (h, m) allTimes.
Proof.
  intros Hh Hm. unfold allTimes. apply in_prod.
  - apply in_map_iff. exists (Z.to_nat h). split; [lia |].
    apply in_seq. lia.
  - apply in_map_iff. exists (Z.to_nat m). split; [lia |].
    apply in_seq. lia.
Qed.

Lemma readsBack_all : forallb readsBack allTimes = true.
Proof. vm_compute. reflexivity. Qed.

Lemma readsBackBare_all : forallb readsBackBare allTimes = true.
Proof. vm_compute. reflexivity. Qed.

(** The line saved for a time of day parses, in the bare form, as that
    time. *)
Lemma saved_line_parses (h m : Z) (sd : SD) :
  0 <= h < 24 -> 0 <= m < 60 ->
  parseLine (readStringUntil "010" (hhmm h m ++ crlf)) sd
  = (mkDateTime 2000 1 1 h m 0, sd).
Proof.
  intros Hh Hm.
  pose proof (proj1 (forallb_forall _ _) readsBack_all (h, m)
                (allTimes_complete h m Hh Hm)) as H.
  unfold readsBack in H. cbn [fst snd] in H.
  apply andb_true_iff in H. destruct H as [Hfull Hbare].
  apply negb_true_iff in Hfull.
  destruct (Scan.sscanf Scan.fmt_time
              (readStringUntil "010" (hhmm h m ++ crlf)))
    as [| h' [| m' [| x r]]] eqn:E; try discriminate.
  apply andb_true_iff in Hbare. destruct Hbare as [E1 E2].
  apply Z.eqb_eq in E1, E2. subst h' m'.
  apply parseLine_bare; auto.
  unfold valid_hm.
  repeat (apply andb_true_iff; split); try apply Z.leb_le; try apply Z.ltb_lt; lia.
Qed.

Lemma printed_line_parses (h m : Z) (sd : SD) :
  0 <= h < 24 -> 0 <= m < 60 ->
  parseLine (readStringUntil "010" (hhmm h m)) sd
  = (mkDateTime 2000 1 1 h m 0, sd).
Proof.
  intros Hh Hm.
  pose proof (proj1 (forallb_forall _ _) readsBackBare_all (h, m)
                (allTimes_complete h m Hh Hm)) as H.
  unfold readsBackBare in H. cbn [fst snd] in H.
  apply andb_true_iff in H. destruct H as [Hfull Hbare].
  apply negb_true_iff in Hfull.
  destruct (Scan.sscanf Scan.fmt_time (readStringUntil "010" (hhmm h m)))
    as [| h' [| m' [| x r]]] eqn:E; try discriminate.
  apply andb_true_iff in Hbare. destruct Hbare as [E1 E2].
  apply Z.eqb_eq in E1, E2. subst h' m'.
  apply parseLine_bare; auto.
  unfold valid_hm.
  repeat (apply andb_true_iff; split); try apply Z.leb_le; try apply Z.ltb_lt; lia.
Qed.

(** X1.  On a card that can be written and read, the time of day saved by
    saveClockTime is the one loadLastKnownClockTime returns, with the
    date 2000-01-01 and zero seconds, and loading does not touch the
    file. *)
Theorem save_then_load_round_trip (dt : DateTime) (lt : option (Z * Z)) (sd : SD) :
  writable sd = true -> readable sd = true -> time_of_day_ok dt ->
  fst (saveClockTime dt sd) = true
  /\ loadLastKnownClockTime lt (snd (saveClockTime dt sd))
     = (mkDateTime 2000 1 1 (hour dt) (minute dt) 0,
        snd (saveClockTime dt sd)).
Proof.
  intros Hw Hr [Hh Hm]. unfold saveClockTime. rewrite Hw. split; [reflexivity |].
  unfold loadLastKnownClockTime, overwrite, formatDateTime.
  cbn [snd file readable]. rewrite Hr.
  now apply saved_line_parses.
Qed.

Lemma save_then_load_round_trip_witness :
  loadLastKnownClockTime None
    (snd (saveClockTime (mkDateTime 2024 6 1 23 59 30) sdEmpty))
  = (mkDateTime 2000 1 1 23 59 0,
     snd (saveClockTime (mkDateTime 2024 6 1 23 59 30) sdEmpty)).
Proof.
  apply (save_then_load_round_trip (mkDateTime 2024 6 1 23 59 30) None sdEmpty);
    vm_compute; intuition discriminate.
Defined.

Lemma valid_hm_bounds (h m : Z) :
  valid_hm h m = true -> 0 <= h < 24 /\ 0 <= m < 60.
Proof.
  unfold valid_hm. intros H.
  repeat (apply andb_true_iff in H; destruct H as [H ?]).
  repeat match goal with
         | X : (_ <=? _) = true |- _ => apply Z.leb_le in X
         | X : (_ <? _) = true |- _ => apply Z.ltb_lt in X
         end.
  lia.
Qed.

(** What parseLine returns, case by case. *)
Lemma parseLine_cases (line : string) (sd : SD) :
  (exists h m, valid_hm h m = true
               /\ parseLine line sd = (mkDateTime 2000 1 1 h m 0, sd))
  \/ (unparsable line = true
      /\ parseLine line sd = (midnight, try_write "00:00" sd)).
Proof.
  unfold unparsable, fullForm, bareForm, parseLine.
  rewrite count_is_5, count_is_2.
  destruct (Scan.sscanf Scan.fmt_date_time line)
    as [| a [| b [| c [| h [| m [| x r1]]]]]];
    destruct (Scan.sscanf Scan.fmt_time line)
      as [| h2 [| m2 [| y r2]]];
    cbn [Scan.assign nth andb negb];
    try (right; split; reflexivity);
    try (destruct (valid_hm h m) eqn:V1; cbn [andb negb];
         [left; exists h, m; split; [exact V1 | reflexivity] |]);
    try (destruct (valid_hm h2 m2) eqn:V2; cbn [andb negb];
         [left; exists h2, m2; split; [exact V2 | reflexivity] |]);
    try (right; split; reflexivity).
Qed.

Lemma load_time_fields (lt : option (Z * Z)) (sd : SD) :
  match lt with
  | Some (h, m) => 0 <= h < 24 /\ 0 <= m < 60
  | None => True
  end ->
  time_of_day_ok (fst (loadLastKnownClockTime lt sd))
  /\ year (fst (loadLastKnownClockTime lt sd)) = 2000
  /\ month (fst (loadLastKnownClockTime lt sd)) = 1
  /\ day (fst (loadLastKnownClockTime lt sd)) = 1
  /\ second (fst (loadLastKnownClockTime lt sd)) = 0.
Proof.
  intros Hlt. unfold loadLastKnownClockTime.
  destruct (file sd) as [text |].
  - destruct (readable sd).
    + destruct (parseLine_cases (readStringUntil "010" text) sd)
        as [(h & m & V & ->) | (_ & ->)]; cbn.
      * apply valid_hm_bounds in V. unfold time_of_day_ok; cbn. intuition lia.
      * unfold time_of_day_ok; cbn. intuition lia.
    + unfold time_of_day_ok; cbn. intuition lia.
  - destruct lt as [[h m] |]; unfold time_of_day_ok; cbn; intuition lia.
Qed.

(** X2.  Whatever the state file holds, loadLastKnownClockTime returns a
    time of day in range (hour 0..23, minute 0..59) on 2000-01-01 with
    zero seconds, provided localtime(), used when the file is missing,
    is in range itself. *)
Theorem load_returns_time_of_day (lt : option (Z * Z)) (sd : SD) :
  match lt with
  | Some (h, m) => 0 <= h < 24 /\ 0 <= m < 60
  | None => True
  end ->
  time_of_day_ok (fst (loadLastKnownClockTime lt sd))
  /\ year (fst (loadLastKnownClockTime lt sd)) = 2000
  /\ month (fst (loadLastKnownClockTime lt sd)) = 1
  /\ day (fst (loadLastKnownClockTime lt sd)) = 1
  /\ second (fst (loadLastKnownClockTime lt sd)) = 0.
Proof. exact (load_time_fields lt sd). Qed.

Lemma load_returns_time_of_day_witness :
  time_of_day_ok (fst (loadLastKnownClockTime (Some (12, 34)) (sdWith "25:61"))).
Proof.
  apply (load_returns_time_of_day (Some (12, 34)) (sdWith "25:61")). lia.
Defined.

(** X3.  Loading is read-only when it succeeds: with the file present,
    readable and its first line in one of the two accepted forms, the card
    is left exactly as it was; the only writes of load are the reset to
    00:00 and the creation of a missing file. *)
Theorem load_writes_only_on_failure (lt : option (Z * Z)) (sd : SD) :
  (forall text,
      file sd = Some text -> readable sd = true ->
      unparsable (readStringUntil "010" text) = false ->
      snd (loadLastKnownClockTime lt sd) = sd)
  /\ (snd (loadLastKnownClockTime lt sd) = sd
      \/ snd (loadLastKnownClockTime lt sd) = try_write "00:00" sd
      \/ (file sd = None
          /\ exists h m, snd (loadLastKnownClockTime lt sd)
                         = try_write (hhmm h m) sd)).
Proof.
  split.
  - intros text Hf Hr Hp. unfold loadLastKnownClockTime. rewrite Hf, Hr.
    destruct (parseLine_cases (readStringUntil "010" text) sd)
      as [(h & m & _ & ->) | (Hu & _)]; [reflexivity | congruence].
  - unfold loadLastKnownClockTime.
    destruct (file sd) as [text |].
    + destruct (readable sd).
      * destruct (parseLine_cases (readStringUntil "010" text) sd)
          as [(h & m & _ & ->) | (_ & ->)]; auto.
      * auto.
    + right. right. split; [reflexivity |].
      destruct lt as [[h m] |]; [exists h, m | exists 0, 0]; reflexivity.
Qed.

Lemma load_writes_only_on_failure_witness :
  snd (loadLastKnownClockTime None (sdWith "2024-01-05 07:08"))
  = sdWith "2024-01-05 07:08".
Proof.
  destruct (load_writes_only_on_failure None (sdWith "2024-01-05 07:08"))
    as [H _].
  apply (H "2024-01-05 07:08"%string); reflexivity.
Defined.

End StoreMore.

(** ** PulseManager: the bridge under any use of the class *)

Section BridgeSafety.

Import PulseManager.

Lemma released_app (g h : list Drive) :
  released g = true -> released h = true -> released (g ++ h) = true.
Proof.
  induction g as [| d g IH]; intros Hg Hh; [exact Hh |].
  cbn [released app] in *. apply andb_true_iff in Hg. destruct Hg as [H1 H2].
  apply andb_true_iff. split; [| now apply IH].
  destruct (energised d); [| reflexivity].
  destruct g as [| c g]; [discriminate | exact H1].
Qed.

Lemma released_last (g : list Drive) :
  released g = true -> energised (last g idle_step) = false.
Proof.
  induction g as [| d g IH]; intros Hg; [reflexivity |].
  cbn [released] in Hg. apply andb_true_iff in Hg. destruct Hg as [H1 H2].
  destruct g as [| c g].
  - cbn. destruct (energised d); [discriminate | reflexivity].
  - change (last (d :: c :: g) idle_step) with (last (c :: g) idle_step).
    now apply IH.
Qed.

Lemma sound_app (g h : list Drive) :
  sound g = true -> sound h = true -> sound (g ++ h) = true.
Proof.
  unfold sound. intros Hg Hh.
  apply andb_true_iff in Hg, Hh. destruct Hg as [G1 G2], Hh as [H1 H2].
  apply andb_true_iff. split.
  - rewrite forallb_app, G1, H1. reflexivity.
  - now apply released_app.
Qed.

Lemma exec_sound (o : Op) (p : t) :
  sound (gpio p) = true -> sound (gpio (exec o p)) = true.
Proof.
  intros H. destruct o as [| d z | ms | c | |]; cbn [exec].
  - unfold begin; cbn [gpio]. now apply sound_app.
  - exact H.
  - exact H.
  - unfold triggerPulse.
    destruct (negb (burst c) && _); cbn [snd]; [exact H |].
    destruct (lastWasA p); cbn [flip gpio pulseA pulseB drive];
      now apply sound_app.
  - unfold forceA, pulseA, drive; cbn [gpio]. now apply sound_app.
  - unfold forceB, pulseB, drive; cbn [gpio]. now apply sound_app.
Qed.

Lemma execAll_sound (os : list Op) (p : t) :
  sound (gpio p) = true -> sound (gpio (execAll os p)) = true.
Proof.
  revert p. induction os as [| o os IH]; intros p H; [exact H |].
  cbn [execAll]. apply IH. now apply exec_sound.
Qed.

(** X4.  Whatever series of public operations (begin, the two setters,
    triggerPulse in either mode, forceA, forceB) is applied to a freshly
    constructed PulseManager, the two bridge inputs are never HIGH
    together, every step that energises the coil is directly followed by
    a step with both inputs LOW, and the bridge is left with both inputs
    LOW. *)
Theorem bridge_never_shorted_and_always_released (os : list Op) :
  forallb (fun d => negb (shorted d)) (gpio (execAll os init)) = true
  /\ released (gpio (execAll os init)) = true
  /\ energised (last (gpio (execAll os init)) idle_step) = false.
Proof.
  pose proof (execAll_sound os init eq_refl) as H.
  unfold sound in H. apply andb_true_iff in H. destruct H as [H1 H2].
  split; [exact H1 |]. split; [exact H2 |]. now apply released_last.
Qed.

(** Whether a call is accepted depends on the guard fields only. *)
Lemma triggerPulse_flag (now done : Z) (b : bool) (p : t) :
  fst (triggerPulse now done b p)
  = negb (negb b && (u32 (now - lastTrigMs p) <? requiredGap p)).
Proof.
  unfold triggerPulse.
  now destruct (negb b && (u32 (now - lastTrigMs p) <? requiredGap p)).
Qed.

(** X5.  The diagnostic pulses forceA and forceB drive the coil whatever
    the guard says and leave the stored polarity and the last-pulse
    timestamp alone: the next triggerPulse is accepted or refused, and
    picks its polarity, exactly as if the diagnostic pulse had not
    happened.  So a forced pulse can repeat the polarity just emitted. *)
Theorem force_bypasses_guard_and_alternation (p : t) (now done : Z) (b : bool) :
  emitted (forceA p) = emitted p ++ [A]
  /\ emitted (forceB p) = emitted p ++ [B]
  /\ fst (triggerPulse now done b (forceA p)) = fst (triggerPulse now done b p)
  /\ fst (triggerPulse now done b (forceB p)) = fst (triggerPulse now done b p)
  /\ next (forceA p) = next p
  /\ next (forceB p) = next p
  /\ lastTrigMs (forceA p) = lastTrigMs p
  /\ lastTrigMs (forceB p) = lastTrigMs p.
Proof.
  split; [apply emitted_pulseA |]. split; [apply emitted_pulseB |].
  rewrite !triggerPulse_flag. repeat split; reflexivity.
Qed.

Example forced_pulse_repeats_polarity :
  emitted (execAll [OpBegin; OpTriggerPulse (mkCall 1000 1400 false); OpForceA]
             init) = [A; A].
Proof. reflexivity. Qed.

End BridgeSafety.

(** ** SystemManager: invariants of the engine *)

Section EngineInvariants.

Import SystemManager.

Implicit Types (s : t) (k : Clock) (r : CatchUpReading) (e : LoopReading).

Lemma now_ok (c : Config) k : clockOk k -> time_of_day_ok (now c k).
Proof. intros [H1 H2]. unfold now. now destruct (isAuto c). Qed.

Lemma now_minute_range (c : Config) k :
  clockOk k -> 0 <= minutesOfDay (now c k) < 1440.
Proof.
  intros H. pose proof (minutesOfDay_range _ (now_ok c k H)). lia.
Qed.

(** A call of tickCatchUp does one of three things. *)
Lemma tickCatchUp_cases r s :
  tickCatchUp r s = s
  \/ (catchupActive s = true /\ 1 < catchupRemaining s
      /\ catchupActive (tickCatchUp r s) = true
      /\ catchupRemaining (tickCatchUp r s) = catchupRemaining s - 1
      /\ lastImpulseMinutes (tickCatchUp r s)
         = Z.rem (lastImpulseMinutes s + 1) 1440
      /\ pulseCount (tickCatchUp r s) = pulseCount s + 1
      /\ config (tickCatchUp r s) = config s)
  \/ (catchupActive s = true /\ catchupRemaining s <= 1
      /\ catchupActive (tickCatchUp r s) = false
      /\ lastImpulseMinutes (tickCatchUp r s)
         = minutesOfDay (now (config s) (cu_clock r))
      /\ pulseCount (tickCatchUp r s) = pulseCount s + 1
      /\ config (tickCatchUp r s) = config s).
Proof.
  destruct (catchupActive s) eqn:Ha.
  - destruct (due r s) eqn:Hd.
    + destruct (Z_lt_le_dec 1 (catchupRemaining s)) as [Hr | Hr].
      * right. left.
        destruct (tickCatchUp_steps r s Ha Hd Hr)
          as (H1 & H2 & H3 & _ & H5 & _ & _ & H8).
        repeat split; auto.
      * right. right.
        destruct (tickCatchUp_finishes r s Ha Hd Hr)
          as (H1 & _ & H3 & _ & H5 & H6).
        repeat split; auto.
    + left. now apply tickCatchUp_waits.
  - left. now apply tickCatchUp_idle.
Qed.

Lemma checkMinuteChange_config k (a b : Z) s :
  config (checkMinuteChange k a b s) = config s.
Proof.
  unfold checkMinuteChange. repeat break_if; try reflexivity.
  all: destruct (PulseManager.triggerPulse a b false (pulseManager s));
    repeat break_if; reflexivity.
Qed.

Lemma checkMinuteChange_ok k (a b : Z) s :
  clockOk k -> engineOk s -> engineOk (checkMinuteChange k a b s).
Proof.
  intros Hk [Hl Hs]. destruct (catchupActive s) eqn:Ha.
  - rewrite checkMinuteChange_active by exact Ha. split; auto.
  - destruct (checkMinuteChange_idle k a b s Ha) as (H1 & _ & [H | H]).
    + split; [| rewrite H1; discriminate].
      destruct H as (_ & -> & _). exact Hl.
    + split; [| rewrite H1; discriminate].
      destruct H as (_ & -> & _). now apply now_minute_range.
Qed.

Lemma tickCatchUp_ok r s :
  clockOk (cu_clock r) -> engineOk s -> engineOk (tickCatchUp r s).
Proof.
  intros Hk [Hl Hs].
  destruct (tickCatchUp_cases r s)
    as [-> | [(Ha & Hr & H1 & H2 & H3 & _) | (Ha & Hr & H1 & H3 & _)]].
  - split; auto.
  - split.
    + rewrite H3. apply rem_step. exact Hl.
    + intros _. rewrite H2. specialize (Hs Ha). lia.
  - split.
    + rewrite H3. now apply now_minute_range.
    + rewrite H1. discriminate.
Qed.

(** What the gate does, case by case. *)
Lemma tryStartCatchUp_cases (reason : string) k s :
  (catchupActive (tryStartCatchUp reason k s) = catchupActive s
   /\ catchupRemaining (tryStartCatchUp reason k s) = catchupRemaining s
   /\ catchupIntervalMs (tryStartCatchUp reason k s) = catchupIntervalMs s
   /\ catchupLastPulseMs (tryStartCatchUp reason k s) = catchupLastPulseMs s)
  \/ (catchupActive s = false
      /\ tryStartCatchUp reason k s
         = startCatchUp
             (diffForwardMinutes (lastImpulseMinutes s)
                (minutesOfDay (now (config s) k))) reason s
      /\ 1 <= diffForwardMinutes (lastImpulseMinutes s)
                (minutesOfDay (now (config s) k))
           <= maxCatchupMinutes (config s)).
Proof.
  unfold tryStartCatchUp.
  pose proof (diffForwardMinutes_range (lastImpulseMinutes s)
                (minutesOfDay (now (config s) k))) as Hr.
  destruct (catchupActive s) eqn:Ha; [left; auto |].
  destruct (Z.eqb_spec (diffForwardMinutes (lastImpulseMinutes s)
                          (minutesOfDay (now (config s) k))) 0) as [E | E].
  - left. cbn. auto.
  - destruct (Z.ltb_spec (maxCatchupMinutes (config s))
                (diffForwardMinutes (lastImpulseMinutes s)
                   (minutesOfDay (now (config s) k)))) as [L | L].
    + left. cbn. auto.
    + right. repeat split; auto; lia.
Qed.

Lemma tryStartCatchUp_ok (reason : string) k s :
  engineOk s -> engineOk (tryStartCatchUp reason k s).
Proof.
  intros [Hl Hs].
  destruct (tryStartCatchUp_frame reason k s) as (_ & _ & Hlast & _).
  split; [now rewrite Hlast |].
  destruct (tryStartCatchUp_cases reason k s)
    as [(H1 & H2 & _) | (Ha & -> & Hd)].
  - rewrite H1, H2. exact Hs.
  - intros _. cbn.
    pose proof (diffForwardMinutes_range (lastImpulseMinutes s)
                  (minutesOfDay (now (config s) k))). lia.
Qed.

Lemma log_ok (l : LogLevel) (m : LogMsg) s : engineOk s -> engineOk (log l m s).
Proof. intros H; exact H. Qed.

Lemma resync_ok (rr : ResyncReading) s :
  time_of_day_ok (rs_after rr) -> engineOk s -> engineOk (resync rr s).
Proof.
  intros Hk Hs. unfold resync. repeat break_if.
  - exact Hs.
  - destruct Hs as [Hl Ha]. split; [| exact Ha].
    cbn. pose proof (minutesOfDay_range _ Hk). lia.
  - apply tryStartCatchUp_ok. exact Hs.
  - exact Hs.
Qed.

Lemma loop_ok e s : loopReadingOk e -> engineOk s -> engineOk (loop e s).
Proof.
  intros (H1 & H2 & H3 & H4) Hs.
  assert (Ht : engineOk (tickCatchUp (lp_catchup e)
                           (checkMinuteChange (lp_clock e) (lp_trigNow e)
                              (lp_trigDone e) s)))
    by (apply tickCatchUp_ok; [exact H2 | now apply checkMinuteChange_ok]).
  unfold loop. repeat break_if; try exact Ht.
  apply resync_ok; [exact H3 | exact Ht].
Qed.

(** X6.  The engine's invariant: the physical minute is a minute of the
    day (0..1439) and an active session owes between 1 and 1439 pulses.
    Every iteration of loop keeps it, for any millis() values and any
    resync outcome, as long as the clocks read times of day in range. *)
Theorem loop_keeps_engine_invariant (es : list LoopReading) s :
  Forall loopReadingOk es -> engineOk s -> engineOk (loopAll es s).
Proof.
  revert s. induction es as [| e es IH]; intros s Hes Hs; [exact Hs |].
  inversion Hes as [| ? ? He Hes']; subst.
  cbn [loopAll]. apply IH; [exact Hes' |]. now apply loop_ok.
Qed.

End EngineInvariants.

Section EngineInvariantsWitness.

Import SystemManager.

Lemma loop_keeps_engine_invariant_witness :
  engineOk (loopAll [loopAt 1000 0 5; loopAt 61000 0 6] (engineAt cfgAuto 0)).
Proof.
  apply (loop_keeps_engine_invariant
           [loopAt 1000 0 5; loopAt 61000 0 6] (engineAt cfgAuto 0)).
  - repeat constructor; vm_compute; intuition discriminate.
  - split; [vm_compute; intuition discriminate | discriminate].
Defined.

End EngineInvariantsWitness.

(** ** SystemManager: pulses per iteration, per session and at boot *)

Section EnginePulses.

Import SystemManager.

Implicit Types (s : t) (k : Clock) (r : CatchUpReading) (e : LoopReading).

Lemma tickCatchUp_count r s :
  pulseCount (tickCatchUp r s) = pulseCount s
  \/ pulseCount (tickCatchUp r s) = pulseCount s + 1.
Proof.
  destruct (tickCatchUp_cases r s)
    as [-> | [(_ & _ & _ & _ & _ & H & _) | (_ & _ & _ & _ & H & _)]]; auto.
Qed.

(** X7.  One iteration of loop drives the coil at most once: the minute
    tick and the catch-up engine never both pulse in the same iteration,
    and the resync part never pulses. *)
Theorem loop_pulses_at_most_once e s :
  pulseCount s <= pulseCount (loop e s) <= pulseCount s + 1.
Proof.
  assert (Hl : pulseCount (loop e s)
               = pulseCount (tickCatchUp (lp_catchup e)
                               (checkMinuteChange (lp_clock e) (lp_trigNow e)
                                  (lp_trigDone e) s))).
  { unfold loop. repeat break_if; try reflexivity.
    unfold pulseCount. now rewrite resync_pulseManager. }
  rewrite Hl. clear Hl.
  destruct (catchupActive s) eqn:Ha.
  - rewrite checkMinuteChange_active by exact Ha.
    destruct (tickCatchUp_count (lp_catchup e) s) as [-> | ->]; lia.
  - destruct (checkMinuteChange_idle (lp_clock e) (lp_trigNow e)
                (lp_trigDone e) s Ha) as (H1 & _ & H).
    rewrite tickCatchUp_idle by exact H1.
    destruct H as [(-> & _) | (-> & _)]; lia.
Qed.

(** The pulses a series of tickCatchUp calls can add are bounded by what
    the session owes. *)
Lemma catchUpRun_bounded (rs : list CatchUpReading) s :
  pulseCount s <= pulseCount (catchUpRun rs s) <= pulseCount s + owed s.
Proof.
  revert s. induction rs as [| r rs IH]; intros s.
  - cbn. unfold owed. destruct (catchupActive s); lia.
  - cbn [catchUpRun]. specialize (IH (tickCatchUp r s)).
    destruct (tickCatchUp_cases r s)
      as [E | [(Ha & Hr & H1 & H2 & _ & H3 & _) | (Ha & Hr & H1 & _ & H3 & _)]].
    + rewrite E in *. exact IH.
    + unfold owed in *. rewrite Ha. rewrite H1, H2, H3 in IH. lia.
    + unfold owed in *. rewrite Ha. rewrite H1, H3 in IH. lia.
Qed.

(** A request at the gate that is refused or finds nothing to do leaves
    the idle engine idle, with one more log line. *)
Lemma tryStartCatchUp_declined (reason : string) k s :
  catchupActive s = false ->
  diffForwardMinutes (lastImpulseMinutes s)
    (minutesOfDay (now (config s) k)) = 0
  \/ maxCatchupMinutes (config s)
     < diffForwardMinutes (lastImpulseMinutes s)
         (minutesOfDay (now (config s) k)) ->
  catchupActive (tryStartCatchUp reason k s) = false
  /\ (tryStartCatchUp reason k s = info MsgUpToDate s
      \/ tryStartCatchUp reason k s
         = error (MsgCatchupExceeds
                    (diffForwardMinutes (lastImpulseMinutes s)
                       (minutesOfDay (now (config s) k)))) s).
Proof.
  intros Ha H. unfold tryStartCatchUp. rewrite Ha.
  destruct (Z.eqb_spec (diffForwardMinutes (lastImpulseMinutes s)
                          (minutesOfDay (now (config s) k))) 0) as [E | E].
  - split; [exact Ha | now left].
  - destruct (Z.ltb_spec (maxCatchupMinutes (config s))
                (diffForwardMinutes (lastImpulseMinutes s)
                   (minutesOfDay (now (config s) k)))) as [L | L].
    + split; [exact Ha | now right].
    + lia.
Qed.

(** X8.  The cap bounds the burst.  From an idle engine, whatever the
    clock reads at the request, a session started by the gate
    tryStartCatchUp emits at most maxCatchupMinutes pulses over any
    series of tickCatchUp calls: at most the forward difference when the
    request is granted, and none at all when the request is refused
    (difference over the cap) or finds nothing to do (difference 0); in
    these two cases the calls that follow change nothing, so the engine
    stays idle with its physical minute and its state file as they
    were. *)
Theorem gate_session_bounded_by_cap (reason : string) k
  (rs : list CatchUpReading) s :
  catchupActive s = false ->
  pulseCount s
  <= pulseCount (catchUpRun rs (tryStartCatchUp reason k s))
  <= pulseCount s + Z.max 0 (maxCatchupMinutes (config s))
  /\ (0 < diffForwardMinutes (lastImpulseMinutes s)
            (minutesOfDay (now (config s) k))
        <= maxCatchupMinutes (config s) ->
      catchupRemaining (tryStartCatchUp reason k s)
      = diffForwardMinutes (lastImpulseMinutes s)
          (minutesOfDay (now (config s) k))
      /\ pulseCount (catchUpRun rs (tryStartCatchUp reason k s))
         <= pulseCount s
            + diffForwardMinutes (lastImpulseMinutes s)
                (minutesOfDay (now (config s) k)))
  /\ (diffForwardMinutes (lastImpulseMinutes s)
        (minutesOfDay (now (config s) k)) = 0
      \/ maxCatchupMinutes (config s)
         < diffForwardMinutes (lastImpulseMinutes s)
             (minutesOfDay (now (config s) k)) ->
      catchUpRun rs (tryStartCatchUp reason k s) = tryStartCatchUp reason k s
      /\ pulseCount (catchUpRun rs (tryStartCatchUp reason k s)) = pulseCount s
      /\ catchupActive (catchUpRun rs (tryStartCatchUp reason k s)) = false
      /\ lastImpulseMinutes (catchUpRun rs (tryStartCatchUp reason k s))
         = lastImpulseMinutes s
      /\ stateManager (catchUpRun rs (tryStartCatchUp reason k s))
         = stateManager s).
Proof.
  intros Ha.
  pose proof (catchUpRun_bounded rs (tryStartCatchUp reason k s)) as Hb.
  assert (Hp : pulseCount (tryStartCatchUp reason k s) = pulseCount s).
  { unfold pulseCount.
    now destruct (tryStartCatchUp_frame reason k s) as (-> & _). }
  rewrite Hp in Hb.
  split; [| split].
  - destruct (tryStartCatchUp_cases reason k s)
      as [(H1 & _) | (_ & E & Hd)].
    + unfold owed in Hb. rewrite H1, Ha in Hb. lia.
    + assert (Ho : owed (tryStartCatchUp reason k s)
                   = Z.max 1 (diffForwardMinutes (lastImpulseMinutes s)
                                (minutesOfDay (now (config s) k))))
        by (rewrite E; reflexivity).
      rewrite Ho in Hb. lia.
  - intros Hd.
    assert (E : tryStartCatchUp reason k s
                = startCatchUp
                    (diffForwardMinutes (lastImpulseMinutes s)
                       (minutesOfDay (now (config s) k))) reason s).
    { unfold tryStartCatchUp. rewrite Ha.
      destruct (Z.eqb_spec (diffForwardMinutes (lastImpulseMinutes s)
                              (minutesOfDay (now (config s) k))) 0); [lia |].
      destruct (Z.ltb_spec (maxCatchupMinutes (config s))
                  (diffForwardMinutes (lastImpulseMinutes s)
                     (minutesOfDay (now (config s) k)))); [lia | reflexivity]. }
    assert (Ho : owed (tryStartCatchUp reason k s)
                 = Z.max 1 (diffForwardMinutes (lastImpulseMinutes s)
                              (minutesOfDay (now (config s) k))))
      by (rewrite E; reflexivity).
    rewrite Ho in Hb. split; [rewrite E; reflexivity | lia].
  - intros Hd.
    destruct (tryStartCatchUp_declined reason k s Ha Hd) as (Hi & _).
    rewrite (catchUpRun_idle rs _ Hi).
    destruct (tryStartCatchUp_frame reason k s) as (_ & Hs & Hl & _).
    repeat split; auto.
Qed.

Lemma gate_session_bounded_by_cap_witness :
  pulseCount (catchUpRun threeTicks
                (tryStartCatchUp "boot" (clockAt 0 3) (engineAt cfgAuto 0)))
  <= pulseCount (engineAt cfgAuto 0) + 3
  /\ pulseCount (catchUpRun threeTicks
                   (tryStartCatchUp "boot" (clockAt 4 0) (engineAt cfgAuto 0)))
     = pulseCount (engineAt cfgAuto 0)
  /\ pulseCount (catchUpRun threeTicks
                   (tryStartCatchUp "boot" (clockAt 0 0) (engineAt cfgAuto 0)))
     = pulseCount (engineAt cfgAuto 0).
Proof.
  destruct (gate_session_bounded_by_cap "boot" (clockAt 0 3) threeTicks
              (engineAt cfgAuto 0) eq_refl) as (_ & Hin & _).
  destruct (gate_session_bounded_by_cap "boot" (clockAt 4 0) threeTicks
              (engineAt cfgAuto 0) eq_refl) as (_ & _ & Hover).
  destruct (gate_session_bounded_by_cap "boot" (clockAt 0 0) threeTicks
              (engineAt cfgAuto 0) eq_refl) as (_ & _ & Hzero).
  split; [| split].
  - apply Hin. vm_compute. intuition discriminate.
  - apply Hover. right. vm_compute. reflexivity.
  - apply Hzero. left. reflexivity.
Defined.

(** X9.  Once the minute tick has emitted its pulse, further ticks that
    read the same minute change nothing, whatever millis() says: one
    pulse per minute change. *)
Theorem tick_is_idempotent_after_a_pulse k (a b a' b' : Z) s :
  pulseCount (checkMinuteChange k a b s) = pulseCount s + 1 ->
  checkMinuteChange k a' b' (checkMinuteChange k a b s)
  = checkMinuteChange k a b s.
Proof.
  intros Hp. destruct (catchupActive s) eqn:Ha.
  - rewrite checkMinuteChange_active in Hp by exact Ha. lia.
  - destruct (checkMinuteChange_idle k a b s Ha) as (H1 & _ & [H | H]).
    + destruct H as (H & _). lia.
    + destruct H as (_ & Hl & _).
      pose proof (checkMinuteChange_config k a b s) as Hc.
      unfold checkMinuteChange at 1.
      rewrite H1, Hc, Hl, Z.eqb_refl. reflexivity.
Qed.

Lemma tick_is_idempotent_after_a_pulse_witness :
  checkMinuteChange (clockAt 0 1) 2000 2650
    (checkMinuteChange (clockAt 0 1) 1000 1650 (engineAt cfgAuto 0))
  = checkMinuteChange (clockAt 0 1) 1000 1650 (engineAt cfgAuto 0).
Proof.
  apply (tick_is_idempotent_after_a_pulse (clockAt 0 1) 1000 1650 2000 2650
           (engineAt cfgAuto 0)).
  reflexivity.
Defined.

End EnginePulses.

(** ** SystemManager: boot *)

Section EngineBoot.

Import SystemManager.

Implicit Types (s : t) (k : Clock) (b : BootReading).

(** Boot, up to the catch-up request it ends with: the state the request
    is made in. *)
Lemma begin_shape b s :
  exists s8,
    begin b s
    = info MsgReady
        (set_lastNtpSyncMs (bt_millis b)
           (tryStartCatchUp "boot" (bt_catchup b) s8))
    /\ config s8 = config s
    /\ catchupActive s8 = catchupActive s
    /\ catchupRemaining s8 = catchupRemaining s
    /\ PulseManager.emitted (pulseManager s8)
       = PulseManager.emitted (pulseManager s)
    /\ PulseManager.durationMs (pulseManager s8) = impulseDelayMs (config s)
    /\ PulseManager.pauseMs (pulseManager s8) = 150
    /\ PulseManager.minGapMs (pulseManager s8)
       = (if u32 (u32 (impulseDelayMs (config s)) + 150 + 50) <? 600
          then 600 else u32 (u32 (impulseDelayMs (config s)) + 150 + 50))
    /\ lastImpulseMinutes s8
       = (if dstGuard (isdstChanged (bt_isdstBefore b) (bt_isdstAfter b))
               (absDelta (bt_sysBefore b) (bt_sysAfter b))
          then minutesOfDay (bootNow (config s) b)
          else minutesOfDay
                 (fst (StateManager.loadLastKnownClockTime (bt_localtime b)
                         (stateManager s)))).
Proof.
  unfold begin, doCatchUpIfNeeded.
  destruct (bt_rtcInitOk b) eqn:Hrtc;
    destruct (u32 (resyncRtcIfDiffSeconds (config s))
              <=? absDelta (bt_sysBefore b) (bt_sysAfter b)) eqn:Hcorr;
    cbn [stateManager info error log];
    destruct (StateManager.loadLastKnownClockTime (bt_localtime b) (stateManager s))
      as [stateDt sd] eqn:El;
    destruct (dstGuard (isdstChanged (bt_isdstBefore b) (bt_isdstAfter b))
                (absDelta (bt_sysBefore b) (bt_sysAfter b))) eqn:Hg;
    eexists; (split; [reflexivity |]); cbn; repeat split; reflexivity.
Qed.


Lemma bootNow_ok (c : Config) b : clockOk (bt_clock b) -> time_of_day_ok (bootNow c b).
Proof.
  intros [H1 H2]. unfold bootNow.
  destruct (isAuto c); [exact H1 |]. now destruct (bt_rtcInitOk b).
Qed.

(** X10.  Boot never drives the coil, and it leaves the engine in its
    invariant: from a freshly constructed engine, with clocks that read
    times of day in range, begin emits no pulse, the physical minute is a
    minute of the day whatever the state file held (missing, unreadable
    or garbage included), and a session, if one is started, owes between
    1 and 1439 pulses. *)
Theorem begin_never_pulses_and_establishes_invariant b s :
  bootReadingOk b -> catchupActive s = false ->
  pulseCount (begin b s) = pulseCount s /\ engineOk (begin b s).
Proof.
  intros (Hk & Hc & Hlt) Ha.
  destruct (begin_shape b s)
    as (s8 & -> & Hcfg & Hact & Hrem & Hem & _ & _ & _ & Hlast).
  split.
  - unfold pulseCount. cbn [info log set_lastNtpSyncMs pulseManager].
    destruct (tryStartCatchUp_frame "boot" (bt_catchup b) s8) as (-> & _).
    now rewrite Hem.
  - assert (H8 : engineOk s8).
    { split.
      - rewrite Hlast. break_if.
        + pose proof (minutesOfDay_range _ (bootNow_ok (config s) b Hk)). lia.
        + destruct (load_time_fields (bt_localtime b) (stateManager s) Hlt)
            as (Hok & _).
          pose proof (minutesOfDay_range _ Hok). lia.
      - rewrite Hact, Ha. discriminate. }
    exact (tryStartCatchUp_ok "boot" (bt_catchup b) s8 H8).
Qed.

Lemma begin_never_pulses_and_establishes_invariant_witness :
  pulseCount (begin bootAt0007 (engineWithFile "garbage"))
  = pulseCount (engineWithFile "garbage")
  /\ engineOk (begin bootAt0007 (engineWithFile "garbage")).
Proof.
  apply (begin_never_pulses_and_establishes_invariant bootAt0007
           (engineWithFile "garbage")).
  - unfold bootReadingOk, clockOk, time_of_day_ok.
    vm_compute. intuition discriminate.
  - reflexivity.
Defined.

(** X11.  The timing begin gives the pulser and the catch-up engine fit
    together.  For an impulse delay d >= 0 (with d + 200 below 2^32) the
    pulser drives for d ms and coasts for 150 ms, its required gap is
    max(600, d + 200), and every session started afterwards spaces its
    pulses by d + 200 ms: the full pulse cycle plus 50 ms, never more
    than the required gap of the guarded tick. *)
Theorem begin_sets_consistent_timing b s (diff : Z) (reason : string) :
  0 <= impulseDelayMs (config s) -> impulseDelayMs (config s) + 200 < 2 ^ 32 ->
  PulseManager.durationMs (pulseManager (begin b s)) = impulseDelayMs (config s)
  /\ PulseManager.pauseMs (pulseManager (begin b s)) = 150
  /\ PulseManager.requiredGap (pulseManager (begin b s))
     = Z.max 600 (impulseDelayMs (config s) + 200)
  /\ catchupIntervalMs (startCatchUp diff reason (begin b s))
     = PulseManager.durationMs (pulseManager (begin b s))
       + PulseManager.pauseMs (pulseManager (begin b s)) + 50
  /\ catchupIntervalMs (startCatchUp diff reason (begin b s))
     <= PulseManager.requiredGap (pulseManager (begin b s)).
Proof.
  intros Hd Hhi.
  destruct (begin_shape b s)
    as (s8 & E & Hcfg & _ & _ & _ & Hdur & Hpause & Hgap & _).
  assert (Hp : pulseManager (begin b s) = pulseManager s8).
  { rewrite E. cbn [info log set_lastNtpSyncMs pulseManager].
    now destruct (tryStartCatchUp_frame "boot" (bt_catchup b) s8) as (-> & _). }
  assert (Hc : config (begin b s) = config s).
  { rewrite E. cbn [info log set_lastNtpSyncMs config].
    destruct (tryStartCatchUp_frame "boot" (bt_catchup b) s8) as (_ & _ & _ & ->).
    exact Hcfg. }
  assert (Hu : u32 (u32 (impulseDelayMs (config s)) + 150 + 50)
               = impulseDelayMs (config s) + 200).
  { rewrite (u32_small (impulseDelayMs (config s))) by lia.
    rewrite u32_small by lia. lia. }
  assert (Hi : catchupIntervalMs (startCatchUp diff reason (begin b s))
               = impulseDelayMs (config s) + 200).
  { unfold startCatchUp. cbn [info log catchupIntervalMs set_catchupActive
      set_catchupLastPulseMs set_catchupIntervalMs].
    now rewrite Hc, Hu. }
  assert (Hr : PulseManager.requiredGap (pulseManager (begin b s))
               = Z.max 600 (impulseDelayMs (config s) + 200)).
  { unfold PulseManager.requiredGap. rewrite Hp, Hdur, Hpause, Hgap, Hu.
    rewrite u32_small by lia.
    destruct (Z.ltb_spec (impulseDelayMs (config s) + 200) 600); lia. }
  rewrite Hi, Hr, Hp, Hdur, Hpause. repeat split; lia.
Qed.

Lemma begin_sets_consistent_timing_witness :
  PulseManager.requiredGap
    (pulseManager (begin bootAt0007 (engineWithFile "00:00"))) = 700
  /\ catchupIntervalMs
       (startCatchUp 5 "manual" (begin bootAt0007 (engineWithFile "00:00")))
     = 700.
Proof.
  destruct (begin_sets_consistent_timing bootAt0007 (engineWithFile "00:00")
              5 "manual"%string)
    as (H1 & H2 & H3 & H4 & _).
  - vm_compute. discriminate.
  - vm_compute. reflexivity.
  - split; [exact H3 |]. rewrite H4, H1, H2. reflexivity.
Defined.

End EngineBoot.

(** ** SystemManager: manual set and periodic resync *)

Section EngineManualAndResync.

Import SystemManager.

Implicit Types (s : t) (k : Clock) (e : LoopReading).

(** X12.  A manual set to minute c (0..1439) always records c as the
    physical minute and persists it, and never drives the coil itself.
    With a forward difference within the cap it (re)starts a session
    owing exactly that difference, also over a session already running;
    with a difference of 0 or over the cap it leaves the session state
    as it was, so a running session keeps running. *)
Theorem manual_set_records_and_restarts k (c : Z) s :
  0 <= c < 1440 ->
  lastImpulseMinutes (OnManualClockSet k c s) = c
  /\ stateManager (OnManualClockSet k c s)
     = snd (StateManager.saveClockTime
              (mkDateTime 2000 1 1 (Z.quot c 60) (Z.rem c 60) 0)
              (stateManager s))
  /\ pulseManager (OnManualClockSet k c s) = pulseManager s
  /\ (0 < diffForwardMinutes c (minutesOfDay (now (config s) k))
        <= maxCatchupMinutes (config s) ->
      catchupActive (OnManualClockSet k c s) = true
      /\ catchupRemaining (OnManualClockSet k c s)
         = diffForwardMinutes c (minutesOfDay (now (config s) k))
      /\ catchupLastPulseMs (OnManualClockSet k c s) = 0)
  /\ (diffForwardMinutes c (minutesOfDay (now (config s) k)) = 0
      \/ maxCatchupMinutes (config s)
         < diffForwardMinutes c (minutesOfDay (now (config s) k)) ->
      catchupActive (OnManualClockSet k c s) = catchupActive s
      /\ catchupRemaining (OnManualClockSet k c s) = catchupRemaining s
      /\ catchupLastPulseMs (OnManualClockSet k c s) = catchupLastPulseMs s
      /\ catchupIntervalMs (OnManualClockSet k c s) = catchupIntervalMs s).
Proof.
  intros Hc.
  assert (Hrem : Z.rem c 1440 = c) by (apply Z.rem_small; lia).
  unfold OnManualClockSet. cbn [config info log].
  destruct (Z.ltb_spec (maxCatchupMinutes (config s))
              (diffForwardMinutes c (minutesOfDay (now (config s) k))))
    as [Hover | Hin].
  - cbn. rewrite Hrem. do 3 (split; [reflexivity |]).
    split; intros H; (lia || (repeat split; reflexivity)).
  - destruct (Z.eqb_spec
                (diffForwardMinutes c (minutesOfDay (now (config s) k))) 0)
      as [E | E].
    + cbn. rewrite Hrem. do 3 (split; [reflexivity |]).
      split; intros H; (lia || (repeat split; reflexivity)).
    + cbn. rewrite Hrem. do 3 (split; [reflexivity |]).
      split; intros H; (lia || (repeat split; reflexivity)).
Qed.

Lemma manual_set_records_and_restarts_witness :
  lastImpulseMinutes (OnManualClockSet (clockAt 10 3) 600 engineCatchingUp) = 600
  /\ catchupRemaining (OnManualClockSet (clockAt 10 3) 600 engineCatchingUp) = 3
  /\ catchupRemaining (OnManualClockSet (clockAt 10 0) 600 engineCatchingUp) = 100.
Proof.
  destruct (manual_set_records_and_restarts (clockAt 10 3) 600 engineCatchingUp)
    as (H1 & _ & _ & H4 & _); [lia |].
  destruct (manual_set_records_and_restarts (clockAt 10 0) 600 engineCatchingUp)
    as (_ & _ & _ & _ & H5); [lia |].
  split; [exact H1 |]. split.
  - apply H4. vm_compute. intuition discriminate.
  - apply H5. left. reflexivity.
Defined.

Lemma tickCatchUp_lastNtpSyncMs (r : CatchUpReading) s :
  lastNtpSyncMs (tickCatchUp r s) = lastNtpSyncMs s
  /\ config (tickCatchUp r s) = config s.
Proof.
  unfold tickCatchUp. repeat break_if; try (split; reflexivity).
  all: destruct (PulseManager.triggerPulse (cu_trigNow r) (cu_trigDone r) true
                   (pulseManager s)); repeat break_if; split; reflexivity.
Qed.

Lemma checkMinuteChange_lastNtpSyncMs k (a b : Z) s :
  lastNtpSyncMs (checkMinuteChange k a b s) = lastNtpSyncMs s.
Proof.
  unfold checkMinuteChange. repeat break_if; try reflexivity.
  all: destruct (PulseManager.triggerPulse a b false (pulseManager s));
    repeat break_if; reflexivity.
Qed.

(** Without a resync an iteration of loop is the tick and the catch-up
    engine. *)
Lemma loop_without_resync e s :
  isAuto (config s) = false
  \/ syncEveryMs (config s) = 0
  \/ u32 (lp_nowMs e - lastNtpSyncMs s) < syncEveryMs (config s) ->
  loop e s = tickOnly e s.
Proof.
  intros H. unfold loop, tickOnly.
  set (s2 := tickCatchUp (lp_catchup e)
               (checkMinuteChange (lp_clock e) (lp_trigNow e)
                  (lp_trigDone e) s)).
  assert (Hc : config s2 = config s).
  { unfold s2. rewrite (proj2 (tickCatchUp_lastNtpSyncMs _ _)).
    apply checkMinuteChange_config. }
  assert (Hn : lastNtpSyncMs s2 = lastNtpSyncMs s).
  { unfold s2. rewrite (proj1 (tickCatchUp_lastNtpSyncMs _ _)).
    apply checkMinuteChange_lastNtpSyncMs. }
  rewrite Hc, Hn. fold (syncEveryMs (config s)).
  destruct (isAuto (config s)); [| reflexivity]. cbn [negb].
  destruct (Z.eqb_spec (syncEveryMs (config s)) 0); [reflexivity |].
  destruct (Z.ltb_spec (u32 (lp_nowMs e - lastNtpSyncMs s))
              (syncEveryMs (config s))); [reflexivity |].
  destruct H as [H | [H | H]]; [discriminate | contradiction | lia].
Qed.

(** X13.  The periodic resync runs only in auto mode, only with a cadence
    that is not zero, and only once a full cadence has elapsed on the
    millisecond counter since the last one; otherwise an iteration of
    loop is the minute tick followed by the catch-up engine and nothing
    else.  For a cadence of 1 to 71582 minutes the interval is exactly
    that many minutes in milliseconds. *)
Theorem resync_waits_for_cadence e s :
  (isAuto (config s) = false
   \/ syncEveryMs (config s) = 0
   \/ u32 (lp_nowMs e - lastNtpSyncMs s) < syncEveryMs (config s) ->
   loop e s = tickOnly e s)
  /\ (0 <= ntpResyncEveryMinutes (config s) <= 71582 ->
      syncEveryMs (config s) = ntpResyncEveryMinutes (config s) * 60000).
Proof.
  split.
  - apply loop_without_resync.
  - intros H. unfold syncEveryMs.
    rewrite (u32_small (ntpResyncEveryMinutes (config s))) by lia.
    rewrite u32_small by lia. lia.
Qed.

Lemma resync_waits_for_cadence_witness :
  loop (loopAt 1000 0 5) (engineAt cfgAuto 0)
  = tickOnly (loopAt 1000 0 5) (engineAt cfgAuto 0)
  /\ syncEveryMs cfgAuto = 900000.
Proof.
  destruct (resync_waits_for_cadence (loopAt 1000 0 5) (engineAt cfgAuto 0))
    as [H1 H2].
  split.
  - apply H1. right. right. vm_compute. reflexivity.
  - apply H2. vm_compute. intuition discriminate.
Defined.

(** The cadence wraps in 32 bits: 71583 minutes make an interval of
    under 13 seconds. *)
Example cadence_wraps :
  syncEveryMs (mkConfig "auto" 500 60 180 71583) = 12704.
Proof. reflexivity. Qed.

(** X14.  Outside the DST guard a resync never moves the physical minute,
    never writes the state file and never drives the coil.  With a
    correction of zero or below the drift threshold it changes nothing
    but the log; otherwise all it can do is hand over to the gate
    tryStartCatchUp. *)
Theorem resync_outside_dst_guard (r : ResyncReading) s :
  dstGuard (dstFlip r) (sysDelta r) = false ->
  lastImpulseMinutes (resync r s) = lastImpulseMinutes s
  /\ stateManager (resync r s) = stateManager s
  /\ pulseManager (resync r s) = pulseManager s
  /\ (sysDelta r = 0 \/ sysDelta r < u32 (resyncRtcIfDiffSeconds (config s)) ->
      resync r s = info (MsgTzFlags (rs_isdstBefore r) (rs_isdstAfter r)) s)
  /\ (sysDelta r <> 0 -> u32 (resyncRtcIfDiffSeconds (config s)) <= sysDelta r ->
      resync r s
      = tryStartCatchUp "ntp-resync" (rs_clock r)
          (info (MsgResyncCorrected (sysDelta r))
             (info (MsgTzFlags (rs_isdstBefore r) (rs_isdstAfter r)) s))).
Proof.
  intros Hg. unfold resync. rewrite Hg. cbn [config info log].
  destruct (Z.eqb_spec (sysDelta r) 0) as [E | E].
  - repeat split; auto. intros; contradiction.
  - destruct (Z.leb_spec (u32 (resyncRtcIfDiffSeconds (config s))) (sysDelta r))
      as [L | L].
    + destruct (tryStartCatchUp_frame "ntp-resync" (rs_clock r)
                  (info (MsgResyncCorrected (sysDelta r))
                     (info (MsgTzFlags (rs_isdstBefore r) (rs_isdstAfter r)) s)))
        as (H1 & H2 & H3 & _).
      rewrite H1, H2, H3. repeat split; auto. intros [? | ?]; lia.
    + repeat split; auto. intros; lia.
Qed.

Lemma resync_outside_dst_guard_witness :
  lastImpulseMinutes (resync dstTwoHours (engineAt cfgAuto 0)) = 0
  /\ persisted (resync dstTwoHours (engineAt cfgAuto 0)) = None.
Proof.
  destruct (resync_outside_dst_guard dstTwoHours (engineAt cfgAuto 0) eq_refl)
    as (H1 & H2 & _).
  split; [exact H1 |]. unfold persisted. rewrite H2. reflexivity.
Defined.

End EngineManualAndResync.

(** ** WebServerManager: manual time entry and log download *)

Section WebHandlers.

Import SystemManager.

Implicit Types (s : t) (k : Clock).

Lemma OnManualClockSet_records k (c : Z) s :
  lastImpulseMinutes (OnManualClockSet k c s) = Z.rem c 1440
  /\ stateManager (OnManualClockSet k c s)
     = snd (StateManager.saveClockTime
              (mkDateTime 2000 1 1 (Z.quot c 60) (Z.rem c 60) 0)
              (stateManager s))
  /\ pulseManager (OnManualClockSet k c s) = pulseManager s.
Proof. unfold OnManualClockSet. repeat break_if; cbn; auto. Qed.

Lemma printState_flags (text : string) (sd : StateManager.SD) :
  StateManager.readable (WebServerManager.printState text sd)
  = StateManager.readable sd
  /\ StateManager.writable (WebServerManager.printState text sd)
     = StateManager.writable sd.
Proof.
  unfold WebServerManager.printState.
  destruct (StateManager.writable sd) eqn:E; cbn; auto.
Qed.

Lemma load_after_save (h m : Z) (lt : option (Z * Z)) (sd : StateManager.SD) :
  StateManager.writable sd = true -> StateManager.readable sd = true ->
  0 <= h < 24 -> 0 <= m < 60 ->
  fst (StateManager.loadLastKnownClockTime lt
         (snd (StateManager.saveClockTime (mkDateTime 2000 1 1 h m 0) sd)))
  = mkDateTime 2000 1 1 h m 0.
Proof.
  intros Hw Hr Hh Hm. unfold StateManager.saveClockTime. rewrite Hw.
  unfold StateManager.loadLastKnownClockTime, StateManager.overwrite,
    StateManager.formatDateTime.
  cbn [snd StateManager.file StateManager.readable hour minute]. rewrite Hr.
  now rewrite saved_line_parses.
Qed.

Lemma load_after_print (h m : Z) (lt : option (Z * Z)) (sd : StateManager.SD) :
  StateManager.writable sd = true -> StateManager.readable sd = true ->
  0 <= h < 24 -> 0 <= m < 60 ->
  fst (StateManager.loadLastKnownClockTime lt
         (WebServerManager.printState (StateManager.hhmm h m) sd))
  = mkDateTime 2000 1 1 h m 0.
Proof.
  intros Hw Hr Hh Hm. unfold WebServerManager.printState. rewrite Hw.
  unfold StateManager.loadLastKnownClockTime.
  cbn [StateManager.file StateManager.readable]. rewrite Hr.
  now rewrite printed_line_parses.
Qed.

Lemma minutes_split (h m : Z) :
  0 <= h <= 23 -> 0 <= m <= 59 ->
  Z.rem (h * 60 + m) 1440 = h * 60 + m
  /\ Z.quot (h * 60 + m) 60 = h
  /\ Z.rem (h * 60 + m) 60 = m.
Proof.
  intros Hh Hm. split; [apply Z.rem_small; lia |].
  rewrite Z.quot_div_nonneg, Z.rem_mod_nonneg by lia.
  rewrite (Z.add_comm (h * 60) m), Z.div_add, Z.mod_add by lia.
  rewrite Z.div_small, Z.mod_small by lia. lia.
Qed.

(** A request whose text scans as an hour and a minute in range is
    carried out: the time is saved, printed to the state file and handed
    to the engine's callback. *)
Lemma handleApiSetState_valid (text : string) (h m : Z) (registered : bool)
  k s :
  Scan.sscanf Scan.fmt_time (ArduinoString.trim text) = [h; m] ->
  0 <= h <= 23 -> 0 <= m <= 59 ->
  WebServerManager.handleApiSetState true
    (WebServerManager.Json (Some text)) registered k s
  = (WebServerManager.Send 200 "text/plain" "State updated and rescheduled",
     if registered
     then OnManualClockSet k (h * 60 + m)
            (set_stateManager
               (WebServerManager.printState (StateManager.hhmm h m)
                  (stateManager (saveClockTime h m s)))
               (saveClockTime h m s))
     else set_stateManager
            (WebServerManager.printState (StateManager.hhmm h m)
               (stateManager (saveClockTime h m s)))
            (saveClockTime h m s)).
Proof.
  intros Es Hh Hm. unfold WebServerManager.handleApiSetState.
  cbn [negb]. rewrite Es. cbn [List.length Scan.assign nth].
  destruct (Z.ltb_spec h 0); [lia |].
  destruct (Z.ltb_spec 23 h); [lia |].
  destruct (Z.ltb_spec m 0); [lia |].
  destruct (Z.ltb_spec 59 m); [lia |].
  reflexivity.
Qed.

(** X15.  POST /api/set-state reaches the engine only with a valid time
    of day, and with every valid one.  Either the request is answered
    200, and then editing is enabled, the body carried a clock_time text
    which, trimmed, scans under "%d:%d" as exactly an hour h in 0..23 and
    a minute m in 0..59, the engine (if its callback is registered) has
    h*60+m as physical minute, the coil has not been driven, and on a card
    that can be written and read the next load returns exactly h:m; or it
    is answered 400 or 403 and nothing at all has changed.  Conversely,
    with editing enabled every text that scans as such an h and m is
    answered 200. *)
Theorem set_state_reaches_engine_only_with_valid_time
  (webEditEnabled : bool) (req : WebServerManager.Body) (registered : bool)
  k s :
  ((exists text h m,
       req = WebServerManager.Json (Some text)
       /\ Scan.sscanf Scan.fmt_time (ArduinoString.trim text) = [h; m]
       /\ 0 <= h <= 23 /\ 0 <= m <= 59 /\ webEditEnabled = true
       /\ fst (WebServerManager.handleApiSetState webEditEnabled req registered k s)
          = WebServerManager.Send 200 "text/plain" "State updated and rescheduled"
       /\ (registered = true ->
           lastImpulseMinutes
             (snd (WebServerManager.handleApiSetState webEditEnabled req
                     registered k s)) = h * 60 + m)
       /\ (registered = false ->
           lastImpulseMinutes
             (snd (WebServerManager.handleApiSetState webEditEnabled req
                     registered k s)) = lastImpulseMinutes s)
       /\ pulseManager
            (snd (WebServerManager.handleApiSetState webEditEnabled req
                    registered k s)) = pulseManager s
       /\ (StateManager.writable (stateManager s) = true ->
           StateManager.readable (stateManager s) = true ->
           forall lt,
             fst (StateManager.loadLastKnownClockTime lt
                    (stateManager
                       (snd (WebServerManager.handleApiSetState webEditEnabled
                               req registered k s))))
             = mkDateTime 2000 1 1 h m 0))
   \/ (snd (WebServerManager.handleApiSetState webEditEnabled req registered k s)
       = s
       /\ exists code text,
           fst (WebServerManager.handleApiSetState webEditEnabled req
                  registered k s)
           = WebServerManager.Send code "text/plain" text
           /\ (code = 400 \/ code = 403)))
  /\ (forall text h m,
         webEditEnabled = true ->
         req = WebServerManager.Json (Some text) ->
         Scan.sscanf Scan.fmt_time (ArduinoString.trim text) = [h; m] ->
         0 <= h <= 23 -> 0 <= m <= 59 ->
         fst (WebServerManager.handleApiSetState webEditEnabled req
                registered k s)
         = WebServerManager.Send 200 "text/plain"
             "State updated and rescheduled").
Proof.
  split.
  2:{ intros text h m -> -> Es Hh Hm.
      now rewrite (handleApiSetState_valid text h m registered k s Es Hh Hm). }
  destruct webEditEnabled;
    [| right; split; [reflexivity | eexists _, _; split; [reflexivity | auto]]].
  destruct req as [| | [hhmmC |]];
    try (right; split; [reflexivity | eexists _, _; split; [reflexivity | auto]]).
  destruct (Scan.sscanf Scan.fmt_time (ArduinoString.trim hhmmC))
    as [| h [| m [| x r]]] eqn:Es.
  1, 2, 4: right; unfold WebServerManager.handleApiSetState;
    rewrite count_is_2, Es; cbn [negb orb];
    (split; [reflexivity | eexists _, _; split; [reflexivity | auto]]).
  assert (Hdec : (0 <= h <= 23 /\ 0 <= m <= 59)
                 \/ ((h <? 0) || (23 <? h) || (m <? 0) || (59 <? m)) = true).
  { destruct (Z.ltb_spec h 0); [now right |].
    destruct (Z.ltb_spec 23 h); [now right |].
    destruct (Z.ltb_spec m 0); [now right |].
    destruct (Z.ltb_spec 59 m); [now right |].
    left. lia. }
  destruct Hdec as [[Hh Hm] | Hbad].
  2:{ right. unfold WebServerManager.handleApiSetState.
      rewrite count_is_2, Es. cbn [negb orb Scan.assign nth]. rewrite Hbad.
      split; [reflexivity | eexists _, _; split; [reflexivity | auto]]. }
  left. exists hhmmC, h, m.
  rewrite (handleApiSetState_valid hhmmC h m registered k s Es Hh Hm).
  destruct (minutes_split h m Hh Hm) as (M1 & M2 & M3).
  cbn [fst snd].
  do 6 (split; [auto |]).
  destruct registered.
  - destruct (OnManualClockSet_records k (h * 60 + m)
                (set_stateManager
                   (WebServerManager.printState (StateManager.hhmm h m)
                      (stateManager (saveClockTime h m s)))
                   (saveClockTime h m s))) as (R1 & R2 & R3).
    split; [intros _; rewrite R1; exact M1 |].
    split; [discriminate |].
    split; [rewrite R3; reflexivity |].
    intros Hw Hr lt. rewrite R2, M2, M3.
    apply load_after_save; try lia.
    + cbn [stateManager set_stateManager].
      rewrite (proj2 (printState_flags _ _)). unfold saveClockTime.
      cbn [stateManager set_stateManager].
      now rewrite (proj2 (saveClockTime_flags _ _)).
    + cbn [stateManager set_stateManager].
      rewrite (proj1 (printState_flags _ _)). unfold saveClockTime.
      cbn [stateManager set_stateManager].
      now rewrite (proj1 (saveClockTime_flags _ _)).
  - split; [discriminate |]. split; [reflexivity |]. split; [reflexivity |].
    intros Hw Hr lt. cbn [stateManager set_stateManager].
    apply load_after_print; try lia.
    + unfold saveClockTime. cbn [stateManager set_stateManager].
      now rewrite (proj2 (saveClockTime_flags _ _)).
    + unfold saveClockTime. cbn [stateManager set_stateManager].
      now rewrite (proj1 (saveClockTime_flags _ _)).
Qed.

Lemma set_state_reaches_engine_only_with_valid_time_witness :
  lastImpulseMinutes
    (snd (WebServerManager.handleApiSetState true
            (WebServerManager.Json (Some " 10:00 "%string)) true
            (clockAt 10 3) (engineAt cfgAuto 0))) = 600
  /\ fst (WebServerManager.handleApiSetState true
            (WebServerManager.Json (Some " 10:00 "%string)) true
            (clockAt 10 3) (engineAt cfgAuto 0))
     = WebServerManager.Send 200 "text/plain" "State updated and rescheduled"
  /\ snd (WebServerManager.handleApiSetState true
            (WebServerManager.Json (Some "24:00"%string)) true
            (clockAt 10 3) (engineAt cfgAuto 0)) = engineAt cfgAuto 0.
Proof.
  split; [| split].
  - destruct (set_state_reaches_engine_only_with_valid_time true
                (WebServerManager.Json (Some " 10:00 "%string)) true
                (clockAt 10 3) (engineAt cfgAuto 0))
      as [[(text & h & m & Er & Es & _ & _ & _ & _ & Hl & _) | (H & _)] _].
    + injection Er as <-. vm_compute in Es. injection Es as <- <-.
      exact (Hl eq_refl).
    + apply (f_equal lastImpulseMinutes) in H. vm_compute in H.
      discriminate H.
  - destruct (set_state_reaches_engine_only_with_valid_time true
                (WebServerManager.Json (Some " 10:00 "%string)) true
                (clockAt 10 3) (engineAt cfgAuto 0)) as [_ Hc].
    apply (Hc " 10:00 "%string 10 0); try reflexivity;
      vm_compute; intuition discriminate.
  - destruct (set_state_reaches_engine_only_with_valid_time true
                (WebServerManager.Json (Some "24:00"%string)) true
                (clockAt 10 3) (engineAt cfgAuto 0))
      as [[(text & h & m & Er & Es & Hh & _) | (H & _)] _].
    + injection Er as <-. vm_compute in Es. injection Es as <- <-.
      exfalso. destruct Hh as [_ Hh]. apply Hh. reflexivity.
    + exact H.
Defined.

Lemma countChar_app (c : ascii) (a b : string) :
  ArduinoString.countChar c (a ++ b)
  = (ArduinoString.countChar c a + ArduinoString.countChar c b)%nat.
Proof.
  induction a as [| x a IH]; cbn; [reflexivity |]. rewrite IH. lia.
Qed.

Lemma hasChar_count (c : ascii) (s : string) :
  ArduinoString.hasChar c s = false -> ArduinoString.countChar c s = O.
Proof.
  induction s as [| x s IH]; cbn; [reflexivity |].
  intros H. apply orb_false_iff in H. destruct H as [H1 H2].
  rewrite H1. now apply IH.
Qed.

(** X16.  GET /api/logfile never leaves the log directory: a file is
    streamed only under the path /logs/<name>, where the requested name
    holds no slash, no backslash and no "..", so that the path has the
    two slashes of "/logs/" and no other, and where the name ends in
    ".txt" in some letter case. *)
Theorem logfile_stays_in_logs (file : option string)
  (opens : string -> bool) (path contentType : string) :
  WebServerManager.handleApiLogsFile file opens
  = WebServerManager.Stream path contentType ->
  exists name,
    file = Some name
    /\ path = ("/logs/" ++ name)%string
    /\ ArduinoString.countChar "/" path = 2%nat
    /\ ArduinoString.hasChar "092" name = false
    /\ ArduinoString.hasSub ".." name = false
    /\ ArduinoString.endsWith (ArduinoString.toLowerCase name) ".txt" = true
    /\ opens path = true
    /\ contentType = "text/plain"%string.
Proof.
  unfold WebServerManager.handleApiLogsFile.
  destruct file as [name |]; [| discriminate].
  destruct (ArduinoString.hasChar "/" name) eqn:H1; [discriminate |].
  destruct (ArduinoString.hasChar "092" name) eqn:H2; [discriminate |].
  destruct (ArduinoString.hasSub ".." name) eqn:H3; [discriminate |].
  cbn [orb].
  destruct (ArduinoString.endsWith (ArduinoString.toLowerCase name) ".txt")
    eqn:H4; [| discriminate].
  cbn [negb].
  destruct (opens ("/logs/" ++ name)%string) eqn:H5; [| discriminate].
  cbn [negb]. intros E. injection E as E1 E2. subst path contentType.
  exists name. repeat split; auto.
  change (ArduinoString.countChar "/" ("/logs/" ++ name)
          = (2 + 0)%nat).
  rewrite countChar_app, (hasChar_count _ _ H1). reflexivity.
Qed.

Lemma logfile_stays_in_logs_witness :
  ArduinoString.countChar "/" "/logs/2025-08-19.TXT" = 2%nat.
Proof.
  destruct (logfile_stays_in_logs (Some "2025-08-19.TXT"%string)
              (fun _ => true) "/logs/2025-08-19.TXT" "text/plain" eq_refl)
    as (name & _ & _ & H & _).
  exact H.
Defined.

Example logfile_rejects_traversal :
  WebServerManager.handleApiLogsFile (Some "..%2fstate.txt"%string) (fun _ => true)
  = WebServerManager.Send 400 "text/plain" "Bad file name".
Proof. reflexivity. Qed.

End WebHandlers.

(** ** ConfigManager: defaults and clamps *)

Section ConfigFacts.

Import ConfigManager.

(** X17.  Whatever the SD card and the file give, the configuration that
    begin leaves has a resync cadence that is not negative and a minute
    offset within 0..59; when begin reports failure the configuration is
    exactly the defaults; and a file that parses but holds none of the
    keys loads, successfully, to exactly those same defaults.  The
    catch-up cap and the impulse delay are taken as they come. *)
Theorem config_begin_clamps_and_defaults (sdOk : bool) (f : ConfigFile)
  (c0 : Config) :
  0 <= ntpResyncEveryMinutes (snd (begin sdOk f c0))
  /\ 0 <= timeZoneOffsetMin (snd (begin sdOk f c0)) <= 59
  /\ (fst (begin sdOk f c0) = false -> snd (begin sdOk f c0) = applyDefaults)
  /\ begin true (FileParsed emptyDoc) c0 = (true, applyDefaults)
  /\ (forall doc v,
         j_max_catchup_minutes doc = Some v ->
         maxCatchupMinutes (snd (begin true (FileParsed doc) c0)) = v).
Proof.
  split; [| split; [| split; [| split]]].
  - unfold begin. destruct sdOk; cbn [negb]; [| cbn; lia].
    destruct f as [| | doc]; cbn; try lia.
    destruct (Z.ltb_spec (orElse (j_ntp_resync_every_minutes doc) 15) 0); lia.
  - unfold begin. destruct sdOk; cbn [negb]; [| cbn; lia].
    destruct f as [| | doc]; cbn; try lia.
    destruct (Z.ltb_spec (orElse (j_time_zone_offset_min doc) 0) 0);
      [cbn; lia |].
    destruct (Z.ltb_spec 59 (orElse (j_time_zone_offset_min doc) 0)); lia.
  - unfold begin. destruct sdOk; cbn [negb]; [| reflexivity].
    destruct f as [| | doc]; cbn; [reflexivity | reflexivity | discriminate].
  - reflexivity.
  - intros doc v Hv. cbn. now rewrite Hv.
Qed.

Lemma config_begin_clamps_and_defaults_witness :
  snd (begin false FileMissing applyDefaults) = applyDefaults.
Proof.
  destruct (config_begin_clamps_and_defaults false FileMissing applyDefaults)
    as (_ & _ & H & _).
  apply H. reflexivity.
Defined.

Example config_clamps_sample :
  let doc := mkDoc None None None (Some "  POSIX "%string) None None (Some 75)
               None None None None None (Some (-5)) None None (Some (-3)) in
  let c := snd (begin true (FileParsed doc) applyDefaults) in
  tz_mode c = "posix"%string /\ timeZoneOffsetMin c = 59
  /\ maxCatchupMinutes c = -5 /\ ntpResyncEveryMinutes c = 0.
Proof. repeat split; reflexivity. Qed.

(** X18.  A cadence of zero or below in the configuration file switches
    the periodic resync off: the loader clamps it to 0, and an engine
    running on the loaded configuration never resyncs, so each
    iteration of loop is the minute tick and the catch-up engine only. *)
Theorem nonpositive_cadence_disables_resync (doc : Doc) (c0 : Config)
  (v : Z) (e : SystemManager.LoopReading) (s : SystemManager.t) :
  j_ntp_resync_every_minutes doc = Some v -> v <= 0 ->
  SystemManager.config s = forEngine (snd (begin true (FileParsed doc) c0)) ->
  ntpResyncEveryMinutes (snd (begin true (FileParsed doc) c0)) = 0
  /\ SystemManager.loop e s = tickOnly e s.
Proof.
  intros Hv Hle Hc.
  assert (H0 : ntpResyncEveryMinutes (snd (begin true (FileParsed doc) c0)) = 0).
  { cbn. rewrite Hv. cbn [orElse].
    destruct (Z.ltb_spec v 0); lia. }
  split; [exact H0 |].
  apply loop_without_resync. right. left.
  unfold syncEveryMs. rewrite Hc. unfold forEngine.
  cbn [SystemManager.ntpResyncEveryMinutes]. rewrite H0. reflexivity.
Qed.

Lemma nonpositive_cadence_disables_resync_witness :
  SystemManager.loop (loopAt 1000000 0 5)
    (engineAt (forEngine
                 (snd (begin true
                         (FileParsed
                            (mkDoc None None None None None None None None
                               None None None None None None None (Some (-3))))
                         applyDefaults))) 0)
  = tickOnly (loopAt 1000000 0 5)
      (engineAt (forEngine
                   (snd (begin true
                           (FileParsed
                              (mkDoc None None None None None None None None
                                 None None None None None None None (Some (-3))))
                           applyDefaults))) 0).
Proof.
  apply (nonpositive_cadence_disables_resync
           (mkDoc None None None None None None None None
              None None None None None None None (Some (-3)))
           applyDefaults (-3));
    [reflexivity | lia | reflexivity].
Defined.

End ConfigFacts.

(** ** RTCManager: NTP synchronisation and the TZ string *)

Section RtcFacts.

Import RTCManager.

Variable unixtime : DateTime -> Z.

Lemma labs32_same (a : Z) : labs32 a a = 0.
Proof. unfold labs32. rewrite Z.sub_diag. reflexivity. Qed.

Lemma getNtpTime_first_success (n : nat) (dt : DateTime)
  (rest : list (option DateTime)) :
  getNtpTime (repeat None n ++ Some dt :: rest) = dt.
Proof. induction n as [| n IH]; cbn; auto. Qed.

(** X19.  syncWithNtp and the sentinel.  When every poll fails,
    getNtpTime returns the sentinel of year 2000, which syncWithNtp takes
    as a failure: it returns false and leaves the RTC alone.  Otherwise
    the answer is the first successful poll; the RTC is either left as it
    is or set to that answer, and it is set only when the drift exceeds
    the allowed difference.  Syncing twice on the same answer leaves the
    RTC as one sync does. *)
Theorem syncWithNtp_behaviour (polls : list (option DateTime))
  (maxAllowedDiffSec : Z) (c : Chip) :
  (forall n, syncWithNtp unixtime (repeat None n) maxAllowedDiffSec c = (false, c))
  /\ (forall n dt rest,
         getNtpTime (repeat None n ++ Some dt :: rest) = dt)
  /\ fst (syncWithNtp unixtime polls maxAllowedDiffSec c)
     = usable (getNtpTime polls)
  /\ (snd (syncWithNtp unixtime polls maxAllowedDiffSec c) = c
      \/ (snd (syncWithNtp unixtime polls maxAllowedDiffSec c)
          = mkChip (rtcOk c) (getNtpTime polls)
          /\ usable (getNtpTime polls) = true
          /\ maxAllowedDiffSec
             < labs32 (unixtime (getNtpTime polls)) (unixtime (now c))))
  /\ snd (syncWithNtp unixtime polls maxAllowedDiffSec
            (snd (syncWithNtp unixtime polls maxAllowedDiffSec c)))
     = snd (syncWithNtp unixtime polls maxAllowedDiffSec c).
Proof.
  split; [| split; [| split; [| split]]].
  - intros n. unfold syncWithNtp. now rewrite getNtpTime_all_failed.
  - apply getNtpTime_first_success.
  - unfold syncWithNtp, usable.
    destruct (Z.ltb_spec (year (getNtpTime polls)) 2020) as [L | L]; cbn.
    + symmetry. apply Z.leb_gt. exact L.
    + destruct (maxAllowedDiffSec <? _); cbn; symmetry; now apply Z.leb_le.
  - unfold syncWithNtp, usable.
    destruct (Z.ltb_spec (year (getNtpTime polls)) 2020) as [L | L]; cbn;
      [now left |].
    destruct (Z.ltb_spec maxAllowedDiffSec
                (labs32 (unixtime (getNtpTime polls)) (unixtime (now c))))
      as [D | D]; cbn; [| now left].
    right. split; [reflexivity |]. split; [now apply Z.leb_le | exact D].
  - unfold syncWithNtp.
    destruct (Z.ltb_spec (year (getNtpTime polls)) 2020) as [L | L]; cbn.
    + destruct (Z.ltb_spec (year (getNtpTime polls)) 2020); [reflexivity | lia].
    + destruct (Z.ltb_spec maxAllowedDiffSec
                  (labs32 (unixtime (getNtpTime polls)) (unixtime (now c))))
        as [D | D]; cbn.
      * destruct (Z.ltb_spec (year (getNtpTime polls)) 2020); [lia |].
        unfold now; cbn. now destruct (maxAllowedDiffSec <? _).
      * destruct (Z.ltb_spec (year (getNtpTime polls)) 2020); [lia |].
        destruct (Z.ltb_spec maxAllowedDiffSec
                    (labs32 (unixtime (getNtpTime polls)) (unixtime (now c))));
          [lia | reflexivity].
Qed.

(** X20.  buildTZ takes the direction of a fixed offset from the hours
    alone: the sign of the minutes is dropped, so an offset of h hours
    and m minutes gives the same TZ string as h hours and -m minutes
    (east and west of UTC cannot be told apart when the hours are zero),
    and with EU DST asked for the offsets are not looked at. *)
Theorem buildTZ_ignores_minute_sign (h m h' m' : Z) :
  buildTZ h m false = buildTZ h (- m) false
  /\ buildTZ h m true = buildTZ h' m' true
  /\ buildTZ h 0 false = ("LTZ" ++ fmt_signed (- h))%string.
Proof.
  split; [| split; reflexivity].
  unfold buildTZ. rewrite Z.opp_involutive, Z.abs_opp.
  destruct (Z.eqb_spec (- m) 0), (Z.eqb_spec m 0); try lia; reflexivity.
Qed.

Example buildTZ_samples :
  buildTZ 2 0 false = "LTZ-2"%string
  /\ buildTZ 5 30 false = "LTZ-5:30"%string
  /\ buildTZ (-3) 30 false = "LTZ+3:30"%string
  /\ buildTZ 0 30 false = "LTZ+0:30"%string
  /\ buildTZ 0 (-30) false = "LTZ+0:30"%string.
Proof. repeat split; reflexivity. Qed.

End RtcFacts.

(** ** Logger: which file a line goes to *)

Section LoggerFacts.

Import Logger.

Lemma substring_head (n : nat) (c : ascii) (r : string) :
  substring 0 (S n) (String c r) = String c (substring 0 n r).
Proof. reflexivity. Qed.

Lemma append_nonempty (a : string) (c : ascii) (r : string) :
  exists c' r', (a ++ String c r)%string = String c' r'.
Proof. destruct a as [| x a]; cbn; eauto. Qed.

(** A date string is never empty. *)
Lemma todayDateString_nonempty (rtc : RTCManager.Chip) :
  String.eqb (todayDateString rtc) EmptyString = false.
Proof.
  unfold todayDateString. destruct (RTCManager.isRtcAvailable rtc); cbn [negb];
    [| reflexivity].
  destruct (append_nonempty (zpad 4 (year (RTCManager.now rtc))) "-"
              (zpad 2 (month (RTCManager.now rtc)) ++ "-"
                 ++ zpad 2 (day (RTCManager.now rtc))))
    as (c & r & E).
  cbn [append] in E |- *. rewrite E. reflexivity.
Qed.

Lemma rotate_keeps_real_date (rtc : RTCManager.Chip) (l : t) :
  realDate (currentDate l) = true ->
  realDate (currentDate (rotateIfNeeded rtc l)) = true
  /\ basePath (rotateIfNeeded rtc l) = basePath l
  /\ dailyMode (rotateIfNeeded rtc l) = dailyMode l
  /\ serialEnabled (rotateIfNeeded rtc l) = serialEnabled l.
Proof.
  intros Hr. unfold rotateIfNeeded.
  destruct (dailyMode l) eqn:Hd; cbn [negb]; [| auto].
  unfold realDate in Hr. apply andb_true_iff in Hr. destruct Hr as [H1 H2].
  apply negb_true_iff in H1. rewrite H1.
  destruct (String.eqb (todayDateString rtc) placeholderDate) eqn:Hp;
    cbn [negb andb].
  - unfold realDate. rewrite H1, H2. auto.
  - destruct (String.eqb (todayDateString rtc) (currentDate l)); cbn [negb].
    + unfold realDate. rewrite H1, H2. auto.
    + cbn. unfold realDate.
      rewrite todayDateString_nonempty, Hp. auto.
Qed.

Lemma log_keeps_real_date (r : Reading) (level : LogLevel) (message : string)
  (l : t) (o : Out) :
  dailyMode l = true -> realDate (currentDate l) = true ->
  realDate (currentDate (fst (log r level message l o))) = true
  /\ basePath (fst (log r level message l o)) = basePath l
  /\ dailyMode (fst (log r level message l o)) = true
  /\ forall path entry,
      In (path, entry) (appended (snd (log r level message l o))) ->
      In (path, entry) (appended o)
      \/ exists d, realDate d = true
                   /\ path = (basePath l ++ "/" ++ d ++ ".txt")%string.
Proof.
  intros Hd Hr.
  destruct (rotate_keeps_real_date (rd_rotate r) l Hr) as (R1 & R2 & R3 & R4).
  rewrite Hd in R3.
  unfold log.
  set (l1 := rotateIfNeeded (rd_rotate r) l) in *.
  assert (Hpath : activeLogPath (rd_path r) l1
                  = (basePath l ++ "/" ++ currentDate l1 ++ ".txt")%string).
  { unfold activeLogPath. rewrite R3, R2.
    unfold realDate in R1. apply andb_true_iff in R1. destruct R1 as [N _].
    apply negb_true_iff in N. now rewrite N. }
  destruct (rd_opens r); [| destruct (serialEnabled l1)];
    cbn [fst snd]; (split; [exact R1 |]); (split; [exact R2 |]);
    (split; [exact R3 |]); intros path entry Hin.
  - destruct (serialEnabled l1); cbn [appended] in Hin;
      apply in_app_or in Hin; destruct Hin as [Hin | [Hin | []]]; auto;
      injection Hin as <- _; right; exists (currentDate l1); auto.
  - cbn [appended] in Hin. auto.
  - auto.
Qed.

(** X21.  Where log lines go.  In single-file mode every line appended
    goes to the base path and the logger never changes.  In daily mode,
    once the current date is a real one (not empty, not the placeholder
    0000-00-00), it stays a real one through any series of log calls,
    also while the RTC is reported unavailable, and every line appended
    goes to <basePath>/<date>.txt for a real date: nothing is written to
    0000-00-00.txt any more. *)
Theorem log_lines_go_to_the_right_file (cs : list CallOfLog) (l : t) (o : Out) :
  (dailyMode l = false ->
   fst (logAll cs l o) = l
   /\ forall path entry,
       In (path, entry) (appended (snd (logAll cs l o))) ->
       In (path, entry) (appended o) \/ path = basePath l)
  /\ (dailyMode l = true -> realDate (currentDate l) = true ->
      realDate (currentDate (fst (logAll cs l o))) = true
      /\ basePath (fst (logAll cs l o)) = basePath l
      /\ forall path entry,
          In (path, entry) (appended (snd (logAll cs l o))) ->
          In (path, entry) (appended o)
          \/ exists d, realDate d = true
                       /\ path = (basePath l ++ "/" ++ d ++ ".txt")%string).
Proof.
  split.
  - intros Hd. revert o. induction cs as [| c cs IH]; intros o; cbn [logAll].
    + cbn. auto.
    + assert (E : fst (log (cl_reading c) (cl_level c) (cl_message c) l o) = l).
      { unfold log, rotateIfNeeded. rewrite Hd. cbn [negb].
        repeat break_if; reflexivity. }
      assert (A : forall path entry,
                 In (path, entry)
                   (appended (snd (log (cl_reading c) (cl_level c)
                                     (cl_message c) l o))) ->
                 In (path, entry) (appended o) \/ path = basePath l).
      { unfold log, rotateIfNeeded, activeLogPath. rewrite Hd. cbn [negb].
        intros path entry.
        destruct (serialEnabled l), (rd_opens (cl_reading c));
          cbn [snd appended]; intros Hin; auto;
          apply in_app_or in Hin; destruct Hin as [Hin | [Hin | []]]; auto;
          injection Hin as <- _; rewrite Hd; auto. }
      destruct (log (cl_reading c) (cl_level c) (cl_message c) l o)
        as [l1 o1]. cbn [fst snd] in E, A. subst l1.
      destruct (IH o1) as [I1 I2]. split; [exact I1 |].
      intros path entry Hin. destruct (I2 path entry Hin) as [H | H]; auto.
  - revert l o. induction cs as [| c cs IH]; intros l o Hd Hr; cbn [logAll].
    + cbn. auto.
    + destruct (log_keeps_real_date (cl_reading c) (cl_level c) (cl_message c)
                  l o Hd Hr) as (L1 & L2 & L3 & L4).
      destruct (log (cl_reading c) (cl_level c) (cl_message c) l o)
        as [l1 o1]. cbn [fst snd] in L1, L2, L3, L4.
      destruct (IH l1 o1 L3 L1) as (I1 & I2 & I3).
      split; [exact I1 |]. split; [now rewrite I2 |].
      intros path entry Hin.
      destruct (I3 path entry Hin) as [H | (d & Hd' & ->)].
      * apply L4. exact H.
      * right. exists d. rewrite L2. auto.
Qed.

Lemma log_lines_go_to_the_right_file_witness :
  realDate
    (currentDate
       (fst (logAll
               [mkCallOfLog (mkReading chipOff chipOff chipOff true) INFO "a"]
               (mk false "/logs" true "2025-08-19") noOut))) = true.
Proof.
  destruct (log_lines_go_to_the_right_file
              [mkCallOfLog (mkReading chipOff chipOff chipOff true) INFO "a"]
              (mk false "/logs" true "2025-08-19") noOut) as [_ H].
  exact (proj1 (H eq_refl eq_refl)).
Defined.

(** A logger started before the RTC answers writes to the placeholder
    file, moves to the dated file when the RTC answers, and stays there
    when the RTC is lost again. *)
Example log_rotation_sample :
  let l0 := fst (begin "/logs" false true noOut) in
  let cs := [mkCallOfLog (mkReading chipOff chipOff chipOff true) INFO "a";
             mkCallOfLog (mkReading (chipAt 2025 8 19 7 5)
                            (chipAt 2025 8 19 7 5) (chipAt 2025 8 19 7 5) true)
               ERROR "b";
             mkCallOfLog (mkReading chipOff chipOff chipOff true) INFO "c"] in
  appended (snd (logAll cs l0 noOut))
  = [("/logs/0000-00-00.txt", "[0000-00-00 00:00:00] [INFO] a");
     ("/logs/2025-08-19.txt", "[2025-08-19 07:05:00] [ERROR] b");
     ("/logs/2025-08-19.txt", "[0000-00-00 00:00:00] [INFO] c")]%string.
Proof. reflexivity. Qed.

End LoggerFacts.

(** ** The state file follows the engine *)

Section RestartConsistency.

Import SystemManager.

Implicit Types (s : t) (k : Clock) (e : LoopReading) (b : BootReading).










(** Loading leaves a card from which loading gives the same again. *)
Lemma load_stable (lt lt' : option (Z * Z)) (sd : StateManager.SD) :
  StateManager.writable sd = true -> StateManager.readable sd = true ->
  match lt with
  | Some (h, m) => 0 <= h < 24 /\ 0 <= m < 60
  | None => True
  end ->
  fst (StateManager.loadLastKnownClockTime lt'
         (snd (StateManager.loadLastKnownClockTime lt sd)))
  = fst (StateManager.loadLastKnownClockTime lt sd)
  /\ StateManager.writable (snd (StateManager.loadLastKnownClockTime lt sd))
     = true
  /\ StateManager.readable (snd (StateManager.loadLastKnownClockTime lt sd))
     = true.
Proof.
  intros Hw Hr Hlt.
  assert (Hreset : forall h m, 0 <= h < 24 -> 0 <= m < 60 ->
            fst (StateManager.loadLastKnownClockTime lt'
                   (StateManager.try_write (StateManager.hhmm h m) sd))
            = mkDateTime 2000 1 1 h m 0).
  { intros h m Hh Hm. unfold StateManager.try_write. rewrite Hw.
    unfold StateManager.loadLastKnownClockTime, StateManager.overwrite.
    cbn [StateManager.file StateManager.readable]. rewrite Hr.
    now rewrite saved_line_parses. }
  assert (Hflags : forall text,
            StateManager.writable (StateManager.try_write text sd) = true
            /\ StateManager.readable (StateManager.try_write text sd) = true).
  { intros text. destruct (try_write_flags text sd) as [-> ->]. auto. }
  assert (Hcase :
            (exists dt, forall l,
                StateManager.loadLastKnownClockTime l sd = (dt, sd))
            \/ (exists h m, 0 <= h < 24 /\ 0 <= m < 60
                 /\ StateManager.loadLastKnownClockTime lt sd
                    = (mkDateTime 2000 1 1 h m 0,
                       StateManager.try_write (StateManager.hhmm h m) sd))).
  { unfold StateManager.loadLastKnownClockTime.
    destruct (StateManager.file sd) as [text |] eqn:Hf.
    - rewrite Hr.
      destruct (parseLine_cases (StateManager.readStringUntil "010" text) sd)
        as [(h & m & V & E) | (_ & E)]; rewrite E.
      + left. eexists. intros l. reflexivity.
      + right. exists 0, 0. repeat split; try lia.
    - right. destruct lt as [[h m] |].
      + exists h, m. repeat split; try lia.
      + exists 0, 0. repeat split; try lia. }
  destruct Hcase as [(dt & E) | (h & m & Hh & Hm & E)].
  - rewrite (E lt). cbn [fst snd]. rewrite (E lt'). auto.
  - rewrite E. cbn [fst snd]. split; [now apply Hreset | apply Hflags].
Qed.








End RestartConsistency.

Section LoadTwice.

Import StateManager.

(** X23.  Loading is idempotent.  On a card that can be written and read,
    a second loadLastKnownClockTime returns the time the first one
    returned, whatever the first one found (a good line, garbage it reset
    to 00:00, or no file, which it created), and whatever localtime()
    says by then. *)
Theorem load_twice_gives_the_same (lt lt' : option (Z * Z)) (sd : SD) :
  writable sd = true -> readable sd = true ->
  match lt with
  | Some (h, m) => 0 <= h < 24 /\ 0 <= m < 60
  | None => True
  end ->
  fst (loadLastKnownClockTime lt' (snd (loadLastKnownClockTime lt sd)))
  = fst (loadLastKnownClockTime lt sd).
Proof.
  intros Hw Hr Hlt. exact (proj1 (load_stable lt lt' sd Hw Hr Hlt)).
Qed.

Lemma load_twice_gives_the_same_witness :
  fst (loadLastKnownClockTime (Some (9, 30))
         (snd (loadLastKnownClockTime (Some (12, 34)) sdEmpty)))
  = fst (loadLastKnownClockTime (Some (12, 34)) sdEmpty).
Proof.
  apply (load_twice_gives_the_same (Some (12, 34)) (Some (9, 30)) sdEmpty);
    [reflexivity | reflexivity | lia].
Defined.

End LoadTwice.
